(** * FinanceApp: installment scheduler, monthly aggregation and handlers

    A shallow embedding of the FinanceApp backend:

    - [Utils.calcular_datas_parcelas] (backend/app/utils.py), which splits a
      credit purchase into dated installments;
    - [Schemas.variacao_percentual] (backend/app/schemas.py), the computed
      savings-rate field of the dashboard summary;
    - [Dashboard.get_dashboard_summary] and
      [Dashboard.get_expenses_by_category] (backend/app/routers/dashboard.py),
      the month-scoped queries;
    - [DateUtils] and [Formatting] (backend/app/utils.py): the installments
      of a month, the date utilities and the currency text;
    - [Transactions] (backend/app/routers/transactions.py) and [Savings]
      (backend/app/routers/savings.py), the handlers that write the tables,
      with the request bodies of [Bodies] and the response models of
      [Responses] (backend/app/schemas.py).

    Representation.
    - Amounts are [Decimal] values with two fraction digits (the
      [Numeric(12, 2)] columns), held as an integer number of cents.  The
      [decimal] context keeps 28 significant digits.  The scheduler takes
      a total of any size: its quotient, product, difference and sum are
      rounded by the context, and its division and its [quantize] raise
      [Overflow] and [InvalidOperation] ([DecimalContext]).  The sums of
      the queries and of the handlers are over amounts of the columns and
      are exact, as [Numeric] sums are, so they are plain [Z] operations.
      The width of the columns is not enforced, and a row holds the amount
      that was written to it.
    - A [datetime.date] is a record of year, month and day; [valid_date] says
      that the triple names a day of the proleptic Gregorian calendar, and
      [is_date] that its year is one of the years 1 to 9999 of [datetime].
      These bounds are checked where a date is built: in
      [Datetime.new_date], in [Datetime.minus_one_day] and in
      [Dateutil.radd], the addition of months of the scheduler.
    - A Python [float] is the rational number it denotes; [Float64.b64]
      rounds a rational to the nearest binary64 value (the exponent range
      is not limited).
    - A Python [str] is a [string], its characters the code points below
      256; [Str.str] is the list of the characters.
    - The SQL tables are lists of rows; the queries are filters, joins and
      sums over them, the sums exact as [Numeric] sums are.  A handler
      takes the tables and returns the new tables with its response, or
      raises, and then nothing is written.  The handlers of [Transactions]
      carry the check of their response against the [response_model] of
      the route as well, which runs after the commit; those of [Savings]
      are the handler functions alone.  The primary key that the database
      gives to a new row is an argument of the handler. *)

From Stdlib Require Import ZArith List String Ascii Bool Lia QArith Qabs Qround Lqa.
From Stdlib Require Import Sorting.Sorted Sorting.Permutation.
Import ListNotations.

Local Open Scope Z_scope.

(** ** Exceptions *)

Inductive exn : Type :=
| ValueError (msg : string)
| RequestValidationError (field : string).

Inductive result (A : Type) : Type :=
| Ok (a : A)
| Raise (e : exn).

Arguments Ok {A} a.
Arguments Raise {A} e.

(** What a call can raise: the exceptions above ([Builtin]), the
    [OverflowError] of [datetime], [decimal.InvalidOperation] and
    [decimal.Overflow], both trapped by the default context, the
    [HTTPException] of the request handlers, and the
    [ResponseValidationError] of a response that fails the
    [response_model] of its route. *)
Inductive error : Type :=
| Builtin (e : exn)
| OverflowError (msg : string)
| InvalidOperation
| Overflow
| HTTPException (status_code : Z) (detail : string)
| ResponseValidationError.

Inductive outcome (A : Type) : Type :=
| Return (a : A)
| Throw (e : error).

Arguments Return {A} a.
Arguments Throw {A} e.

Definition bind {A B : Type} (m : outcome A) (k : A -> outcome B) : outcome B :=
  match m with
  | Return a => k a
  | Throw e => Throw e
  end.

Notation "x <- m ;; k" := (bind m (fun x => k))
  (at level 61, m at next level, right associativity).

(** [range(n)] for a Python int [n]: empty when [n <= 0]. *)
Definition range (n : Z) : list Z :=
  map Z.of_nat (seq 0 (Z.to_nat n)).

(** ** Python strings and integers as text *)

Module Str.

(** A [str] is the list of its characters; the characters are the code
    points below 256. *)
Definition str : Type := list ascii.

Definition digit_char (d : Z) : ascii := ascii_of_nat (48 + Z.to_nat d).

Fixpoint digits_aux (fuel : nat) (n : Z) (acc : str) : str :=
  match fuel with
  | O => acc
  | S fuel' =>
      let acc' := digit_char (n mod 10) :: acc in
      if n <? 10 then acc' else digits_aux fuel' (n / 10) acc'
  end.

(** The decimal digits of a natural number, without leading zeros. *)
Definition digits (n : Z) : str :=
  digits_aux (S (Z.to_nat (Z.log2 n))) n [].

(** [str(n)] for an int [n]. *)
Definition str_int (n : Z) : str :=
  if n <? 0 then "-"%char :: digits (- n) else digits n.

End Str.

(** ** datetime.date, calendar and dateutil.relativedelta *)

Module Calendar.

Record date : Type := mkdate { year : Z; month : Z; day : Z }.

(** [calendar.isleap] *)
Definition isleap (y : Z) : bool :=
  (y mod 4 =? 0) && (negb (y mod 100 =? 0) || (y mod 400 =? 0)).

(** [calendar.mdays] *)
Definition mdays (m : Z) : Z :=
  match m with
  | 1 => 31 | 2 => 28 | 3 => 31 | 4 => 30 | 5 => 31 | 6 => 30
  | 7 => 31 | 8 => 31 | 9 => 30 | 10 => 31 | 11 => 30 | 12 => 31
  | _ => 0
  end.

(** Second component of [calendar.monthrange(year, month)]: the number of
    days of the month. *)
Definition monthrange (y m : Z) : Z :=
  mdays m + (if (m =? 2) && isleap y then 1 else 0).

Definition valid_date (d : date) : Prop :=
  1 <= month d <= 12 /\ 1 <= day d <= monthrange (year d) (month d).

(** The fields of a [relativedelta] that [relativedelta(months=i)] can
    set; every other field keeps its neutral default. *)
Record relativedelta : Type := mkdelta { years : Z; months : Z }.

(** [relativedelta(months=m)], including the normalisation of
    [relativedelta._fix]: more than eleven months carry into years. *)
Definition relativedelta_months (m : Z) : relativedelta :=
  if Z.abs m >? 11 then
    let s := if m <? 0 then -1 else 1 in
    mkdelta ((m * s / 12) * s) ((m * s mod 12) * s)
  else mkdelta 0 m.

(** The year, the month and the day that [relativedelta.__radd__]
    computes for [other + delta]: the year and month move, the day is cut
    down to the length of the month reached.  The date of these fields is
    built by [other.replace] ([Dateutil.radd]). *)
Definition date_add (other : date) (delta : relativedelta) : date :=
  let year0 := year other + years delta in
  let month0 := month other in
  let '(year1, month1) :=
    if months delta =? 0 then (year0, month0)
    else
      let month' := month0 + months delta in
      if month' >? 12 then (year0 + 1, month' - 12)
      else if month' <? 1 then (year0 - 1, month' + 12)
      else (year0, month') in
  let day1 := Z.min (monthrange year1 month1) (day other) in
  mkdate year1 month1 day1.

(** The calendar-month addition of the specification: [i] months after
    [d], counting months on the line [12 * year + (month - 1)], with the
    day of the month kept when the month reached has it and replaced by
    that month's last day otherwise. *)
Definition month_index (d : date) : Z := 12 * year d + (month d - 1).

Definition add_months_spec (d : date) (i : Z) : date :=
  let k := month_index d + i in
  let y := k / 12 in
  let m := k mod 12 + 1 in
  mkdate y m (if day d <=? monthrange y m then day d else monthrange y m).

End Calendar.

(** ** datetime.date: the constructor and the day before *)

Module Datetime.
Import Calendar Str.

Definition MINYEAR : Z := 1.
Definition MAXYEAR : Z := 9999.

(** An argument of [date(...)] is first converted to a C [int]. *)
Definition as_c_int (x : Z) : outcome Z :=
  if (x <? - 2 ^ 63) || (2 ^ 63 - 1 <? x) then
    Throw (OverflowError "Python int too large to convert to C long")
  else if 2 ^ 31 - 1 <? x then
    Throw (OverflowError "signed integer is greater than maximum")
  else if x <? - 2 ^ 31 then
    Throw (OverflowError "signed integer is less than minimum")
  else Return x.

(** [date(year, month, day)] *)
Definition new_date (y m d : Z) : outcome date :=
  y <- as_c_int y ;;
  m <- as_c_int m ;;
  d <- as_c_int d ;;
  if (y <? MINYEAR) || (MAXYEAR <? y) then
    Throw (Builtin (ValueError
      ("year " ++ string_of_list_ascii (str_int y) ++ " is out of range")%string))
  else if (m <? 1) || (12 <? m) then
    Throw (Builtin (ValueError "month must be in 1..12"))
  else if (d <? 1) || (monthrange y m <? d) then
    Throw (Builtin (ValueError "day is out of range for month"))
  else Return (mkdate y m d).

(** [d - timedelta(days=1)] for a date [d]: the day number goes down by
    one; day 0 is the last day of the month before, and of December of the
    year before in January; a year before [MINYEAR] is an
    [OverflowError]. *)
Definition minus_one_day (d : date) : outcome date :=
  let day' := day d - 1 in
  let '(y, m, d') :=
    if day' =? 0 then
      if month d - 1 >? 0
      then (year d, month d - 1, monthrange (year d) (month d - 1))
      else (year d - 1, 12, 31)
    else (year d, month d, day') in
  if (MINYEAR <=? y) && (y <=? MAXYEAR) then Return (mkdate y m d')
  else Throw (OverflowError "date value out of range").

End Datetime.

(** ** dateutil.relativedelta: the addition to a date *)

Module Dateutil.
Import Calendar Datetime.

(** [other + delta] ([relativedelta.__radd__]): the fields of [date_add]
    go to [other.replace(year=..., month=..., day=...)], which builds the
    date as the constructor does; a year after [MAXYEAR] is a
    [ValueError]. *)
Definition radd (other : date) (delta : relativedelta) : outcome date :=
  let repl := date_add other delta in
  new_date (year repl) (month repl) (day repl).

End Dateutil.

(** ** Amounts *)

(** A [Decimal] with two fraction digits, in cents. *)
Abbreviation Decimal := Z (only parsing).

(** The base amount of the specification,
    [round(totalAmount / count, 2 decimal places, round-half-up)], on
    amounts in cents: the exact quotient rounded to the nearest cent, a tie
    going away from zero.  The source computes its base amount in the
    [decimal] context ([DecimalContext.div], [DecimalContext.quantize]);
    the two agree for totals below [10 ^ 24] cents
    ([RoundingFacts.div_then_quantize_exact]). *)
Definition div_quantize_half_up (v : Decimal) (n : Z) : Decimal :=
  Z.sgn v * Z.sgn n * ((2 * Z.abs v + Z.abs n) / (2 * Z.abs n)).

(** ** backend/app/models.py: enumerations *)

Inductive TransactionType : Type := ENTRADA | SAIDA_DEBITO | SAIDA_CREDITO.

Inductive PaymentStatus : Type := PENDENTE | PAGO | ATRASADO.

(** ** Rounded arithmetic: the [decimal] context and binary64 floats *)

Module Float64.
Local Open Scope Z_scope.

(** [ilog b x] is the position of the leading base-[b] digit of a positive
    integer [x]: [b ^ ilog b x <= x < b ^ (ilog b x + 1)]. *)
Fixpoint ilog_aux (fuel : nat) (b x : Z) : Z :=
  match fuel with
  | O => 0
  | S fuel' => if x <? b then 0 else 1 + ilog_aux fuel' b (x / b)
  end.

Definition ilog (b x : Z) : Z := ilog_aux (S (Z.to_nat (Z.log2 x))) b x.

(** The integer nearest to [p / d] for [d > 0], a tie going to the even
    neighbour. *)
Definition round_half_even (p d : Z) : Z :=
  let q := p / d in
  let r := p mod d in
  if 2 * r <? d then q
  else if 2 * r >? d then q + 1
  else if Z.even q then q else q + 1.

(** The exponent of the leading base-[b] digit of [a / d] for positive
    [a] and [d]: [b ^ e <= a / d < b ^ (e + 1)]. *)
Definition exponent (b a d : Z) : Z :=
  let k := ilog b a - ilog b d in
  let reaches :=
    if k >=? 0 then d * b ^ k <=? a else d <=? a * b ^ (- k) in
  if reaches then k else k - 1.

(** The integer nearest to [a / d * b ^ s], ties to even. *)
Definition scaled (b s a d : Z) : Z :=
  if s >=? 0 then round_half_even (a * b ^ s) d
  else round_half_even a (d * b ^ (- s)).

(** [round_sig b prec x]: [x] rounded to [prec] significant base-[b]
    digits, ties to even; the exponent is unbounded. *)
Definition round_sig (b prec : Z) (x : Q) : Q :=
  let n := Qnum x in
  let d := Zpos (Qden x) in
  if n =? 0 then 0%Q
  else
    let a := Z.abs n in
    let s := prec - 1 - exponent b a d in
    let m := scaled b s a d in
    if s >=? 0 then Qred (Qmake (Z.sgn n * m) (Z.to_pos (b ^ s)))
    else Qred (Qmake (Z.sgn n * m * b ^ (- s)) 1).

(** The nearest binary64 value (53 significant bits). *)
Definition b64 (x : Q) : Q := round_sig 2 53 x.

(** The [decimal] context: 28 significant decimal digits, ROUND_HALF_EVEN. *)
Definition dec28 (x : Q) : Q := round_sig 10 28 x.

(** [q.quantize(Decimal("0.01"), rounding=ROUND_HALF_UP)], in cents: the
    nearest hundredth, a tie going away from zero. *)
Definition quantize_half_up (q : Q) : Z :=
  if Qle_bool 0 q then Qfloor (q * 100 + (1 # 2))
  else - Qfloor (- q * 100 + (1 # 2)).

(** [(v / n).quantize(Decimal("0.01"), rounding=ROUND_HALF_UP)] step by
    step, for [v] in cents: the quotient as the context rounds it, then its
    rounding to the cent. *)
Definition div_then_quantize (v n : Z) : Z :=
  quantize_half_up (dec28 (Qmake v 100 / inject_Z n)).

(** [float(d)] for a [Decimal] given in cents. *)
Definition float_of_cents (c : Z) : Q := b64 (Qmake c 100).

(** Float division and multiplication: the exact result, rounded. *)
Definition fdiv (x y : Q) : Q := b64 (x / y).
Definition fmul (x y : Q) : Q := b64 (x * y).

(** [round(x, 2)] for a float [x]: the decimal with two fraction digits
    nearest to the exact value of [x] (ties to even), read back as a
    float. *)
Definition round2 (x : Q) : Q :=
  let x100 := Qred (x * 100) in
  b64 (Qmake (round_half_even (Qnum x100) (Zpos (Qden x100))) 100).

End Float64.

(** ** decimal: the arithmetic of the default context *)

Module DecimalContext.
Import Float64.

(** [getcontext()]: 28 digits, ROUND_HALF_EVEN, exponents up to [Emax];
    [InvalidOperation], [DivisionByZero] and [Overflow] are trapped. *)
Definition prec : Z := 28.
Definition Emax : Z := 999999.

(** [x.adjusted()] for a positive [x]: the exponent of its leading
    digit. *)
Definition adjusted (x : Q) : Z :=
  exponent 10 (Z.abs (Qnum x)) (Zpos (Qden x)).

(** [v / n] for a [Decimal] [v] in cents and an [int] [n] that is not 0:
    the exact quotient rounded to the precision; a result whose leading
    digit is beyond [Emax] is an [Overflow]. *)
Definition div (v : Decimal) (n : Z) : outcome Q :=
  let q := dec28 (Qmake v 100 / inject_Z n) in
  if Emax <? adjusted q then Throw Overflow else Return q.

(** [q.quantize(Decimal("0.01"), rounding=ROUND_HALF_UP)], in cents: the
    nearest hundredth, and an [InvalidOperation] when it has more digits
    than the precision. *)
Definition quantize (q : Q) : outcome Decimal :=
  let c := quantize_half_up q in
  if Z.abs c <? 10 ^ prec then Return c else Throw InvalidOperation.

(** What the context makes of an exact result that is a whole number of
    cents: the digits after the first [prec] are rounded away, a tie going
    to the even neighbour. *)
Definition round (c : Z) : Z :=
  let a := Z.abs c in
  if a <? 10 ^ prec then c
  else
    let k := ilog 10 a + 1 - prec in
    Z.sgn c * (round_half_even a (10 ^ k) * 10 ^ k).

(** [a * n] for an [int] [n], [a - b] and [a + b], on amounts in cents.
    The operands of the scheduler are below [10 ^ 31] cents, far from
    [Emax]. *)
Definition mul (a : Decimal) (n : Z) : Decimal := round (a * n).
Definition sub (a b : Decimal) : Decimal := round (a - b).
Definition add (a b : Decimal) : Decimal := round (a + b).

End DecimalContext.

(** ** backend/app/utils.py *)

Module Utils.
Import Calendar Dateutil.

(** The dictionary built for each installment. *)
Record parcela : Type := mkparcela {
  numero_parcela : Z;
  total_parcelas : Z;
  valor_parcela : Decimal;
  data_vencimento : date;
  status_pagamento : PaymentStatus
}.

(** The body of the [for] loop: the installment of index [i]. *)
Definition parcela_i (data_primeira_parcela : date) (num_parcelas : Z)
    (valor_parcela_base diferenca : Decimal) (i : Z) : outcome parcela :=
  data_vencimento <- radd data_primeira_parcela (relativedelta_months i) ;;
  let valor_parcela :=
    if (i =? num_parcelas - 1) && negb (diferenca =? 0)
    then DecimalContext.add valor_parcela_base diferenca
    else valor_parcela_base in
  Return (mkparcela (i + 1) num_parcelas valor_parcela data_vencimento PENDENTE).

Definition calcular_datas_parcelas (data_primeira_parcela : date)
    (num_parcelas : Z) (valor_total : Decimal) : outcome (list parcela) :=
  if num_parcelas <? 1 then
    Throw (Builtin (ValueError "Número de parcelas deve ser pelo menos 1"))
  else if num_parcelas >? 48 then
    Throw (Builtin (ValueError "Número máximo de parcelas é 48"))
  else if valor_total <=? 0 then
    Throw (Builtin (ValueError "Valor total deve ser positivo"))
  else
    quotient <- DecimalContext.div valor_total num_parcelas ;;
    valor_parcela_base <- DecimalContext.quantize quotient ;;
    let valor_total_calculado :=
      DecimalContext.mul valor_parcela_base num_parcelas in
    let diferenca := DecimalContext.sub valor_total valor_total_calculado in
    fold_left
      (fun parcelas i =>
         parcelas <- parcelas ;;
         parcela <- parcela_i data_primeira_parcela num_parcelas
                      valor_parcela_base diferenca i ;;
         Return (parcelas ++ [parcela]))
      (range num_parcelas) (Return []).

End Utils.

(** ** backend/app/schemas.py: dashboard schemas *)

Module Schemas.
Import Float64.

Record DashboardSummary : Type := mkDashboardSummary {
  mes : Z;
  ano : Z;
  total_entradas : Decimal;
  total_saidas : Decimal;
  total_guardado : Decimal;
  saldo_disponivel : Decimal
}.

(** The [Decimal] expression
    [((total_entradas - total_saidas) / total_entradas) * 100]: the
    quotient is rounded by the context, the product by 100 is exact. *)
Definition savings_rate (s : DashboardSummary) : Q :=
  Qred (dec28 (Qmake (total_entradas s - total_saidas s) 1
               / Qmake (total_entradas s) 1) * 100).

(** The computed field [variacao_percentual : Optional[float]]. *)
Definition variacao_percentual (s : DashboardSummary) : option Q :=
  if total_entradas s >? 0 then Some (round2 (b64 (savings_rate s)))
  else None.

Record CategorySummary : Type := mkCategorySummary {
  categoria : string;
  valor_total : Decimal;
  percentual : Q
}.

Record DashboardCategorySummary : Type := mkDashboardCategorySummary {
  cat_mes : Z;
  cat_ano : Z;
  total : Decimal;
  categorias : list CategorySummary
}.

End Schemas.

(** ** backend/app/models.py: tables *)

Module Models.
Import Calendar.

Record Transaction : Type := mkTransaction {
  id : Z;
  user_id : Z;
  valor_total : Decimal;
  descricao : string;
  categoria : string;
  tipo : TransactionType;
  data_compra : date;
  num_parcelas : Z;
  notas : option string
}.

Record Installment : Type := mkInstallment {
  installment_id : Z;
  transacao_id : Z;
  numero_parcela : Z;
  total_parcelas : Z;
  valor_parcela : Decimal;
  data_vencimento : date;
  status_pagamento : PaymentStatus
}.

(** [valor_atual] and [is_active] are nullable columns. *)
Record SavingsGoal : Type := mkSavingsGoal {
  goal_user_id : Z;
  valor_meta : Decimal;
  valor_atual : option Decimal;
  is_active : option bool
}.

(** The state of the database a request runs against. *)
Record Session : Type := mkSession {
  transactions : list Transaction;
  installments : list Installment;
  savings_goals : list SavingsGoal
}.

End Models.

(** ** backend/app/routers/dashboard.py *)

Module Dashboard.
Import Calendar Float64 Models.

(** *** SQL *)

(** [func.sum] over the selected rows: NULL when there is none. *)
Definition sql_sum (rows : list Decimal) : option Decimal :=
  match rows with
  | [] => None
  | _ => Some (fold_right Z.add 0 rows)
  end.

Definition coalesce (v : option Decimal) (default : Decimal) : Decimal :=
  match v with
  | Some x => x
  | None => default
  end.

Definition tipo_eqb (a b : TransactionType) : bool :=
  match a, b with
  | ENTRADA, ENTRADA | SAIDA_DEBITO, SAIDA_DEBITO
  | SAIDA_CREDITO, SAIDA_CREDITO => true
  | _, _ => false
  end.

(** [extract('month', col) == mes] and [extract('year', col) == ano]. *)
Definition in_period (d : date) (mes ano : Z) : bool :=
  (month d =? mes) && (year d =? ano).

(** The transactions of one user, of one type, bought in the period. *)
Definition transactions_of (db : Session) (uid : Z) (ty : TransactionType)
    (mes ano : Z) : list Transaction :=
  filter (fun t => (user_id t =? uid) && tipo_eqb (tipo t) ty
                   && in_period (data_compra t) mes ano)
         (transactions db).

(** [query(Installment...).join(Transaction)]: installments with the
    transaction row their foreign key names. *)
Definition installments_join_transactions (db : Session)
    : list (Installment * Transaction) :=
  flat_map (fun i => map (pair i)
              (filter (fun t => id t =? transacao_id i) (transactions db)))
           (installments db).

(** [query(Transaction...).join(Installment)]. *)
Definition transactions_join_installments (db : Session)
    : list (Transaction * Installment) :=
  flat_map (fun t => map (pair t)
              (filter (fun i => id t =? transacao_id i) (installments db)))
           (transactions db).

(** [GROUP BY] on the first column with [func.sum] of the second: one row
    for each distinct key.  SQL leaves the order of the rows open. *)
Definition group_by_sum (rows : list (string * Decimal))
    : list (string * Decimal) :=
  map (fun k =>
         (k, fold_right Z.add 0
               (map snd (filter (fun r => String.eqb (fst r) k) rows))))
      (nodup string_dec (map fst rows)).

(** *** get_dashboard_summary *)

Definition query_total_entradas (db : Session) (uid mes ano : Z) : Decimal :=
  coalesce (sql_sum (map valor_total (transactions_of db uid ENTRADA mes ano))) 0.

Definition query_total_debito (db : Session) (uid mes ano : Z) : Decimal :=
  coalesce (sql_sum (map valor_total (transactions_of db uid SAIDA_DEBITO mes ano))) 0.

Definition query_total_parcelas (db : Session) (uid mes ano : Z) : Decimal :=
  coalesce
    (sql_sum
       (map (fun it => valor_parcela (fst it))
          (filter (fun it => (user_id (snd it) =? uid)
                             && in_period (data_vencimento (fst it)) mes ano)
                  (installments_join_transactions db)))) 0.

Definition query_total_guardado (db : Session) (uid : Z) : Decimal :=
  coalesce
    (sql_sum
       (flat_map (fun g => match valor_atual g with
                           | Some v => [v]
                           | None => []
                           end)
          (filter (fun g => (goal_user_id g =? uid)
                            && match is_active g with
                               | Some true => true
                               | _ => false
                               end)
                  (savings_goals db)))) 0.

(** The query parameters are checked ([ge=1, le=12] and [ge=2000]) before
    the handler body runs. *)
Definition get_dashboard_summary (mes ano : Z) (current_user : Z)
    (db : Session) : result Schemas.DashboardSummary :=
  if negb ((1 <=? mes) && (mes <=? 12)) then
    Raise (RequestValidationError "mes")
  else if negb (2000 <=? ano) then
    Raise (RequestValidationError "ano")
  else
    let total_entradas := query_total_entradas db current_user mes ano in
    let total_debito := query_total_debito db current_user mes ano in
    let total_parcelas := query_total_parcelas db current_user mes ano in
    let total_saidas := total_debito + total_parcelas in
    let total_guardado := query_total_guardado db current_user in
    let saldo_disponivel := total_entradas - total_saidas in
    Ok (Schemas.mkDashboardSummary mes ano total_entradas total_saidas
          total_guardado saldo_disponivel).

(** *** get_expenses_by_category *)

Definition query_debit_by_category (db : Session) (uid mes ano : Z)
    : list (string * Decimal) :=
  group_by_sum
    (map (fun t => (categoria t, valor_total t))
         (transactions_of db uid SAIDA_DEBITO mes ano)).

Definition query_credit_by_category (db : Session) (uid mes ano : Z)
    : list (string * Decimal) :=
  group_by_sum
    (map (fun ti => (categoria (fst ti), valor_parcela (snd ti)))
         (filter (fun ti => (user_id (fst ti) =? uid)
                            && in_period (data_vencimento (snd ti)) mes ano)
                 (transactions_join_installments db))).

(** A Python [dict] from category to amount: the items in insertion
    order, each key once. *)
Definition dict : Type := list (string * Decimal).

Fixpoint dict_get (d : dict) (k : string) (default : Decimal) : Decimal :=
  match d with
  | [] => default
  | (k', v) :: d' => if String.eqb k' k then v else dict_get d' k default
  end.

(** [d[k] = v]: a key already present keeps its place. *)
Fixpoint dict_set (d : dict) (k : string) (v : Decimal) : dict :=
  match d with
  | [] => [(k, v)]
  | (k', v') :: d' =>
      if String.eqb k' k then (k, v) :: d' else (k', v') :: dict_set d' k v
  end.

(** One of the two accumulation loops. *)
Definition accumulate (category_totals : dict)
    (rows : list (string * Decimal)) : dict :=
  fold_left
    (fun category_totals row =>
       let '(cat, total) := row in
       dict_set category_totals cat (dict_get category_totals cat 0 + total))
    rows category_totals.

(** [sum(category_totals.values())] *)
Definition sum_values (d : dict) : Decimal :=
  fold_left (fun acc kv => acc + snd kv) d 0.

(** [sorted(items, key=lambda x: x[1], reverse=True)]: a stable sort, so
    items with equal keys keep their relative order. *)
Fixpoint insert_desc (x : string * Decimal) (l : list (string * Decimal))
    : list (string * Decimal) :=
  match l with
  | [] => [x]
  | y :: l' => if snd x <? snd y then y :: insert_desc x l' else x :: l
  end.

Definition sorted_reverse (l : list (string * Decimal))
    : list (string * Decimal) :=
  fold_right insert_desc [] l.

(** The handler body after the two queries. *)
Definition category_summary (mes ano : Z)
    (debit_by_category credit_by_category : list (string * Decimal))
    : Schemas.DashboardCategorySummary :=
  let category_totals := accumulate (accumulate [] debit_by_category)
                                    credit_by_category in
  let grand_total :=
    let s := sum_values category_totals in
    if s =? 0 then 100 else s in
  let categorias :=
    map (fun item =>
           let '(categoria, valor) := item in
           let percentual :=
             fmul (fdiv (float_of_cents valor) (float_of_cents grand_total))
                  100 in
           Schemas.mkCategorySummary categoria valor (round2 percentual))
        (sorted_reverse category_totals) in
  Schemas.mkDashboardCategorySummary mes ano
    (if negb (grand_total =? 100) then grand_total else 0)
    categorias.

Definition get_expenses_by_category (mes ano : Z) (current_user : Z)
    (db : Session) : result Schemas.DashboardCategorySummary :=
  if negb ((1 <=? mes) && (mes <=? 12)) then
    Raise (RequestValidationError "mes")
  else if negb (2000 <=? ano) then
    Raise (RequestValidationError "ano")
  else
    let debit_by_category := query_debit_by_category db current_user mes ano in
    let credit_by_category := query_credit_by_category db current_user mes ano in
    Ok (category_summary mes ano debit_by_category credit_by_category).

End Dashboard.

(** ** Vocabulary of the properties *)

(** [b] is [v / n] rounded to the nearest integer, a half going up: the
    specification's [round(totalAmount / count, 2 decimal places,
    round-half-up)] on amounts in cents. *)
Definition is_round_half_up (v n b : Z) : Prop :=
  2 * b * n - n <= 2 * v < 2 * b * n + n.

(** A value of [datetime.date]: a day of the calendar in a year from
    [MINYEAR] to [MAXYEAR]. *)
Definition is_date (d : Calendar.date) : Prop :=
  Calendar.valid_date d
  /\ Datetime.MINYEAR <= Calendar.year d <= Datetime.MAXYEAR.

(** The amount of the installment of index [k] of a plan of [n]
    installments for the total [v]: the base amount, and the rest of the
    total for the last one. *)
Definition plan_amount (v n k : Z) : Z :=
  let base := div_quantize_half_up v n in
  if k =? n - 1 then v - base * (n - 1) else base.

(** The installment of index [i] of the plan of the specification: due
    [i] calendar months after [d], numbered [i + 1] of [n], pending. *)
Definition plan_parcela (d : Calendar.date) (n : Z) (v : Decimal) (i : Z)
    : Utils.parcela :=
  Utils.mkparcela (i + 1) n (plan_amount v n i)
    (Calendar.add_months_spec d i) PENDENTE.

(** What [Utils.parcela_i] returns for the index [i] when the due date is
    a date: the due date written with [Calendar.add_months_spec]. *)
Definition due_parcela (d : Calendar.date) (n : Z) (base dif : Decimal)
    (i : Z) : Utils.parcela :=
  Utils.mkparcela (i + 1) n
    (if (i =? n - 1) && negb (dif =? 0)
     then DecimalContext.add base dif else base)
    (Calendar.add_months_spec d i) PENDENTE.

(** The sum of [h x] for [x] in [l]. *)
Definition sumZ {A : Type} (h : A -> Z) (l : list A) : Z :=
  fold_right (fun x acc => h x + acc) 0 l.

(** [sum(p["valor_parcela"] for p in parcelas)] *)
Definition soma_parcelas (parcelas : list Utils.parcela) : Decimal :=
  fold_right Z.add 0 (map Utils.valor_parcela parcelas).

(** What the installment [i] adds to the expenses of user [uid] in the
    period when joined with the transaction row [t]. *)
Definition due_amount (uid mes ano : Z) (i : Models.Installment)
    (t : Models.Transaction) : Z :=
  if (Models.id t =? Models.transacao_id i)
     && ((Models.user_id t =? uid)
         && Dashboard.in_period (Models.data_vencimento i) mes ano)
  then Models.valor_parcela i else 0.

(** The database after a credit purchase [t] has been stored together with
    its installments. *)
Definition add_credit_purchase (db : Models.Session) (t : Models.Transaction)
    (parcelas : list Models.Installment) : Models.Session :=
  Models.mkSession (Models.transactions db ++ [t])
                   (Models.installments db ++ parcelas)
                   (Models.savings_goals db).

(** The same transaction with another purchase date. *)
Definition with_data_compra (t : Models.Transaction) (d : Calendar.date)
    : Models.Transaction :=
  Models.mkTransaction (Models.id t) (Models.user_id t) (Models.valor_total t)
    (Models.descricao t) (Models.categoria t) (Models.tipo t) d
    (Models.num_parcelas t) (Models.notas t).

(** The key [pk] is new to the database: no transaction has it and no
    installment names it. *)
Definition fresh_key (db : Models.Session) (pk : Z) : Prop :=
  (forall t, In t (Models.transactions db) -> Models.id t <> pk)
  /\ (forall i, In i (Models.installments db) -> Models.transacao_id i <> pk).

(** The primary keys of the two tables are unique. *)
Definition transaction_keys_unique (db : Models.Session) : Prop :=
  NoDup (map Models.id (Models.transactions db)).

Definition installment_keys_unique (db : Models.Session) : Prop :=
  NoDup (map Models.installment_id (Models.installments db)).

(** ** The period aggregator of the specification *)

(** The definitions of the specification, in its words: a date falls
    within a period when its month and its year are those of the period;
    [debitTotal] adds the amounts of the debit expenses of the user bought
    within the period; [installmentTotal] adds the amounts of the
    installments whose parent transaction belongs to the user and whose
    due date falls within the period, whatever the purchase date of the
    parent; [totalExpense] is their sum. *)
Module PeriodSpec.
Import Calendar Models.

Definition falls_within (d : date) (mes ano : Z) : bool :=
  (month d =? mes) && (year d =? ano).

Definition is_debit (t : Transaction) : bool :=
  match tipo t with
  | SAIDA_DEBITO => true
  | _ => false
  end.

(** The parent transaction of [i] belongs to the user [uid]. *)
Definition parent_belongs_to (db : Session) (uid : Z) (i : Installment) : bool :=
  existsb (fun t => (id t =? transacao_id i) && (user_id t =? uid))
          (transactions db).

Definition debitTotal (db : Session) (uid mes ano : Z) : Z :=
  sumZ valor_total
    (filter (fun t => (user_id t =? uid) && is_debit t
                      && falls_within (data_compra t) mes ano)
            (transactions db)).

Definition installmentTotal (db : Session) (uid mes ano : Z) : Z :=
  sumZ valor_parcela
    (filter (fun i => parent_belongs_to db uid i
                      && falls_within (data_vencimento i) mes ano)
            (installments db)).

Definition totalExpense (db : Session) (uid mes ano : Z) : Z :=
  debitTotal db uid mes ano + installmentTotal db uid mes ano.

End PeriodSpec.

(** ** Sample data *)

Module Samples.
Import Calendar Models.
Local Open Scope string_scope.

(** User 7 with a salary and a debit expense in January and in February
    2024, and an earlier credit purchase of 900.00 in 3 installments. *)
Definition sample_db : Session :=
  mkSession
    [mkTransaction 1 7 500000 "salario" "Renda" ENTRADA (mkdate 2024 1 5) 1 None;
     mkTransaction 2 7 12000 "mercado" "Alimentacao" SAIDA_DEBITO
       (mkdate 2024 1 12) 1 None;
     mkTransaction 3 7 500000 "salario" "Renda" ENTRADA (mkdate 2024 2 5) 1 None;
     mkTransaction 4 7 8000 "onibus" "Transporte" SAIDA_DEBITO
       (mkdate 2024 2 9) 1 None;
     mkTransaction 6 7 90000 "tv" "Casa" SAIDA_CREDITO (mkdate 2023 12 15) 3 None]
    [mkInstallment 11 6 1 3 30000 (mkdate 2023 12 15) PAGO;
     mkInstallment 12 6 2 3 30000 (mkdate 2024 1 15) PENDENTE;
     mkInstallment 13 6 3 3 30000 (mkdate 2024 2 15) PENDENTE]
    [mkSavingsGoal 7 1000000 (Some 250000) (Some true)].

(** A credit purchase of January 2024 and an installment of it due in
    February. *)
Definition sample_purchase : Transaction :=
  mkTransaction 5 7 5000 "livros" "Educacao" SAIDA_CREDITO (mkdate 2024 1 20) 1 None.

Definition sample_installment : Installment :=
  mkInstallment 14 5 1 1 5000 (mkdate 2024 2 20) PENDENTE.

(** February 2024 of user 7: a debit expense of 10.00 in category "B" and
    an installment of 10.00 of a purchase in category "A". *)
Definition ties_db : Session :=
  mkSession
    [mkTransaction 1 7 1000 "feira" "B" SAIDA_DEBITO (mkdate 2024 2 3) 1 None;
     mkTransaction 2 7 2000 "loja" "A" SAIDA_CREDITO (mkdate 2024 1 3) 2 None]
    [mkInstallment 1 2 1 2 1000 (mkdate 2024 1 3) PENDENTE;
     mkInstallment 2 2 2 2 1000 (mkdate 2024 2 3) PENDENTE]
    [].

(** March 2024 of user 7: debit expenses of 0.40 and 0.60. *)
Definition unit_db : Session :=
  mkSession
    [mkTransaction 1 7 40 "pao" "Alimentacao" SAIDA_DEBITO (mkdate 2024 3 4) 1 None;
     mkTransaction 2 7 60 "cafe" "Lazer" SAIDA_DEBITO (mkdate 2024 3 9) 1 None]
    [] [].

(** April 2024 of user 7: an income of 3.00 and a debit expense of 1.00. *)
Definition thirds_db : Session :=
  mkSession
    [mkTransaction 1 7 300 "troco" "Renda" ENTRADA (mkdate 2024 4 2) 1 None;
     mkTransaction 2 7 100 "bala" "Alimentacao" SAIDA_DEBITO (mkdate 2024 4 2) 1 None]
    [] [].

End Samples.

(** ** Vocabulary of the breakdown order *)

Module Order.
Import Schemas.

(** The (category, amount) pairs of a breakdown, in its order. *)
Definition items_of (cs : list CategorySummary) : list (string * Decimal) :=
  map (fun c => (categoria c, valor_total c)) cs.

(** No category is listed before one with a larger amount. *)
Definition amount_descending (cs : list CategorySummary) : Prop :=
  forall i j a b, (i < j)%nat ->
    nth_error cs i = Some a -> nth_error cs j = Some b ->
    valor_total b <= valor_total a.

(** Categories with equal amounts are listed by ascending name. *)
Definition ties_by_name_ascending (cs : list CategorySummary) : Prop :=
  forall i j a b, (i < j)%nat ->
    nth_error cs i = Some a -> nth_error cs j = Some b ->
    valor_total a = valor_total b ->
    String.leb (categoria a) (categoria b) = true.

(** The items of amount [v], in the order of the list. *)
Definition with_amount (v : Decimal) (l : list (string * Decimal))
    : list (string * Decimal) :=
  filter (fun kv => snd kv =? v) l.

(** The keys in the order in which a scan from the left first meets
    them, after those of [seen]. *)
Definition first_seen_from (seen : list string) (l : list string)
    : list string :=
  fold_left
    (fun ks k => if existsb (String.eqb k) ks then ks else ks ++ [k])
    l seen.

(** The dictionary [category_totals] of [get_expenses_by_category]. *)
Definition category_totals_of (db : Models.Session) (uid mes ano : Z)
    : Dashboard.dict :=
  Dashboard.accumulate
    (Dashboard.accumulate [] (Dashboard.query_debit_by_category db uid mes ano))
    (Dashboard.query_credit_by_category db uid mes ano).

(** The order of the sort: the amount of [b] is at most that of [a]. *)
Definition desc (a b : string * Decimal) : Prop := snd b <= snd a.

End Order.

(** [(totalIncome - totalExpense) / totalIncome] as an exact rational. *)
Definition exact_ratio (s : Schemas.DashboardSummary) : Q :=
  (Qmake (Schemas.total_entradas s - Schemas.total_saidas s) 1
   / Qmake (Schemas.total_entradas s) 1)%Q.

(** The savings rate of the specification:
    [(totalIncome - totalExpense) / totalIncome * 100], exactly. *)
Definition exact_rate (s : Schemas.DashboardSummary) : Q :=
  (exact_ratio s * 100)%Q.

(** ** backend/app/utils.py: installments of a month and date utilities *)

Module DateUtils.
Import Calendar Utils Datetime.

Definition get_parcelas_do_mes (parcelas : list parcela) (mes ano : Z)
    : list parcela :=
  filter (fun p => (month (data_vencimento p) =? mes)
                   && (year (data_vencimento p) =? ano))
         parcelas.

Definition get_primeiro_dia_mes (mes ano : Z) : outcome date :=
  new_date ano mes 1.

Definition get_ultimo_dia_mes (mes ano : Z) : outcome date :=
  if mes =? 12 then
    d <- new_date (ano + 1) 1 1 ;; minus_one_day d
  else
    d <- new_date ano (mes + 1) 1 ;; minus_one_day d.

Definition get_mes_anterior (mes ano : Z) : Z * Z :=
  if mes =? 1 then (12, ano - 1) else (mes - 1, ano).

End DateUtils.

(** ** Python strings: replace and strip *)

Module StrOps.
Import Str.

Fixpoint prefixb (p s : str) : bool :=
  match p, s with
  | [], _ => true
  | a :: p', b :: s' => Ascii.eqb a b && prefixb p' s'
  | _ :: _, [] => false
  end.

(** The scan of [str.replace] for a pattern that is not empty: at a
    position where the pattern starts, the replacement is written and the
    characters of the pattern are skipped. *)
Fixpoint replace_from (old new : str) (skip : nat) (s : str) : str :=
  match s with
  | [] => []
  | c :: s' =>
      match skip with
      | S k => replace_from old new k s'
      | O =>
          if prefixb old s
          then new ++ replace_from old new (List.length old - 1) s'
          else c :: replace_from old new 0 s'
      end
  end.

Definition replace_chars (old new s : str) : str :=
  match old with
  | [] => new ++ flat_map (fun c => c :: new) s
  | _ => replace_from old new 0 s
  end.

(** [s.replace(old, new)] *)
Definition replace (s old new : string) : string :=
  string_of_list_ascii
    (replace_chars (list_ascii_of_string old) (list_ascii_of_string new)
       (list_ascii_of_string s)).

(** [str.isspace] on one character. *)
Definition isspace (c : ascii) : bool :=
  let n := nat_of_ascii c in
  ((9 <=? n) && (n <=? 13) || (28 <=? n) && (n <=? 32)
   || (n =? 133) || (n =? 160))%nat.

Fixpoint lstrip_chars (s : str) : str :=
  match s with
  | [] => []
  | c :: s' => if isspace c then lstrip_chars s' else s
  end.

Definition strip_chars (s : str) : str :=
  rev (lstrip_chars (rev (lstrip_chars s))).

(** [s.strip()] *)
Definition strip (s : string) : string :=
  string_of_list_ascii (strip_chars (list_ascii_of_string s)).

End StrOps.

(** ** decimal.Decimal: formatting and construction from a string *)

Module DecimalText.
Import Str StrOps.

(** The digits of the integer part with a comma before every group of
    three digits that is not the first. *)
Fixpoint group3 (ds : str) : str :=
  match ds with
  | [] => []
  | c :: ds' =>
      let rest := Z.of_nat (List.length ds') in
      if (0 <? rest) && (rest mod 3 =? 0)
      then c :: ","%char :: group3 ds'
      else c :: group3 ds'
  end.

(** The two digits of a number below 100. *)
Definition two_digits (n : Z) : str :=
  [digit_char (n / 10); digit_char (n mod 10)].

(** [f"{valor:.2f}"] and [f"{valor:,.2f}"] for a [Decimal] with two
    fraction digits, given in cents: the sign when negative, the integer
    part, a point and the two fraction digits. *)
Definition format_2f_chars (grouped : bool) (valor : Decimal) : str :=
  let a := Z.abs valor in
  let int_part := digits (a / 100) in
  (if valor <? 0 then ["-"%char] else [])
  ++ (if grouped then group3 int_part else int_part)
  ++ "."%char :: two_digits (a mod 100).

Definition format_2f (valor : Decimal) : string :=
  string_of_list_ascii (format_2f_chars false valor).

Definition format_comma_2f (valor : Decimal) : string :=
  string_of_list_ascii (format_2f_chars true valor).

(** A [Decimal] as the constructor builds it from a string: sign,
    coefficient and exponent, or one of the special values. *)
Inductive DecimalValue : Type :=
| Finite (negative : bool) (coefficient : Z) (exponent : Z)
| Infinity (negative : bool)
| NaN (negative signaling : bool) (payload : Z).

(** The largest exponent and the smallest exponent of a subnormal of the
    widest context of the C implementation on a 64-bit platform. *)
Definition MAX_EMAX : Z := 999999999999999999.
Definition MIN_ETINY : Z := - 1999999999999999997.

Definition is_digit (c : ascii) : bool :=
  let n := nat_of_ascii c in ((48 <=? n) && (n <=? 57))%nat.

Definition digit_value (c : ascii) : Z := Z.of_nat (nat_of_ascii c) - 48.

(** [int(ds)] for a string of digits. *)
Definition int_of_digits (ds : str) : Z :=
  fold_left (fun acc c => 10 * acc + digit_value c) ds 0.

(** The longest prefix of digits, and the rest. *)
Fixpoint span_digits (s : str) : str * str :=
  match s with
  | [] => ([], [])
  | c :: s' =>
      if is_digit c then let '(ds, r) := span_digits s' in (c :: ds, r)
      else ([], s)
  end.

Definition lower (c : ascii) : ascii :=
  let n := nat_of_ascii c in
  if ((65 <=? n) && (n <=? 90))%nat then ascii_of_nat (n + 32) else c.

Definition chars (s : string) : str := list_ascii_of_string s.

Definition str_eqb (a b : str) : bool :=
  String.eqb (string_of_list_ascii a) (string_of_list_ascii b).

(** An optional sign in front: whether it is a minus, and the rest. *)
Definition split_sign (s : str) : bool * str :=
  match s with
  | "+"%char :: r => (false, r)
  | "-"%char :: r => (true, r)
  | _ => (false, s)
  end.

(** The exponent part: nothing, or [e] or [E], an optional sign and at
    least one digit up to the end. *)
Definition parse_exponent (s : str) : option Z :=
  match s with
  | [] => Some 0
  | c :: s' =>
      if Ascii.eqb (lower c) "e" then
        let '(neg, ds) := split_sign s' in
        match span_digits ds with
        | ((_ :: _) as e, []) =>
            Some (if neg then - int_of_digits e else int_of_digits e)
        | _ => None
        end
      else None
  end.

(** A finite number: digits with an optional point among them, at least
    one digit, and an optional exponent.  The value must fit the widest
    context exactly. *)
Definition parse_finite (negative : bool) (s : str) : outcome DecimalValue :=
  let '(int_part, r1) := span_digits s in
  let '(frac_part, r2) :=
    match r1 with
    | "."%char :: r => span_digits r
    | _ => ([], r1)
    end in
  match int_part ++ frac_part, parse_exponent r2 with
  | _ :: _, Some e =>
      let coefficient := int_of_digits (int_part ++ frac_part) in
      let exponent := e - Z.of_nat (List.length frac_part) in
      let ndigits := Z.of_nat (List.length (digits coefficient)) in
      if (exponent + ndigits - 1 >? MAX_EMAX) || (exponent <? MIN_ETINY)
      then Throw InvalidOperation
      else Return (Finite negative coefficient exponent)
  | _, _ => Throw InvalidOperation
  end.

(** [nan] or [snan] followed by digits only. *)
Definition parse_nan (negative : bool) (l : str) : option DecimalValue :=
  let payload (signaling : bool) (r : str) :=
    match span_digits r with
    | (ds, []) => Some (NaN negative signaling (int_of_digits ds))
    | _ => None
    end in
  if prefixb (chars "nan") l then payload false (skipn 3 l)
  else if prefixb (chars "snan") l then payload true (skipn 4 l)
  else None.

(** [Decimal(s)] for a string [s]: white space around the text and
    underscores in it are dropped; the text is a sign followed by a number,
    by [inf] or [infinity], or by a NaN, letters in either case. *)
Definition Decimal_of_chars (s : str) : outcome DecimalValue :=
  let s := filter (fun c => negb (Ascii.eqb c "_")) (strip_chars s) in
  let '(negative, r) := split_sign s in
  let l := map lower r in
  if str_eqb l (chars "inf") || str_eqb l (chars "infinity")
  then Return (Infinity negative)
  else
    match parse_nan negative l with
    | Some v => Return v
    | None => parse_finite negative r
    end.

Definition Decimal_of_str (s : string) : outcome DecimalValue :=
  Decimal_of_chars (list_ascii_of_string s).

End DecimalText.

(** ** backend/app/utils.py: formatting utilities *)

Module Formatting.
Import StrOps DecimalText.
Local Open Scope string_scope.

Definition format_currency_brl (valor : Decimal) : string :=
  let valor_str := format_comma_2f valor in
  let valor_str :=
    replace (replace (replace valor_str "," "X") "." ",") "X" "." in
  "R$ " ++ valor_str.

Definition parse_currency_brl (valor_str : string) : outcome DecimalValue :=
  let valor_str :=
    strip (replace (replace valor_str "R$" EmptyString) " " EmptyString) in
  let valor_str := replace (replace valor_str "." EmptyString) "," "." in
  Decimal_of_str valor_str.

End Formatting.

(** ** Vocabulary of the text of amounts *)

(** A string of decimal digits. *)
Definition all_digits (l : Str.str) : Prop :=
  Forall (fun c => DecimalText.is_digit c = true) l.

(** What the three replacements of [format_currency_brl] do to a
    character of a formatted number. *)
Definition swap_separators (x : ascii) : ascii :=
  if Ascii.eqb x "," then "."%char
  else if Ascii.eqb x "." then ","%char else x.

(** The characters of a formatted amount: a sign, digits, commas and a
    point. *)
Definition number_char (x : ascii) : Prop :=
  DecimalText.is_digit x = true \/ x = "-"%char \/ x = ","%char \/ x = "."%char.

(** ** backend/app/schemas.py: request bodies *)

Module Bodies.
Import Calendar.

(** [len(s)] *)
Definition len (s : string) : Z := Z.of_nat (String.length s).

Record TransactionCreate : Type := mkTransactionCreate {
  valor_total : Decimal;
  descricao : string;
  categoria : string;
  tipo : TransactionType;
  data_compra : date;
  notas : option string;
  num_parcelas : Z
}.

(** The validator of [num_parcelas]. *)
Definition validate_parcelas (v : Z) (tipo : TransactionType) : result Z :=
  if negb (Dashboard.tipo_eqb tipo SAIDA_CREDITO) && (v >? 1) then
    Raise (ValueError "Parcelamento só é permitido para transações de crédito")
  else Ok v.

(** The checks of the fields of a [TransactionCreate], in the order of the
    fields; the name of the first field that fails. *)
Definition validate_TransactionCreate (b : TransactionCreate) : outcome unit :=
  if negb (0 <=? valor_total b) then
    Throw (Builtin (RequestValidationError "valor_total"))
  else if negb ((1 <=? len (descricao b)) && (len (descricao b) <=? 255)) then
    Throw (Builtin (RequestValidationError "descricao"))
  else if negb ((1 <=? len (categoria b)) && (len (categoria b) <=? 50)) then
    Throw (Builtin (RequestValidationError "categoria"))
  else if negb ((1 <=? num_parcelas b) && (num_parcelas b <=? 48)) then
    Throw (Builtin (RequestValidationError "num_parcelas"))
  else
    match validate_parcelas (num_parcelas b) (tipo b) with
    | Raise _ => Throw (Builtin (RequestValidationError "num_parcelas"))
    | Ok _ => Return tt
    end.

Record TransactionUpdate : Type := mkTransactionUpdate {
  upd_descricao : option string;
  upd_categoria : option string;
  upd_notas : option string
}.

Definition validate_TransactionUpdate (b : TransactionUpdate) : outcome unit :=
  if match upd_descricao b with
     | Some s => negb (len s <=? 255)
     | None => false
     end then
    Throw (Builtin (RequestValidationError "descricao"))
  else if match upd_categoria b with
          | Some s => negb (len s <=? 50)
          | None => false
          end then
    Throw (Builtin (RequestValidationError "categoria"))
  else Return tt.

Record SavingsGoalCreate : Type := mkSavingsGoalCreate {
  nome_objetivo : string;
  goal_descricao : option string;
  valor_meta : Decimal;
  data_limite : option date;
  valor_inicial : Decimal
}.

Definition validate_SavingsGoalCreate (b : SavingsGoalCreate) : outcome unit :=
  if negb ((1 <=? len (nome_objetivo b)) && (len (nome_objetivo b) <=? 100)) then
    Throw (Builtin (RequestValidationError "nome_objetivo"))
  else if negb (0 <? valor_meta b) then
    Throw (Builtin (RequestValidationError "valor_meta"))
  else if negb (0 <=? valor_inicial b) then
    Throw (Builtin (RequestValidationError "valor_inicial"))
  else Return tt.

(** [SavingsGoalDeposit] and [SavingsGoalWithdraw]: one field [valor],
    [gt=0]. *)
Definition validate_valor (valor : Decimal) : outcome unit :=
  if negb (0 <? valor) then Throw (Builtin (RequestValidationError "valor"))
  else Return tt.


End Bodies.

(** ** backend/app/routers/savings.py *)

Module Savings.
Import Calendar Models DecimalText.

(** A row of [savings_goals]: the primary key, the columns of
    [Models.SavingsGoal] and the descriptive columns. *)
Record GoalRow : Type := mkGoalRow {
  goal_id : Z;
  nome_objetivo : string;
  descricao : option string;
  data_limite : option date;
  columns : SavingsGoal
}.

Definition with_valor_atual (g : GoalRow) (v : option Decimal) : GoalRow :=
  mkGoalRow (goal_id g) (nome_objetivo g) (descricao g) (data_limite g)
    (mkSavingsGoal (goal_user_id (columns g)) (valor_meta (columns g)) v
       (is_active (columns g))).

Definition with_is_active (g : GoalRow) (a : option bool) : GoalRow :=
  mkGoalRow (goal_id g) (nome_objetivo g) (descricao g) (data_limite g)
    (mkSavingsGoal (goal_user_id (columns g)) (valor_meta (columns g))
       (valor_atual (columns g)) a).

(** [query(SavingsGoal).filter(id == goal_id, user_id == user).first()] *)
Definition find_goal (goals : list GoalRow) (id user : Z) : option GoalRow :=
  find (fun g => (goal_id g =? id) && (goal_user_id (columns g) =? user)) goals.

(** The UPDATE of the row of a changed object, by its primary key. *)
Definition update_row (goals : list GoalRow) (g' : GoalRow) : list GoalRow :=
  map (fun g => if goal_id g =? goal_id g' then g' else g) goals.

(** The DELETE of a row by its primary key. *)
Definition delete_row (goals : list GoalRow) (id : Z) : list GoalRow :=
  filter (fun g => negb (goal_id g =? id)) goals.

(** The truth value of a nullable boolean column. *)
Definition truthy (b : option bool) : bool :=
  match b with
  | Some true => true
  | _ => false
  end.

(** [Decimal(str(goal.valor_atual))]: the text of NULL is not a number. *)
Definition current_value (g : GoalRow) : outcome Decimal :=
  match valor_atual (columns g) with
  | Some v => Return v
  | None => Throw InvalidOperation
  end.

Definition not_found {A : Type} : outcome A :=
  Throw (HTTPException 404 "Meta não encontrada").

(** [pk] is the primary key the database gives to the new row;
    [is_active] takes its default. *)
Definition create_savings_goal (pk : Z) (goal_data : Bodies.SavingsGoalCreate)
    (current_user : Z) (goals : list GoalRow)
    : outcome (list GoalRow * GoalRow) :=
  _ <- Bodies.validate_SavingsGoalCreate goal_data ;;
  let new_goal :=
    mkGoalRow pk (Bodies.nome_objetivo goal_data)
      (Bodies.goal_descricao goal_data) (Bodies.data_limite goal_data)
      (mkSavingsGoal current_user (Bodies.valor_meta goal_data)
         (Some (Bodies.valor_inicial goal_data)) (Some true)) in
  Return (goals ++ [new_goal], new_goal).

Definition get_savings_goal (goal_id current_user : Z) (goals : list GoalRow)
    : outcome GoalRow :=
  match find_goal goals goal_id current_user with
  | None => not_found
  | Some goal => Return goal
  end.

Definition delete_savings_goal (goal_id current_user : Z)
    (goals : list GoalRow) : outcome (list GoalRow) :=
  match find_goal goals goal_id current_user with
  | None => not_found
  | Some goal => Return (delete_row goals (Savings.goal_id goal))
  end.

Definition deposit_to_goal (goal_id : Z) (deposit : Decimal)
    (current_user : Z) (goals : list GoalRow)
    : outcome (list GoalRow * GoalRow) :=
  _ <- Bodies.validate_valor deposit ;;
  match find_goal goals goal_id current_user with
  | None => not_found
  | Some goal =>
      if negb (truthy (is_active (columns goal))) then
        Throw (HTTPException 400 "Meta inativa não pode receber depósitos")
      else
        current <- current_value goal ;;
        let goal := with_valor_atual goal (Some (current + deposit)) in
        Return (update_row goals goal, goal)
  end.

Definition withdraw_from_goal (goal_id : Z) (withdraw : Decimal)
    (current_user : Z) (goals : list GoalRow)
    : outcome (list GoalRow * GoalRow) :=
  _ <- Bodies.validate_valor withdraw ;;
  match find_goal goals goal_id current_user with
  | None => not_found
  | Some goal =>
      current_value <- current_value goal ;;
      if withdraw >? current_value then
        Throw (HTTPException 400
                 ("Saldo insuficiente. Disponível: R$ "
                  ++ format_2f current_value)%string)
      else
        let goal := with_valor_atual goal (Some (current_value - withdraw)) in
        Return (update_row goals goal, goal)
  end.

Definition complete_goal (goal_id current_user : Z) (goals : list GoalRow)
    : outcome (list GoalRow * GoalRow) :=
  match find_goal goals goal_id current_user with
  | None => not_found
  | Some goal =>
      let goal := with_is_active goal (Some false) in
      Return (update_row goals goal, goal)
  end.


End Savings.

(** ** backend/app/schemas.py: response models *)

Module Responses.
Import Models.

(** [InstallmentRead]: [numero_parcela] and [total_parcelas] have [ge=1],
    [valor_parcela] has [ge=0]. *)
Definition validate_InstallmentRead (i : Installment) : bool :=
  (1 <=? numero_parcela i) && (1 <=? total_parcelas i)
  && (0 <=? valor_parcela i).

(** [TransactionRead], read from a row and its [installments]:
    [valor_total] has [ge=0], [descricao] and [categoria] have
    [min_length=1] and [max_length] 255 and 50, and every installment is
    an [InstallmentRead]. *)
Definition validate_TransactionRead (t : Transaction)
    (installments : list Installment) : bool :=
  (0 <=? valor_total t)
  && ((1 <=? Bodies.len (descricao t)) && (Bodies.len (descricao t) <=? 255))
  && ((1 <=? Bodies.len (categoria t)) && (Bodies.len (categoria t) <=? 50))
  && forallb validate_InstallmentRead installments.

(** The check of what a handler returns against the [response_model] of
    its route. *)
Definition respond {A : Type} (valid : bool) (a : A) : outcome A :=
  if valid then Return a else Throw ResponseValidationError.

End Responses.

(** ** backend/app/routers/transactions.py *)

(** A handler that writes returns [Throw e] when it raises before its
    [db.commit()], and then nothing is written; otherwise it returns the
    tables it has committed together with its response, which is the row
    it returns or the [ResponseValidationError] of a row that fails the
    [response_model], raised after the commit. *)

Module Transactions.
Import Calendar Models Dashboard Responses.

Definition not_found {A : Type} : outcome A :=
  Throw (HTTPException 404 "Transação não encontrada").

(** [t.installments]: the installments whose foreign key names [t]. *)
Definition installments_of (db : Session) (t : Transaction) : list Installment :=
  filter (fun i => transacao_id i =? id t) (installments db).

(** A transaction as the response of a route with
    [response_model=TransactionRead]. *)
Definition read_transaction (db : Session) (t : Transaction)
    : outcome Transaction :=
  respond (validate_TransactionRead t (installments_of db t)) t.

(** The rows stored for the installments of a plan: [pk_of n] is the
    primary key the database gives to the installment number [n]. *)
Definition installment_rows (pk_of : Z -> Z) (transacao_id : Z)
    (parcelas : list Utils.parcela) : list Installment :=
  map (fun parcela =>
         mkInstallment (pk_of (Utils.numero_parcela parcela)) transacao_id
           (Utils.numero_parcela parcela) (Utils.total_parcelas parcela)
           (Utils.valor_parcela parcela) (Utils.data_vencimento parcela)
           PENDENTE)
      parcelas.

(** [pk] is the primary key the database gives to the new transaction at
    [db.flush()].  [Decimal(str(valor_total))] is [valor_total], which is a
    [Decimal] already.  Nothing is committed when the scheduler raises; the
    response is checked against [TransactionRead] after [db.commit()]. *)
Definition create_transaction (pk : Z) (pk_of : Z -> Z)
    (transaction_data : Bodies.TransactionCreate) (current_user : Z)
    (db : Session) : outcome (Session * outcome Transaction) :=
  _ <- Bodies.validate_TransactionCreate transaction_data ;;
  let new_transaction :=
    mkTransaction pk current_user (Bodies.valor_total transaction_data)
      (Bodies.descricao transaction_data) (Bodies.categoria transaction_data)
      (Bodies.tipo transaction_data) (Bodies.data_compra transaction_data)
      (Bodies.num_parcelas transaction_data)
      (Bodies.notas transaction_data) in
  rows <-
    (if tipo_eqb (Bodies.tipo transaction_data) SAIDA_CREDITO
        && (Bodies.num_parcelas transaction_data >? 0) then
       parcelas <- Utils.calcular_datas_parcelas
                     (Bodies.data_compra transaction_data)
                     (Bodies.num_parcelas transaction_data)
                     (Bodies.valor_total transaction_data) ;;
       Return (installment_rows pk_of pk parcelas)
     else Return []) ;;
  let db' := mkSession (transactions db ++ [new_transaction])
               (installments db ++ rows) (savings_goals db) in
  Return (db', read_transaction db' new_transaction).

(** [query(Transaction).filter(id == transaction_id, user_id == user).first()] *)
Definition find_transaction (db : Session) (transaction_id user : Z)
    : option Transaction :=
  find (fun t => (id t =? transaction_id) && (user_id t =? user))
       (transactions db).

Definition get_transaction (transaction_id current_user : Z) (db : Session)
    : outcome Transaction :=
  match find_transaction db transaction_id current_user with
  | None => not_found
  | Some transaction => read_transaction db transaction
  end.

Definition with_descricao (t : Transaction) (s : string) : Transaction :=
  mkTransaction (id t) (user_id t) (valor_total t) s (categoria t) (tipo t)
    (data_compra t) (num_parcelas t) (notas t).

Definition with_categoria (t : Transaction) (s : string) : Transaction :=
  mkTransaction (id t) (user_id t) (valor_total t) (descricao t) s (tipo t)
    (data_compra t) (num_parcelas t) (notas t).

Definition with_notas (t : Transaction) (s : string) : Transaction :=
  mkTransaction (id t) (user_id t) (valor_total t) (descricao t) (categoria t)
    (tipo t) (data_compra t) (num_parcelas t) (Some s).

(** The UPDATE of the row of a changed transaction, by its primary key. *)
Definition update_transaction_row (db : Session) (t' : Transaction) : Session :=
  mkSession (map (fun t => if id t =? id t' then t' else t) (transactions db))
            (installments db) (savings_goals db).

Definition update_transaction (transaction_id : Z)
    (transaction_data : Bodies.TransactionUpdate) (current_user : Z)
    (db : Session) : outcome (Session * outcome Transaction) :=
  _ <- Bodies.validate_TransactionUpdate transaction_data ;;
  match find_transaction db transaction_id current_user with
  | None => not_found
  | Some transaction =>
      let transaction :=
        match Bodies.upd_descricao transaction_data with
        | Some s => with_descricao transaction s
        | None => transaction
        end in
      let transaction :=
        match Bodies.upd_categoria transaction_data with
        | Some s => with_categoria transaction s
        | None => transaction
        end in
      let transaction :=
        match Bodies.upd_notas transaction_data with
        | Some s => with_notas transaction s
        | None => transaction
        end in
      let db' := update_transaction_row db transaction in
      Return (db', read_transaction db' transaction)
  end.

(** [db.delete(transaction)]: the relationship [installments] cascades,
    the installments of the transaction go with it.  The route has no
    [response_model]. *)
Definition delete_transaction (transaction_id current_user : Z) (db : Session)
    : outcome Session :=
  match find_transaction db transaction_id current_user with
  | None => not_found
  | Some transaction =>
      Return (mkSession
                (filter (fun t => negb (id t =? id transaction))
                        (transactions db))
                (filter (fun i => negb (transacao_id i =? id transaction))
                        (installments db))
                (savings_goals db))
  end.

(** [ORDER BY data_vencimento]: dates in their order; rows with the same
    date in the order of the table (SQL leaves that order open). *)
Definition date_leb (a b : date) : bool :=
  (year a <? year b)
  || ((year a =? year b)
      && ((month a <? month b)
          || ((month a =? month b) && (day a <=? day b)))).

Fixpoint insert_by_date (x : Installment) (l : list Installment)
    : list Installment :=
  match l with
  | [] => [x]
  | y :: l' =>
      if date_leb (data_vencimento x) (data_vencimento y) then x :: l
      else y :: insert_by_date x l'
  end.

Definition order_by_data_vencimento (l : list Installment) : list Installment :=
  fold_right insert_by_date [] l.

(** [response_model=List[InstallmentRead]]: every installment of the list
    is checked. *)
Definition get_installments_by_month (mes ano : Z) (current_user : Z)
    (db : Session) : outcome (list Installment) :=
  if negb ((1 <=? mes) && (mes <=? 12)) then
    Throw (Builtin (RequestValidationError "mes"))
  else if negb (2000 <=? ano) then
    Throw (Builtin (RequestValidationError "ano"))
  else
    let installments :=
      order_by_data_vencimento
        (map fst
           (filter (fun it => (user_id (snd it) =? current_user)
                              && in_period (data_vencimento (fst it)) mes ano)
                   (installments_join_transactions db))) in
    respond (forallb validate_InstallmentRead installments) installments.

Definition with_status (i : Installment) (s : PaymentStatus) : Installment :=
  mkInstallment (installment_id i) (transacao_id i) (numero_parcela i)
    (total_parcelas i) (valor_parcela i) (data_vencimento i) s.

Definition update_installment_status (installment_id : Z)
    (status_data : PaymentStatus) (current_user : Z) (db : Session)
    : outcome (Session * outcome Installment) :=
  match find (fun it => (Models.installment_id (fst it) =? installment_id)
                        && (user_id (snd it) =? current_user))
             (installments_join_transactions db) with
  | None => Throw (HTTPException 404 "Parcela não encontrada")
  | Some (installment, _) =>
      let installment := with_status installment status_data in
      Return (mkSession (transactions db)
                (map (fun i => if Models.installment_id i
                                  =? Models.installment_id installment
                               then installment else i)
                     (installments db))
                (savings_goals db),
              respond (validate_InstallmentRead installment) installment)
  end.

Definition status_eqb (a b : PaymentStatus) : bool :=
  match a, b with
  | PENDENTE, PENDENTE | PAGO, PAGO | ATRASADO, ATRASADO => true
  | _, _ => false
  end.

(** The status that [list_transactions] shows for a transaction. *)
Definition list_status (db : Session) (t : Transaction) : option string :=
  let status : option string := None in
  if tipo_eqb (tipo t) ENTRADA then Some "RECEBIDO"%string
  else if tipo_eqb (tipo t) SAIDA_DEBITO then Some "CONFIRMADO"%string
  else if tipo_eqb (tipo t) SAIDA_CREDITO then
    let pending :=
      existsb (fun i => status_eqb (status_pagamento i) PENDENTE)
              (installments_of db t) in
    Some (if pending then "PENDENTE" else "CONFIRMADO")%string
  else status.

(** The status that [get_recent_transactions] of the dashboard shows. *)
Definition recent_status (db : Session) (t : Transaction) : string :=
  let status := "CONFIRMADO"%string in
  if tipo_eqb (tipo t) ENTRADA then "RECEBIDO"%string
  else if tipo_eqb (tipo t) SAIDA_CREDITO then
    let pending :=
      existsb (fun i => status_eqb (status_pagamento i) PENDENTE)
              (installments_of db t) in
    (if pending then "PENDENTE" else "CONFIRMADO")%string
  else status.

End Transactions.

(** ** Vocabulary of the handlers *)

(** The primary key of [savings_goals] is unique. *)
Definition goal_keys_unique (goals : list Savings.GoalRow) : Prop :=
  NoDup (map Savings.goal_id goals).

(** No goal holds a negative amount. *)
Definition balances_nonneg (goals : list Savings.GoalRow) : Prop :=
  Forall (fun g => match Models.valor_atual (Savings.columns g) with
                   | Some b => 0 <= b
                   | None => True
                   end) goals.

(** The goals of one user, in the order of the table. *)
Definition goals_of (user : Z) (goals : list Savings.GoalRow)
    : list Savings.GoalRow :=
  filter (fun g => Models.goal_user_id (Savings.columns g) =? user) goals.


Module SavingsSamples.
Import Calendar Models Savings.

(** Two goals of user 7, the second one completed, and one of user 8. *)
Definition sample_goals : list GoalRow :=
  [mkGoalRow 1 "viagem" None None
     (mkSavingsGoal 7 500000 (Some 120000) (Some true));
   mkGoalRow 2 "reserva" None None
     (mkSavingsGoal 7 100000 (Some 100000) (Some false));
   mkGoalRow 3 "carro" None None
     (mkSavingsGoal 8 900000 (Some 1000) (Some true))].

End SavingsSamples.

Module TransactionSamples.
Import Calendar Models Bodies.

(** A credit purchase of 1000.00 in 3 installments on 2024-01-31. *)
Definition sample_credit : TransactionCreate :=
  mkTransactionCreate 100000 "geladeira" "Casa" SAIDA_CREDITO
    (mkdate 2024 1 31) None 3.

(** A debit expense of 45.00 on 2024-02-10. *)
Definition sample_debit : TransactionCreate :=
  mkTransactionCreate 4500 "farmacia" "Saude" SAIDA_DEBITO
    (mkdate 2024 2 10) None 1.

End TransactionSamples.

(** An installment that an [InstallmentRead] accepts. *)
Definition installment_readable (i : Models.Installment) : Prop :=
  1 <= Models.numero_parcela i /\ 1 <= Models.total_parcelas i
  /\ 0 <= Models.valor_parcela i.

(** A transaction that a [TransactionRead] accepts, with the installments
    it has in [db]. *)
Definition transaction_readable (db : Models.Session) (t : Models.Transaction)
    : Prop :=
  0 <= Models.valor_total t
  /\ 1 <= Bodies.len (Models.descricao t) <= 255
  /\ 1 <= Bodies.len (Models.categoria t) <= 50
  /\ forall i, In i (Models.installments db) ->
       Models.transacao_id i = Models.id t -> installment_readable i.

(** The response of a route: [a] when [a] passes the [response_model],
    and a [ResponseValidationError] when it does not. *)
Definition answers {A : Type} (response : outcome A) (a : A) (passes : Prop)
    : Prop :=
  (passes -> response = Return a)
  /\ (~ passes -> response = Throw ResponseValidationError).

(** The due date of [a] is not after that of [b]. *)
Definition due_before (a b : Models.Installment) : Prop :=
  Transactions.date_leb (Models.data_vencimento a) (Models.data_vencimento b)
  = true.

(** * Properties *)

(** ** The installment loop *)

Section Loop.
Context {A : Type} (body : Z -> A).

Lemma append_loop_from (l : list Z) (acc : list A) :
  fold_left (fun parcelas i => parcelas ++ [body i]) l acc = acc ++ map body l.
Proof.
  revert acc; induction l as [|i l IH]; intros acc; simpl.
  - now rewrite app_nil_r.
  - rewrite IH, <- app_assoc. reflexivity.
Qed.

Lemma append_loop (l : list Z) :
  fold_left (fun parcelas i => parcelas ++ [body i]) l [] = map body l.
Proof. apply append_loop_from. Qed.
End Loop.

Lemma range_length (n : Z) : List.length (range n) = Z.to_nat n.
Proof. unfold range. now rewrite length_map, length_seq. Qed.

Lemma range_nth (n i : Z) :
  0 <= i < n -> nth_error (range n) (Z.to_nat i) = Some i.
Proof.
  intros Hi. unfold range.
  rewrite nth_error_map, nth_error_seq.
  destruct (Nat.ltb_spec (Z.to_nat i) (Z.to_nat n)) as [_|Hge]; [|lia].
  simpl. f_equal. lia.
Qed.

Lemma range_succ (n : Z) : 0 <= n -> range (n + 1) = range n ++ [n].
Proof.
  intros Hn. unfold range.
  replace (Z.to_nat (n + 1)) with (Z.to_nat n + 1)%nat by lia.
  rewrite seq_app, map_app. simpl. now rewrite Z2Nat.id.
Qed.

(** ** Rounding to the cent *)

Lemma is_round_half_up_unique (v n b b' : Z) :
  0 < n -> is_round_half_up v n b -> is_round_half_up v n b' -> b = b'.
Proof. unfold is_round_half_up. intros Hn H H'. nia. Qed.

Lemma div_quantize_half_up_pos (v n : Z) :
  0 < v -> 0 < n -> div_quantize_half_up v n = (2 * v + n) / (2 * n).
Proof.
  intros Hv Hn. unfold div_quantize_half_up.
  rewrite (Z.sgn_pos v), (Z.sgn_pos n), (Z.abs_eq v), (Z.abs_eq n); lia.
Qed.

Lemma div_quantize_half_up_spec (v n : Z) :
  0 < v -> 0 < n -> is_round_half_up v n (div_quantize_half_up v n).
Proof.
  intros Hv Hn. rewrite div_quantize_half_up_pos by assumption.
  unfold is_round_half_up.
  pose proof (Z.div_mod (2 * v + n) (2 * n) ltac:(lia)) as Hdm.
  pose proof (Z.mod_pos_bound (2 * v + n) (2 * n) ltac:(lia)) as Hb.
  nia.
Qed.

(** ** Calendar-month addition *)

Module CalendarFacts.
Import Calendar.

Lemma relativedelta_months_nonneg (i : Z) :
  0 <= i -> relativedelta_months i = mkdelta (i / 12) (i mod 12).
Proof.
  intros Hi. unfold relativedelta_months.
  destruct (Z.gtb_spec (Z.abs i) 11) as [Hbig|Hsmall].
  - destruct (Z.ltb_spec i 0); [lia|].
    now rewrite !Z.mul_1_r.
  - rewrite Z.div_small, Z.mod_small by lia. reflexivity.
Qed.

Lemma divmod_12 (q r : Z) :
  0 <= r < 12 -> (q * 12 + r) / 12 = q /\ (q * 12 + r) mod 12 = r.
Proof.
  intros Hr. split.
  - rewrite Z.div_add_l, Z.div_small by lia. lia.
  - rewrite Z.add_comm, Z.mod_add, Z.mod_small by lia. reflexivity.
Qed.

Lemma monthrange_pos (y m : Z) : 1 <= m <= 12 -> 28 <= monthrange y m <= 31.
Proof.
  intros Hm. unfold monthrange.
  assert (m = 1 \/ m = 2 \/ m = 3 \/ m = 4 \/ m = 5 \/ m = 6 \/ m = 7
          \/ m = 8 \/ m = 9 \/ m = 10 \/ m = 11 \/ m = 12) as Hcases by lia.
  repeat (destruct Hcases as [->|Hcases]); try subst m; simpl;
    destruct (isleap y); simpl; lia.
Qed.

(** The library's addition is the calendar-month addition of the
    specification. *)
Lemma date_add_months (d : date) (i : Z) :
  1 <= month d <= 12 -> 0 <= i ->
  date_add d (relativedelta_months i) = add_months_spec d i.
Proof.
  intros Hm Hi. rewrite relativedelta_months_nonneg by assumption.
  unfold date_add, add_months_spec, month_index; cbn [years months].
  pose proof (Z.div_mod i 12 ltac:(lia)) as Hdm.
  pose proof (Z.mod_pos_bound i 12 ltac:(lia)) as Hr.
  set (a := i / 12) in *. set (r := i mod 12) in *.
  assert (Hk : 12 * year d + (month d - 1) + i
               = (year d + a) * 12 + (month d - 1 + r)) by lia.
  assert (Hym :
    (if r =? 0 then (year d + a, month d)
     else if month d + r >? 12 then (year d + a + 1, month d + r - 12)
          else if month d + r <? 1 then (year d + a - 1, month d + r + 12)
               else (year d + a, month d + r))
    = ((12 * year d + (month d - 1) + i) / 12,
       (12 * year d + (month d - 1) + i) mod 12 + 1)).
  { rewrite Hk.
    destruct (Z.eqb_spec r 0) as [Hr0|Hr0].
    - destruct (divmod_12 (year d + a) (month d - 1 + r) ltac:(lia)) as [-> ->].
      f_equal; lia.
    - destruct (Z.gtb_spec (month d + r) 12) as [Hgt|Hle].
      + replace ((year d + a) * 12 + (month d - 1 + r))
          with ((year d + a + 1) * 12 + (month d + r - 13)) by lia.
        destruct (divmod_12 (year d + a + 1) (month d + r - 13) ltac:(lia)) as [-> ->].
        f_equal; lia.
      + destruct (Z.ltb_spec (month d + r) 1); [lia|].
        destruct (divmod_12 (year d + a) (month d - 1 + r) ltac:(lia)) as [-> ->].
        f_equal; lia. }
  rewrite Hym.
  f_equal.
  destruct (Z.leb_spec (day d)
              (monthrange ((12 * year d + (month d - 1) + i) / 12)
                          ((12 * year d + (month d - 1) + i) mod 12 + 1))); lia.
Qed.

(** What [add_months_spec] means: exactly [i] months further on the month
    line, the same day of the month when the month reached has it, and
    that month's last day otherwise; the result is a day of the
    calendar. *)
Lemma add_months_spec_month_index (d : date) (i : Z) :
  month_index (add_months_spec d i) = month_index d + i.
Proof.
  unfold add_months_spec, month_index at 1; cbn [year month day].
  pose proof (Z.div_mod (month_index d + i) 12 ltac:(lia)). lia.
Qed.

Lemma add_months_spec_month (d : date) (i : Z) :
  1 <= month (add_months_spec d i) <= 12.
Proof.
  unfold add_months_spec; cbn [year month day].
  pose proof (Z.mod_pos_bound (month_index d + i) 12 ltac:(lia)). lia.
Qed.

Lemma add_months_spec_day (d : date) (i : Z) :
  let r := add_months_spec d i in
  (day d <= monthrange (year r) (month r) -> day r = day d)
  /\ (monthrange (year r) (month r) < day d ->
      day r = monthrange (year r) (month r)).
Proof.
  unfold add_months_spec; cbn [year month day].
  destruct (Z.leb_spec (day d)
             (monthrange ((month_index d + i) / 12)
                         ((month_index d + i) mod 12 + 1))); lia.
Qed.

Lemma add_months_spec_valid (d : date) (i : Z) :
  valid_date d -> valid_date (add_months_spec d i).
Proof.
  intros [Hm Hd]. split; [apply add_months_spec_month|].
  pose proof (add_months_spec_month d i) as Hm'.
  pose proof (monthrange_pos (year (add_months_spec d i)) _ Hm') as Hr.
  destruct (add_months_spec_day d i) as [Hkeep Hclamp].
  destruct (Z.le_gt_cases (day d)
              (monthrange (year (add_months_spec d i))
                          (month (add_months_spec d i)))) as [Hle|Hgt].
  - rewrite (Hkeep Hle). lia.
  - rewrite (Hclamp Hgt). lia.
Qed.

End CalendarFacts.

(** ** The constructor of [date] *)

Module DatetimeFacts.
Import Calendar Datetime CalendarFacts.

Ltac case_ltb :=
  repeat match goal with
         | |- context [?a <? ?b] =>
             destruct (Z.ltb_spec a b); cbn [orb andb]; try lia
         end.

Lemma as_c_int_small (x : Z) :
  - 2147483648 <= x <= 2147483647 -> as_c_int x = Return x.
Proof.
  intros Hx. unfold as_c_int.
  change (2 ^ 63) with 9223372036854775808.
  change (2 ^ 31) with 2147483648.
  case_ltb. reflexivity.
Qed.

Lemma as_c_int_cases (x : Z) :
  match as_c_int x with
  | Return y => y = x /\ - 2147483648 <= x <= 2147483647
  | Throw _ => x < - 2147483648 \/ 2147483647 < x
  end.
Proof.
  unfold as_c_int.
  change (2 ^ 63) with 9223372036854775808.
  change (2 ^ 31) with 2147483648.
  case_ltb.
Qed.

Lemma new_date_valid (y m d : Z) :
  1 <= y <= 9999 -> 1 <= m <= 12 -> 1 <= d <= monthrange y m ->
  new_date y m d = Return (mkdate y m d).
Proof.
  intros Hy Hm Hd. unfold new_date.
  pose proof (monthrange_pos y m Hm).
  rewrite !as_c_int_small by lia. cbn [bind].
  unfold MINYEAR, MAXYEAR.
  destruct (Z.ltb_spec y 1); [lia|].
  destruct (Z.ltb_spec 9999 y); [lia|].
  destruct (Z.ltb_spec m 1); [lia|].
  destruct (Z.ltb_spec 12 m); [lia|].
  destruct (Z.ltb_spec d 1); [lia|].
  destruct (Z.ltb_spec (monthrange y m) d); [lia|]. reflexivity.
Qed.

(** The constructor returns exactly the days of the calendar from year 1
    to year 9999. *)
Lemma new_date_cases (y m d : Z) :
  match new_date y m d with
  | Return r =>
      r = mkdate y m d /\ 1 <= y <= 9999 /\ 1 <= m <= 12
      /\ 1 <= d <= monthrange y m
  | Throw _ =>
      ~ (1 <= y <= 9999 /\ 1 <= m <= 12 /\ 1 <= d <= monthrange y m)
  end.
Proof.
  unfold new_date.
  pose proof (as_c_int_cases y) as Hy.
  destruct (as_c_int y) as [y'|e]; cbn [bind].
  2:{ intros [? [? ?]]. lia. }
  destruct Hy as [-> Hy].
  pose proof (as_c_int_cases m) as Hm.
  destruct (as_c_int m) as [m'|e]; cbn [bind].
  2:{ intros [? [? ?]]. lia. }
  destruct Hm as [-> Hm].
  pose proof (as_c_int_cases d) as Hd.
  destruct (as_c_int d) as [d'|e]; cbn [bind].
  2:{ intros [? [Hm' ?]]. pose proof (monthrange_pos y m Hm'). lia. }
  destruct Hd as [-> Hd].
  unfold MINYEAR, MAXYEAR.
  destruct (Z.ltb_spec y 1); cbn [orb]; [lia|].
  destruct (Z.ltb_spec 9999 y); [lia|].
  destruct (Z.ltb_spec m 1); cbn [orb]; [lia|].
  destruct (Z.ltb_spec 12 m); [lia|].
  destruct (Z.ltb_spec d 1); cbn [orb]; [lia|].
  destruct (Z.ltb_spec (monthrange y m) d); [lia|].
  repeat split; lia.
Qed.

End DatetimeFacts.

(** ** The addition of months to a date *)

Module DateutilFacts.
Import Calendar Datetime Dateutil CalendarFacts DatetimeFacts.

Lemma is_date_month_index (d : date) :
  is_date d -> 12 <= month_index d < 12 * 10000.
Proof.
  unfold is_date, valid_date, month_index, MINYEAR, MAXYEAR. lia.
Qed.

Lemma add_months_spec_year (d : date) (i : Z) :
  year (add_months_spec d i) = (month_index d + i) / 12.
Proof. reflexivity. Qed.

(** Within the calendar the library's addition returns the date of the
    calendar-month addition of the specification. *)
Lemma radd_months (d : date) (i : Z) :
  is_date d -> 0 <= i -> month_index d + i < 12 * 10000 ->
  radd d (relativedelta_months i) = Return (add_months_spec d i).
Proof.
  intros Hd Hi Hlast. pose proof (is_date_month_index d Hd) as Hidx.
  destruct Hd as [Hvalid _].
  unfold radd. cbv zeta. rewrite date_add_months by (destruct Hvalid; lia).
  pose proof (add_months_spec_valid d i Hvalid) as [Hm Hday].
  rewrite new_date_valid; try assumption.
  - now destruct (add_months_spec d i).
  - rewrite add_months_spec_year.
    split.
    + apply Z.div_le_lower_bound; lia.
    + enough ((month_index d + i) / 12 < 10000) by lia.
      apply Z.div_lt_upper_bound; lia.
Qed.

Lemma add_months_spec_is_date (d : date) (i : Z) :
  is_date d -> 0 <= i -> month_index d + i < 12 * 10000 ->
  is_date (add_months_spec d i).
Proof.
  intros Hd Hi Hlast. pose proof (is_date_month_index d Hd) as Hidx.
  split; [apply add_months_spec_valid; apply Hd|].
  rewrite add_months_spec_year. unfold MINYEAR, MAXYEAR. split.
  - apply Z.div_le_lower_bound; lia.
  - enough ((month_index d + i) / 12 < 10000) by lia.
    apply Z.div_lt_upper_bound; lia.
Qed.

(** The first month after December 9999 is refused by [date]. *)
Lemma radd_months_year_10000 (d : date) (i : Z) :
  is_date d -> 0 <= i -> month_index d + i = 12 * 10000 ->
  radd d (relativedelta_months i)
  = Throw (Builtin (ValueError "year 10000 is out of range")).
Proof.
  intros Hd Hi Hlast. destruct Hd as [Hvalid _].
  unfold radd. cbv zeta. rewrite date_add_months by (destruct Hvalid; lia).
  pose proof (add_months_spec_valid d i Hvalid) as [Hm Hday].
  assert (Hy : year (add_months_spec d i) = 10000).
  { rewrite add_months_spec_year, Hlast. reflexivity. }
  pose proof (monthrange_pos (year (add_months_spec d i)) _ Hm) as Hr.
  unfold new_date. rewrite Hy in *.
  rewrite !as_c_int_small by lia. cbn [bind].
  reflexivity.
Qed.

End DateutilFacts.

(** ** Rounded arithmetic *)

Module RoundingFacts.
Import Float64.

Lemma ilog_aux_spec (fuel : nat) (b x : Z) :
  2 <= b -> 1 <= x -> x < b ^ Z.of_nat fuel ->
  0 <= ilog_aux fuel b x
  /\ b ^ ilog_aux fuel b x <= x < b ^ (ilog_aux fuel b x + 1).
Proof.
  intros Hb. revert x. induction fuel as [|fuel IH]; intros x Hx Hlt.
  - simpl in Hlt. lia.
  - cbn [ilog_aux]. destruct (Z.ltb_spec x b) as [Hsmall|Hbig].
    + rewrite Z.pow_0_r, Z.pow_1_r. lia.
    + assert (Hq : 1 <= x / b) by (apply Z.div_le_lower_bound; lia).
      assert (Hqlt : x / b < b ^ Z.of_nat fuel).
      { apply Z.div_lt_upper_bound; [lia|].
        rewrite Nat2Z.inj_succ, Z.pow_succ_r in Hlt by lia. exact Hlt. }
      destruct (IH (x / b) Hq Hqlt) as (Hk & Hlo & Hhi).
      set (k := ilog_aux fuel b (x / b)) in *.
      pose proof (Z.div_mod x b ltac:(lia)) as Hdm.
      pose proof (Z.mod_pos_bound x b ltac:(lia)) as Hr.
      split; [lia|].
      replace (1 + k) with (Z.succ k) by lia.
      replace (Z.succ k + 1) with (Z.succ (k + 1)) by lia.
      rewrite !Z.pow_succ_r by lia. split; nia.
Qed.

Lemma ilog_spec (b x : Z) :
  2 <= b -> 1 <= x ->
  0 <= ilog b x /\ b ^ ilog b x <= x < b ^ (ilog b x + 1).
Proof.
  intros Hb Hx. unfold ilog. apply ilog_aux_spec; try assumption.
  rewrite Nat2Z.inj_succ, Z2Nat.id by apply Z.log2_nonneg.
  destruct (Z.log2_spec x ltac:(lia)) as [_ Hlt].
  eapply Z.lt_le_trans; [exact Hlt|].
  apply Z.pow_le_mono_l. lia.
Qed.

(** [b ^ exponent b a d <= a / d], on integers. *)
Lemma exponent_lower (b a d : Z) :
  2 <= b -> 1 <= a -> 1 <= d ->
  (0 <= exponent b a d -> d * b ^ exponent b a d <= a)
  /\ (exponent b a d < 0 -> d <= a * b ^ (- exponent b a d)).
Proof.
  intros Hb Ha Hd. unfold exponent.
  destruct (ilog_spec b a Hb Ha) as (Hla & Hloa & Hhia).
  destruct (ilog_spec b d Hb Hd) as (Hld & Hlod & Hhid).
  set (la := ilog b a) in *. set (ld := ilog b d) in *.
  clearbody la ld.
  destruct (Z.geb_spec (la - ld) 0) as [Hk|Hk].
  - destruct (Z.leb_spec (d * b ^ (la - ld)) a) as [Hreach|Hnot]; cbv iota.
    + split; intros; [assumption|lia].
    + split; intros He.
      * (* la - ld - 1 >= 0 *)
        assert (Hpow : b ^ la = b ^ (ld + 1) * b ^ (la - ld - 1)).
        { rewrite <- Z.pow_add_r by lia. f_equal; lia. }
        assert (0 < b ^ (la - ld - 1)) by (apply Z.pow_pos_nonneg; lia).
        nia.
      * (* la - ld - 1 < 0, so la = ld *)
        replace (- (la - ld - 1)) with 1 by lia. rewrite Z.pow_1_r.
        assert (la = ld) by lia. subst la.
        replace (ld + 1) with (Z.succ ld) in Hhid by lia.
        rewrite Z.pow_succ_r in Hhid by lia. nia.
  - destruct (Z.leb_spec d (a * b ^ (- (la - ld)))) as [Hreach|Hnot]; cbv iota.
    + split; intros; [lia|assumption].
    + split; intros He; [lia|].
      assert (Hpow : b ^ (ld + 1) = b ^ la * b ^ (- (la - ld - 1))).
      { rewrite <- Z.pow_add_r by lia. f_equal; lia. }
      assert (0 < b ^ (- (la - ld - 1))) by (apply Z.pow_pos_nonneg; lia).
      nia.
Qed.

(** [round_half_even] is within one half of the quotient. *)
Lemma round_half_even_near (p d : Z) :
  0 < d -> 2 * Z.abs (round_half_even p d * d - p) <= d.
Proof.
  intros Hd. unfold round_half_even.
  pose proof (Z.div_mod p d ltac:(lia)) as Hdm.
  pose proof (Z.mod_pos_bound p d Hd) as Hr.
  destruct (Z.ltb_spec (2 * (p mod d)) d);
    [|destruct (Z.gtb_spec (2 * (p mod d)) d);
      [|destruct (Z.even (p / d))]]; nia.
Qed.

Lemma round_half_even_exact (p d : Z) :
  0 < d -> p mod d = 0 -> round_half_even p d = p / d.
Proof.
  intros Hd Hm. unfold round_half_even. rewrite Hm.
  destruct (Z.ltb_spec (2 * 0) d); [reflexivity|lia].
Qed.

Lemma scaled_near (b s a d : Z) :
  2 <= b -> 1 <= d ->
  (0 <= s -> 2 * Z.abs (scaled b s a d * d - a * b ^ s) <= d)
  /\ (s < 0 ->
      2 * Z.abs (scaled b s a d * (d * b ^ (- s)) - a) <= d * b ^ (- s)).
Proof.
  intros Hb Hd. unfold scaled.
  destruct (Z.geb_spec s 0) as [Hs|Hs]; split; intros Hs'; try lia.
  - apply round_half_even_near. lia.
  - apply round_half_even_near.
    assert (0 < b ^ (- s)) by (apply Z.pow_pos_nonneg; lia). nia.
Qed.

(** The value of [round_sig] on a non-zero fraction. *)
Lemma round_sig_value (b prec n : Z) (d : positive) :
  n <> 0 ->
  let s := prec - 1 - exponent b (Z.abs n) (Zpos d) in
  let m := scaled b s (Z.abs n) (Zpos d) in
  (round_sig b prec (n # d)
   == if s >=? 0 then Qmake (Z.sgn n * m) (Z.to_pos (b ^ s))
      else Qmake (Z.sgn n * m * b ^ (- s)) 1)%Q.
Proof.
  intros Hn s m. unfold round_sig; cbn [Qnum Qden].
  destruct (Z.eqb_spec n 0); [contradiction|].
  fold s. fold m. destruct (s >=? 0); apply Qred_correct.
Qed.

(** The heart of the error bound, on integers: [m] within a half of
    [a * B / D] and [D * E <= a * F] with [P * F = B * E]. *)
Lemma error_core (a D m B P E F : Z) :
  0 < D -> 0 <= a -> 0 < B -> 0 < P -> 0 < E -> 0 < F ->
  2 * Z.abs (m * D - a * B) <= D ->
  D * E <= a * F ->
  P * F = B * E ->
  Z.abs (m * D - a * B) * (2 * P) <= a * B.
Proof.
  intros HD Ha HB HP HE HF Hnear Hlow Hrel.
  assert (H1 : Z.abs (m * D - a * B) * (2 * P) * F <= D * P * F) by nia.
  assert (H2 : D * P * F = B * (D * E)) by nia.
  assert (H3 : B * (D * E) <= B * (a * F)) by nia.
  assert (H4 : Z.abs (m * D - a * B) * (2 * P) * F <= (a * B) * F) by nia.
  nia.
Qed.

(** The relative error of [round_sig]: at most half a unit of the last of
    [prec] digits. *)
Theorem round_sig_error (b prec : Z) (x : Q) :
  2 <= b -> 1 <= prec ->
  (Qabs (round_sig b prec x - x) * inject_Z (2 * b ^ (prec - 1)) <= Qabs x)%Q.
Proof.
  intros Hb Hprec. destruct x as [n d].
  destruct (Z.eq_dec n 0) as [->|Hn].
  { unfold round_sig; cbn [Qnum Z.eqb]. unfold Qle; cbn. lia. }
  rewrite (round_sig_value b prec n d Hn).
  set (a := Z.abs n). set (e := exponent b a (Zpos d)).
  set (s := prec - 1 - e). set (m := scaled b s a (Zpos d)).
  cbv zeta.
  assert (Ha : 1 <= a) by (unfold a; lia).
  destruct (exponent_lower b a (Zpos d) Hb Ha ltac:(lia)) as [Hlo_pos Hlo_neg].
  fold e in Hlo_pos, Hlo_neg.
  destruct (scaled_near b s a (Zpos d) Hb ltac:(lia)) as [Hnear_pos Hnear_neg].
  fold m in Hnear_pos, Hnear_neg.
  assert (HP : 0 < b ^ (prec - 1)) by (apply Z.pow_pos_nonneg; lia).
  assert (Hsgn : n = Z.sgn n * a) by (unfold a; lia).
  assert (Hsgn1 : Z.abs (Z.sgn n) = 1) by lia.
  destruct (Z.geb_spec s 0) as [Hs|Hs].
  - assert (HB : 0 < b ^ s) by (apply Z.pow_pos_nonneg; lia).
    specialize (Hnear_pos Hs).
    unfold Qle, Qminus, Qplus, Qopp, Qmult, Qabs, inject_Z; cbn [Qnum Qden].
    rewrite !Pos2Z.inj_mul, Z2Pos.id by assumption.
    replace (Z.sgn n * m * Z.pos d + - n * b ^ s)
      with (Z.sgn n * (m * Z.pos d - a * b ^ s)) by nia.
    rewrite Z.abs_mul, Hsgn1. fold a.
    assert (Hcore : Z.abs (m * Z.pos d - a * b ^ s) * (2 * b ^ (prec - 1))
                    <= a * b ^ s).
    { destruct (Z.le_gt_cases 0 e) as [He|He].
      - assert (HE : 0 < b ^ e) by (apply Z.pow_pos_nonneg; lia).
        assert (Hrel : b ^ (prec - 1) * 1 = b ^ s * b ^ e).
        { rewrite <- Z.pow_add_r by lia. rewrite Z.mul_1_r. f_equal; lia. }
        specialize (Hlo_pos He).
        apply (error_core a (Z.pos d) m (b ^ s) (b ^ (prec - 1)) (b ^ e) 1);
          lia.
      - assert (HE : 0 < b ^ (- e)) by (apply Z.pow_pos_nonneg; lia).
        assert (Hrel : b ^ (prec - 1) * b ^ (- e) = b ^ s * 1).
        { rewrite <- Z.pow_add_r by lia. rewrite Z.mul_1_r. f_equal; lia. }
        specialize (Hlo_neg He).
        apply (error_core a (Z.pos d) m (b ^ s) (b ^ (prec - 1)) 1 (b ^ (- e)));
          lia. }
    nia.
  - assert (HC : 0 < b ^ (- s)) by (apply Z.pow_pos_nonneg; lia).
    specialize (Hnear_neg Hs).
    assert (He : 0 <= e) by lia. specialize (Hlo_pos He).
    unfold Qle, Qminus, Qplus, Qopp, Qmult, Qabs, inject_Z; cbn [Qnum Qden].
    rewrite !Pos2Z.inj_mul.
    replace (Z.sgn n * m * b ^ (- s) * Z.pos d + - n * 1)
      with (Z.sgn n * (m * (Z.pos d * b ^ (- s)) - a)) by nia.
    rewrite Z.abs_mul, Hsgn1. fold a.
    assert (Hpow : b ^ e = b ^ (prec - 1) * b ^ (- s)).
    { rewrite <- Z.pow_add_r by lia. f_equal; lia. }
    assert (Hcore : Z.abs (m * (Z.pos d * b ^ (- s)) - a) * (2 * b ^ (prec - 1))
                    <= a) by nia.
    nia.
Qed.

(** A relative error bound, without absolute values on the left. *)
Lemma rel_error_bounds (y x c : Q) :
  (0 < c)%Q ->
  (Qabs (y - x) * c <= Qabs x)%Q ->
  (x * c - Qabs x <= y * c <= x * c + Qabs x)%Q.
Proof.
  intros Hc. pose proof (Qabs_nonneg x) as Hx.
  apply (Qabs_case (y - x)); intros Hs H; split; nra.
Qed.

Lemma dec28_error (x : Q) :
  (Qabs (dec28 x - x) * inject_Z (2 * 10 ^ 27) <= Qabs x)%Q.
Proof. apply (round_sig_error 10 28 x); lia. Qed.

Lemma b64_error (x : Q) :
  (Qabs (b64 x - x) * inject_Z (2 ^ 53) <= Qabs x)%Q.
Proof. apply (round_sig_error 2 53 x); lia. Qed.

Lemma rate_chain (X D R f H : Q) :
  (Qabs (D - X * (1 # 100)) * inject_Z (2 * 10 ^ 27) <= Qabs (X * (1 # 100)))%Q ->
  (R == D * 100)%Q ->
  (Qabs (f - R) * inject_Z (2 ^ 53) <= Qabs R)%Q ->
  (Qabs (H * 100 - f * 100) <= 1 # 2)%Q ->
  (Qabs (H - X) <= (1 # 200) + Qabs X * (1 # 2 ^ 52))%Q.
Proof.
  intros HD HR Hf HH.
  apply rel_error_bounds in HD; [|reflexivity].
  apply rel_error_bounds in Hf; [|reflexivity].
  apply Qabs_Qle_condition in HH.
  apply Qabs_Qle_condition.
  change (inject_Z (2 * 10 ^ 27)) with (2000000000000000000000000000 # 1)%Q in HD.
  change (inject_Z (2 ^ 53)) with (9007199254740992 # 1)%Q in Hf.
  change (1 # 2 ^ 52)%Q with (1 # 4503599627370496)%Q.
  revert HD Hf.
  apply (Qabs_case (X * (1 # 100))); intros HX1 HD;
    apply (Qabs_case R); intros HR1 Hf;
    apply (Qabs_case X); intros HX2;
    split; lra.
Qed.

Lemma Qfloor_unique (y : Q) (k : Z) :
  (inject_Z k <= y)%Q -> (y < inject_Z (k + 1))%Q -> Qfloor y = k.
Proof.
  intros Hlo Hhi.
  pose proof (Qfloor_le y) as Hfl. pose proof (Qlt_floor y) as Hfu.
  assert (H1 : (inject_Z k < inject_Z (Qfloor y + 1))%Q)
    by (eapply Qle_lt_trans; eassumption).
  assert (H2 : (inject_Z (Qfloor y) < inject_Z (k + 1))%Q)
    by (eapply Qle_lt_trans; eassumption).
  rewrite <- Zlt_Qlt in H1, H2. lia.
Qed.

(** Off a tie the context's rounding of the quotient cannot change the
    cent it rounds to. *)
Lemma quantize_off_tie (D X N V K R : Q) :
  (X * (2000000000000000000000000000 # 1) - X
   <= D * (2000000000000000000000000000 # 1)
   <= X * (2000000000000000000000000000 # 1) + X)%Q ->
  (X * 100 * N == V)%Q ->
  (2 * V + N == 2 * N * K + R)%Q ->
  (1 <= R)%Q -> (R <= 2 * N - 1)%Q -> (1 <= N)%Q -> (N <= 48)%Q ->
  (0 < V)%Q -> (V < 1000000000000000000000000 # 1)%Q ->
  (K <= D * 100 + (1 # 2) < K + 1)%Q.
Proof.
  intros [Hlo Hhi] HX HK HR1 HR2 HN1 HN2 HV1 HV2.
  assert (HX0 : (0 < X)%Q) by nra.
  assert (HloN : ((X * (2000000000000000000000000000 # 1) - X) * (100 * N)
                  <= D * (2000000000000000000000000000 # 1) * (100 * N))%Q)
    by (apply Qmult_le_compat_r; [exact Hlo|lra]).
  assert (HhiN : (D * (2000000000000000000000000000 # 1) * (100 * N)
                  <= (X * (2000000000000000000000000000 # 1) + X) * (100 * N))%Q)
    by (apply Qmult_le_compat_r; [exact Hhi|lra]).
  assert (Hlo2 : ((2000000000000000000000000000 # 1) * V - V
                  <= (2000000000000000000000000000 # 1) * (D * 100 * N))%Q)
    by (rewrite <- HX; lra).
  assert (Hhi2 : ((2000000000000000000000000000 # 1) * (D * 100 * N)
                  <= (2000000000000000000000000000 # 1) * V + V)%Q)
    by (rewrite <- HX; lra).
  set (Y := (D * 100 * N)%Q) in *.
  assert (HYlo : (2 * N * K < 2 * Y + N)%Q) by lra.
  assert (HYhi : (2 * Y + N < 2 * N * (K + 1))%Q) by lra.
  split.
  - apply Qlt_le_weak.
    apply (Qmult_lt_l _ _ (2 * N)%Q); [lra|].
    unfold Y in HYlo. lra.
  - apply (Qmult_lt_l _ _ (2 * N)%Q); [lra|].
    unfold Y in HYhi. lra.
Qed.

(** On a tie the quotient has few digits and the context keeps it. *)
Lemma dec28_keeps_tie (v : Z) (p : positive) (K : Z) :
  0 < v < 10 ^ 24 ->
  2 * v + Z.pos p = 2 * Z.pos p * K ->
  (dec28 (Qmake v (100 * p)) == Qmake v (100 * p))%Q.
Proof.
  intros Hv HK. unfold dec28.
  rewrite (round_sig_value 10 28 v (100 * p)) by lia.
  cbv zeta. rewrite (Z.abs_eq v), (Z.sgn_pos v) by lia.
  set (e := exponent 10 v (Z.pos (100 * p))).
  destruct (exponent_lower 10 v (Z.pos (100 * p)) ltac:(lia) ltac:(lia)
              ltac:(lia)) as [Hlo _].
  fold e in Hlo.
  assert (He : e < 24).
  { destruct (Z.lt_ge_cases e 24) as [|Hge]; [assumption|exfalso].
    specialize (Hlo ltac:(lia)).
    assert (10 ^ 24 <= 10 ^ e) by (apply Z.pow_le_mono_r; lia).
    nia. }
  assert (Hs : 3 <= 28 - 1 - e) by lia.
  set (s := 28 - 1 - e) in *.
  destruct (Z.geb_spec s 0) as [_|]; [|lia].
  assert (HB : 0 < 10 ^ s) by (apply Z.pow_pos_nonneg; lia).
  assert (Hpow : 10 ^ s = 1000 * 10 ^ (s - 3)).
  { change 1000 with (10 ^ 3). rewrite <- Z.pow_add_r by lia. f_equal; lia. }
  assert (Hmul : v * 10 ^ s
                 = (5 * (2 * K - 1) * 10 ^ (s - 3)) * Z.pos (100 * p)).
  { rewrite Hpow, Pos2Z.inj_mul. nia. }
  unfold scaled. destruct (Z.geb_spec s 0) as [_|]; [|lia].
  rewrite round_half_even_exact by (try lia; rewrite Hmul; apply Z.mod_mul; lia).
  rewrite Hmul at 1. rewrite Z.div_mul by lia.
  unfold Qeq; cbn [Qnum Qden]. rewrite Z2Pos.id by assumption.
  lia.
Qed.

(** The two steps on a quotient of an amount below [10 ^ 24] cents by a
    count. *)
Lemma div_then_quantize_half_up (v n : Z) :
  0 < v < 10 ^ 24 -> 1 <= n <= 48 ->
  div_then_quantize v n = div_quantize_half_up v n.
Proof.
  intros Hv Hn. rewrite div_quantize_half_up_pos by lia.
  unfold div_then_quantize.
  destruct n as [|p|p]; try lia.
  change (Qmake v 100 / inject_Z (Z.pos p))%Q with (Qmake (v * 1) (100 * p)).
  rewrite Z.mul_1_r.
  set (x := Qmake v (100 * p)).
  pose proof (Z.div_mod (2 * v + Z.pos p) (2 * Z.pos p) ltac:(lia)) as Hdm.
  pose proof (Z.mod_pos_bound (2 * v + Z.pos p) (2 * Z.pos p) ltac:(lia)) as Hr.
  set (K := (2 * v + Z.pos p) / (2 * Z.pos p)) in *.
  set (r := (2 * v + Z.pos p) mod (2 * Z.pos p)) in *.
  assert (Hx0 : (0 < x)%Q) by (unfold x, Qlt; cbn; lia).
  assert (HxV : (x * 100 * inject_Z (Z.pos p) == inject_Z v)%Q).
  { unfold x, Qeq, Qmult, inject_Z; cbn [Qnum Qden].
    rewrite !Pos2Z.inj_mul. lia. }
  assert (Hbounds : (inject_Z K <= dec28 x * 100 + (1 # 2) < inject_Z K + 1)%Q).
  { destruct (Z.eq_dec r 0) as [Hr0|Hr0].
    - assert (Hd : (dec28 x == x)%Q)
        by (apply (dec28_keeps_tie v p K); lia).
      rewrite Hd.
      assert (HKQ : (x * 100 + (1 # 2) == inject_Z K)%Q).
      { unfold x, Qeq, Qmult, Qplus, inject_Z; cbn [Qnum Qden].
        rewrite !Pos2Z.inj_mul. nia. }
      rewrite HKQ. split; lra.
    - pose proof (dec28_error x) as Herr.
      apply rel_error_bounds in Herr; [|reflexivity].
      rewrite (Qabs_pos x) in Herr by lra.
      change (inject_Z (2 * 10 ^ 27))
        with (2000000000000000000000000000 # 1)%Q in Herr.
      assert (H1 : (2 * inject_Z v + inject_Z (Z.pos p)
                    == 2 * inject_Z (Z.pos p) * inject_Z K + inject_Z r)%Q)
        by (unfold Qeq, Qmult, Qplus, inject_Z; cbn [Qnum Qden]; lia).
      assert (H2 : (1 <= inject_Z r)%Q)
        by (unfold Qle, inject_Z; cbn [Qnum Qden]; lia).
      assert (H3 : (inject_Z r <= 2 * inject_Z (Z.pos p) - 1)%Q)
        by (unfold Qle, Qminus, Qplus, Qopp, Qmult, inject_Z;
            cbn [Qnum Qden]; lia).
      assert (H4 : (1 <= inject_Z (Z.pos p))%Q)
        by (unfold Qle, inject_Z; cbn [Qnum Qden]; lia).
      assert (H5 : (inject_Z (Z.pos p) <= 48)%Q)
        by (unfold Qle, inject_Z; cbn [Qnum Qden]; lia).
      assert (H6 : (0 < inject_Z v)%Q)
        by (unfold Qlt, inject_Z; cbn [Qnum Qden]; lia).
      assert (H7 : (inject_Z v < 1000000000000000000000000 # 1)%Q).
      { destruct Hv as [_ Hv]. change (10 ^ 24) with 1000000000000000000000000 in Hv.
        unfold Qlt, inject_Z; cbn [Qnum Qden]. lia. }
      exact (quantize_off_tie (dec28 x) x (inject_Z (Z.pos p)) (inject_Z v)
               (inject_Z K) (inject_Z r) Herr HxV H1 H2 H3 H4 H5 H6 H7). }
  destruct Hbounds as [Hlo Hhi].
  unfold quantize_half_up.
  assert (Hpos : Qle_bool 0 (dec28 x) = true).
  { apply Qle_bool_iff.
    pose proof (dec28_error x) as Herr.
    apply rel_error_bounds in Herr; [|reflexivity].
    rewrite (Qabs_pos x) in Herr by lra.
    change (inject_Z (2 * 10 ^ 27))
      with (2000000000000000000000000000 # 1)%Q in Herr.
    lra. }
  rewrite Hpos. apply Qfloor_unique; [exact Hlo|].
  rewrite inject_Z_plus. exact Hhi.
Qed.

(** Within the range of the amounts the two steps of the source and the
    rounding of the exact quotient agree. *)
Theorem div_then_quantize_exact (v n : Z) :
  0 < v < 10 ^ 24 -> 1 <= n <= 48 ->
  div_then_quantize v n = div_quantize_half_up v n.
Proof. apply div_then_quantize_half_up. Qed.

Lemma div_then_quantize_exact_witness :
  div_then_quantize 100000 3 = div_quantize_half_up 100000 3.
Proof.
  apply div_then_quantize_exact; [|lia].
  split; [lia|]. reflexivity.
Defined.

(** *** The operations of the context on amounts *)

Lemma round_small (c : Z) :
  Z.abs c < 10 ^ 28 -> DecimalContext.round c = c.
Proof.
  intros Hc. unfold DecimalContext.round, DecimalContext.prec.
  destruct (Z.ltb_spec (Z.abs c) (10 ^ 28)); [reflexivity|lia].
Qed.

(** The quotient of an amount below [10 ^ 24] cents by a count is far
    from [Emax]. *)
Lemma div_returns (v n : Z) :
  0 < v < 10 ^ 24 -> 1 <= n <= 48 ->
  DecimalContext.div v n = Return (dec28 (Qmake v 100 / inject_Z n)).
Proof.
  intros Hv Hn. unfold DecimalContext.div. cbv zeta.
  set (x := (Qmake v 100 / inject_Z n)%Q).
  assert (Hx : (0 < x)%Q /\ (x < 10000000000000000000000 # 1)%Q).
  { unfold x. destruct n as [|p|p]; try lia.
    change (Qmake v 100 / inject_Z (Z.pos p))%Q with (Qmake (v * 1) (100 * p)).
    change (10 ^ 24) with 1000000000000000000000000 in Hv.
    unfold Qlt; cbn [Qnum Qden]. rewrite Pos2Z.inj_mul. split; nia. }
  destruct Hx as [Hx0 Hx1].
  pose proof (dec28_error x) as Herr.
  apply rel_error_bounds in Herr; [|reflexivity].
  rewrite (Qabs_pos x) in Herr by lra.
  change (inject_Z (2 * 10 ^ 27))
    with (2000000000000000000000000000 # 1)%Q in Herr.
  assert (Hq : (0 < dec28 x)%Q /\ (dec28 x < 100000000000000000000000 # 1)%Q)
    by (split; lra).
  clear Herr. destruct Hq as [Hq0 Hq1].
  unfold DecimalContext.adjusted, DecimalContext.Emax.
  destruct (dec28 x) as [qn qd]. cbn [Qnum Qden].
  unfold Qlt in Hq0, Hq1; cbn [Qnum Qden] in Hq0, Hq1.
  rewrite (Z.abs_eq qn) by lia.
  destruct (exponent_lower 10 qn (Z.pos qd) ltac:(lia) ltac:(lia) ltac:(lia))
    as [Hlo _].
  destruct (Z.ltb_spec 999999 (exponent 10 qn (Z.pos qd))) as [Hbig|];
    [exfalso|reflexivity].
  specialize (Hlo ltac:(lia)).
  assert (10 ^ 23 <= 10 ^ exponent 10 qn (Z.pos qd))
    by (apply Z.pow_le_mono_r; lia).
  change (10 ^ 23) with 100000000000000000000000 in *. nia.
Qed.

(** The base amount of the source is the base amount of the
    specification for a total below [10 ^ 24] cents. *)
Lemma base_amount (v n : Z) :
  0 < v < 10 ^ 24 -> 1 <= n <= 48 ->
  (q <- DecimalContext.div v n ;; DecimalContext.quantize q)
  = Return (div_quantize_half_up v n).
Proof.
  intros Hv Hn. rewrite div_returns by assumption. cbn [bind].
  unfold DecimalContext.quantize, DecimalContext.prec. cbv zeta.
  change (quantize_half_up (dec28 (Qmake v 100 / inject_Z n)))
    with (div_then_quantize v n).
  rewrite div_then_quantize_half_up by assumption.
  pose proof (div_quantize_half_up_spec v n ltac:(lia) ltac:(lia)) as Hb.
  unfold is_round_half_up in Hb.
  change (10 ^ 24) with 1000000000000000000000000 in Hv.
  change (10 ^ 28) with 10000000000000000000000000000.
  destruct (Z.ltb_spec (Z.abs (div_quantize_half_up v n))
              10000000000000000000000000000); [reflexivity|nia].
Qed.

End RoundingFacts.

(** ** The installment scheduler *)

Module SchedulerFacts.
Import Calendar Datetime Dateutil Utils.
Import CalendarFacts DateutilFacts RoundingFacts.

Lemma soma_parcelas_app (l1 l2 : list parcela) :
  soma_parcelas (l1 ++ l2) = soma_parcelas l1 + soma_parcelas l2.
Proof.
  unfold soma_parcelas. induction l1 as [|p l1 IH]; simpl; [reflexivity|].
  rewrite IH. lia.
Qed.

(** *** The loop *)

Section Plan.
Variables (d : date) (n : Z) (b dif : Decimal).
Hypothesis Hd : is_date d.

Lemma parcela_i_due (i : Z) :
  0 <= i -> month_index d + i < 12 * 10000 ->
  parcela_i d n b dif i = Return (due_parcela d n b dif i).
Proof.
  intros Hi Hlast. unfold parcela_i.
  now rewrite radd_months by assumption.
Qed.

Lemma parcela_i_year_10000 (i : Z) :
  0 <= i -> month_index d + i = 12 * 10000 ->
  parcela_i d n b dif i
  = Throw (Builtin (ValueError "year 10000 is out of range")).
Proof.
  intros Hi Hlast. unfold parcela_i.
  now rewrite radd_months_year_10000 by assumption.
Qed.

(** The loop over [k] indices returns the installments when the last due
    date is not after December 9999; otherwise it stops at the first due
    date of the year 10000. *)
Lemma loop_cases (k : Z) :
  0 <= k ->
  fold_left
    (fun parcelas i =>
       parcelas <- parcelas ;;
       parcela <- parcela_i d n b dif i ;;
       Return (parcelas ++ [parcela]))
    (range k) (Return [])
  = if month_index d + k <=? 12 * 10000
    then Return (map (due_parcela d n b dif) (range k))
    else Throw (Builtin (ValueError "year 10000 is out of range")).
Proof.
  pose proof (is_date_month_index d Hd) as Hidx.
  intros Hk. pattern k. apply natlike_ind; [| |assumption].
  - rewrite Z.add_0_r.
    destruct (Z.leb_spec (month_index d) (12 * 10000)); [reflexivity|lia].
  - intros x Hx IH. unfold Z.succ.
    rewrite range_succ, fold_left_app, IH by assumption. cbn [fold_left].
    destruct (Z.leb_spec (month_index d + x) (12 * 10000)) as [Hle|Hgt].
    + cbn [bind].
      destruct (Z.leb_spec (month_index d + (x + 1)) (12 * 10000)).
      * rewrite parcela_i_due by lia. cbn [bind].
        now rewrite map_app.
      * rewrite parcela_i_year_10000 by lia. reflexivity.
    + cbn [bind].
      destruct (Z.leb_spec (month_index d + (x + 1)) (12 * 10000));
        [lia|reflexivity].
Qed.
End Plan.

(** On a count from 1 to 48 and a positive total the scheduler divides,
    quantizes and runs the loop. *)
Lemma calcular_datas_parcelas_cases (d : date) (n : Z) (v : Decimal) :
  is_date d -> 1 <= n <= 48 -> 0 < v ->
  calcular_datas_parcelas d n v
  = (quotient <- DecimalContext.div v n ;;
     base <- DecimalContext.quantize quotient ;;
     if month_index d + n <=? 12 * 10000
     then Return (map (due_parcela d n base
                         (DecimalContext.sub v (DecimalContext.mul base n)))
                      (range n))
     else Throw (Builtin (ValueError "year 10000 is out of range"))).
Proof.
  intros Hd Hn Hv. unfold calcular_datas_parcelas.
  destruct (Z.ltb_spec n 1); [lia|].
  destruct (Z.gtb_spec n 48); [lia|].
  destruct (Z.leb_spec v 0); [lia|].
  destruct (DecimalContext.div v n) as [q|e]; cbn [bind]; [|reflexivity].
  destruct (DecimalContext.quantize q) as [base|e]; cbn [bind]; [|reflexivity].
  cbv zeta. apply loop_cases; [assumption|lia].
Qed.

(** The decimal steps raise nothing but the two exceptions of the
    context, and nothing at all below [10 ^ 24] cents. *)
Lemma base_amount_cases (v n : Z) :
  1 <= n <= 48 -> 0 < v ->
  match (q <- DecimalContext.div v n ;; DecimalContext.quantize q) with
  | Return _ => True
  | Throw e => 10 ^ 24 <= v /\ (e = Overflow \/ e = InvalidOperation)
  end.
Proof.
  intros Hn Hv.
  destruct (Z.lt_ge_cases v (10 ^ 24)) as [Hsmall|Hbig].
  - now rewrite base_amount by lia.
  - unfold DecimalContext.div, DecimalContext.quantize. cbv zeta.
    destruct (_ <? _); cbn [bind]; [auto|].
    destruct (_ <? _); auto.
Qed.

(** *** The plan of the specification *)

(** Below [10 ^ 24] cents the products, differences and sums of the
    scheduler are exact, and the amounts are those of the plan of the
    specification. *)
Lemma due_parcela_plan (d : date) (n : Z) (v : Decimal) (i : Z) :
  0 < v < 10 ^ 24 -> 1 <= n <= 48 ->
  due_parcela d n (div_quantize_half_up v n)
    (DecimalContext.sub v
       (DecimalContext.mul (div_quantize_half_up v n) n)) i
  = plan_parcela d n v i.
Proof.
  intros Hv Hn.
  pose proof (div_quantize_half_up_spec v n ltac:(lia) ltac:(lia)) as Hb.
  unfold is_round_half_up in Hb.
  set (b := div_quantize_half_up v n) in *.
  change (10 ^ 24) with 1000000000000000000000000 in Hv.
  unfold DecimalContext.mul, DecimalContext.sub.
  rewrite (round_small (b * n))
    by (change (10 ^ 28) with 10000000000000000000000000000; nia).
  rewrite (round_small (v - b * n))
    by (change (10 ^ 28) with 10000000000000000000000000000; nia).
  unfold due_parcela, plan_parcela, plan_amount. fold b. f_equal.
  destruct (Z.eqb_spec i (n - 1)) as [_|_]; [|reflexivity].
  destruct (Z.eqb_spec (v - b * n) 0) as [H0|Hne]; cbn [negb andb]; [nia|].
  unfold DecimalContext.add.
  rewrite round_small
    by (change (10 ^ 28) with 10000000000000000000000000000; nia).
  lia.
Qed.

(** Within the bounds the scheduler returns the plan of the
    specification. *)
Lemma calcular_datas_parcelas_plan (d : date) (n : Z) (v : Decimal) :
  is_date d -> 1 <= n <= 48 -> 0 < v < 10 ^ 24 ->
  month_index d + n <= 12 * 10000 ->
  calcular_datas_parcelas d n v = Return (map (plan_parcela d n v) (range n)).
Proof.
  intros Hd Hn Hv Hlast.
  rewrite calcular_datas_parcelas_cases by (try assumption; lia).
  pose proof (base_amount v n Hv Hn) as Hbase.
  destruct (DecimalContext.div v n) as [q|e]; cbn [bind] in *;
    [|discriminate].
  rewrite Hbase. cbn [bind].
  destruct (Z.leb_spec (month_index d + n) (12 * 10000)); [|lia].
  f_equal. apply map_ext. intros i. now apply due_parcela_plan.
Qed.

(** What the scheduler does on input that passes its three checks. *)
Lemma calcular_datas_parcelas_outcome (d : date) (n : Z) (v : Decimal) :
  is_date d -> 1 <= n <= 48 -> 0 < v ->
  match calcular_datas_parcelas d n v with
  | Return parcelas =>
      month_index d + n <= 12 * 10000
      /\ List.length parcelas = Z.to_nat n
      /\ Forall (fun p => is_date (data_vencimento p)
                          /\ status_pagamento p = PENDENTE) parcelas
      /\ (v < 10 ^ 24 -> parcelas = map (plan_parcela d n v) (range n))
  | Throw e =>
      (10 ^ 24 <= v /\ (e = Overflow \/ e = InvalidOperation))
      \/ (12 * 10000 < month_index d + n
          /\ e = Builtin (ValueError "year 10000 is out of range"))
  end.
Proof.
  intros Hd Hn Hv.
  destruct (calcular_datas_parcelas d n v) as [parcelas|e] eqn:Hcall.
  - pose proof Hcall as Hcases.
    rewrite calcular_datas_parcelas_cases in Hcases by assumption.
    destruct (DecimalContext.div v n) as [q|e]; cbn [bind] in Hcases;
      [|discriminate].
    destruct (DecimalContext.quantize q) as [base|e]; cbn [bind] in Hcases;
      [|discriminate].
    destruct (Z.leb_spec (month_index d + n) (12 * 10000)) as [Hlast|];
      [|discriminate].
    injection Hcases as <-.
    split; [exact Hlast|].
    split; [now rewrite length_map, range_length|].
    split.
    + apply Forall_forall. intros p Hp.
      apply in_map_iff in Hp. destruct Hp as [i [<- Hi]].
      apply in_map_iff in Hi. destruct Hi as [j [<- Hj]]. apply in_seq in Hj.
      split; [|reflexivity].
      apply add_months_spec_is_date; [assumption|lia|lia].
    + intros Hsmall.
      rewrite calcular_datas_parcelas_plan in Hcall by (try assumption; lia).
      now injection Hcall as <-.
  - rewrite calcular_datas_parcelas_cases in Hcall by assumption.
    pose proof (base_amount_cases v n Hn Hv) as Hbase.
    destruct (DecimalContext.div v n) as [q|e']; cbn [bind] in *.
    + destruct (DecimalContext.quantize q) as [base|e'']; cbn [bind] in *.
      * destruct (Z.leb_spec (month_index d + n) (12 * 10000));
          [discriminate|].
        injection Hcall as <-. right. split; [lia|reflexivity].
      * injection Hcall as <-. now left.
    + injection Hcall as <-. now left.
Qed.

Lemma plan_parcela_nth (d : date) (n : Z) (v : Decimal) (i : Z) :
  0 <= i < n ->
  nth_error (map (plan_parcela d n v) (range n)) (Z.to_nat i)
  = Some (plan_parcela d n v i).
Proof.
  intros Hi. now rewrite nth_error_map, range_nth.
Qed.

Lemma plan_amount_before_last (v n i : Z) :
  i <> n - 1 -> plan_amount v n i = div_quantize_half_up v n.
Proof.
  intros Hi. unfold plan_amount.
  destruct (Z.eqb_spec i (n - 1)); [contradiction|reflexivity].
Qed.

Lemma plan_amount_last (v n : Z) :
  plan_amount v n (n - 1)
  = div_quantize_half_up v n + (v - div_quantize_half_up v n * n).
Proof. unfold plan_amount. rewrite Z.eqb_refl. lia. Qed.

(** The first [k] installments of a plan of more than [k] carry the base
    amount each. *)
Lemma soma_parcelas_prefix (d : date) (n : Z) (v : Decimal) (k : Z) :
  0 <= k <= n - 1 ->
  soma_parcelas (map (plan_parcela d n v) (range k))
  = k * div_quantize_half_up v n.
Proof.
  intros [Hk Hkn]. revert Hkn. pattern k.
  apply natlike_ind; [| |assumption].
  - reflexivity.
  - intros x Hx IH Hxn. unfold Z.succ.
    rewrite range_succ, map_app, soma_parcelas_app, IH by lia.
    unfold soma_parcelas at 1; cbn [map fold_right plan_parcela valor_parcela].
    rewrite plan_amount_before_last by lia. lia.
Qed.

Lemma soma_parcelas_plan (d : date) (n : Z) (v : Decimal) :
  1 <= n ->
  soma_parcelas (map (plan_parcela d n v) (range n)) = v.
Proof.
  intros Hn.
  replace n with (n - 1 + 1) at 2 by lia.
  rewrite range_succ, map_app, soma_parcelas_app by lia.
  rewrite soma_parcelas_prefix by lia.
  unfold soma_parcelas at 1; cbn [map fold_right plan_parcela valor_parcela].
  rewrite plan_amount_last. lia.
Qed.

Lemma sample_dates :
  is_date (mkdate 2024 1 15) /\ is_date (mkdate 2024 1 31)
  /\ is_date (mkdate 2023 1 31) /\ is_date (mkdate 2024 2 29)
  /\ is_date (mkdate 2023 11 30) /\ is_date (mkdate 2024 5 31)
  /\ is_date (mkdate 2024 1 10) /\ is_date (mkdate 9999 12 15)
  /\ is_date (mkdate 9999 11 30).
Proof.
  unfold is_date, valid_date; vm_compute; intuition discriminate.
Qed.

(** *** The claims *)

(** The claim C1 as it is written fails for a total of 29 digits: of
    299999999999999999999999999.97 in 3 installments the scheduler returns
    99999999999999999999999999.99 twice and then
    99999999999999999999999999.96, three cents short of the total,
    because the product of the base amount by the count is rounded to 28
    digits. *)
Lemma C1_sum_three_cents_short :
  exists parcelas,
    calcular_datas_parcelas (mkdate 2024 1 15) 3 29999999999999999999999999997
    = Return parcelas
    /\ map valor_parcela parcelas
       = [9999999999999999999999999999; 9999999999999999999999999999;
          9999999999999999999999999996]
    /\ soma_parcelas parcelas = 29999999999999999999999999997 - 3.
Proof. eexists. split; [vm_compute; reflexivity|]. split; reflexivity. Qed.

(** C1, amended. Sum invariant: for a count from 1 to 48, a positive
    total below [10 ^ 24] cents and a purchase date whose last due date is
    not after December 9999, the scheduler returns a list of installments
    whose amounts add up to the total exactly. *)
Theorem C1_sum_invariant (d : date) (n : Z) (v : Decimal) :
  is_date d -> 1 <= n <= 48 -> 0 < v < 10 ^ 24 ->
  month_index d + n <= 12 * 10000 ->
  exists parcelas,
    calcular_datas_parcelas d n v = Return parcelas
    /\ soma_parcelas parcelas = v.
Proof.
  intros Hd Hn Hv Hlast. eexists. split.
  - apply calcular_datas_parcelas_plan; assumption.
  - apply soma_parcelas_plan. lia.
Qed.

Lemma C1_sum_invariant_witness :
  exists parcelas,
    calcular_datas_parcelas (mkdate 2024 1 15) 3 100000 = Return parcelas
    /\ soma_parcelas parcelas = 100000.
Proof.
  apply C1_sum_invariant; [apply sample_dates|lia| |vm_compute; discriminate].
  split; [lia|reflexivity].
Defined.

(** The claim C2 as it is written fails on 9999-12-15: a count of 2 and a
    total of 100.00 pass the three checks, and the second due date, of
    January 10000, raises the [ValueError] of [date]. *)
Lemma C2_valid_input_raises :
  is_date (mkdate 9999 12 15)
  /\ calcular_datas_parcelas (mkdate 9999 12 15) 2 10000
     = Throw (Builtin (ValueError "year 10000 is out of range")).
Proof. split; [apply sample_dates|vm_compute; reflexivity]. Qed.

(** C2, amended. Rejection: the scheduler raises a [ValueError] of one
    of its three checks exactly when the count is below 1 or above 48 or
    the total is not positive; the checks stand before the loop, and no
    installment comes with a failure.  On input that passes them it
    raises in two more cases only: an exception of the [decimal] context,
    which takes a total of at least [10 ^ 24] cents, and otherwise the
    [ValueError] of [date] when the last due date would be after December
    9999.  On every other input it returns the complete list of [count]
    installments. *)
Theorem C2_rejection (d : date) (n : Z) (v : Decimal) :
  is_date d ->
  match calcular_datas_parcelas d n v with
  | Throw e =>
      (n < 1
       /\ e = Builtin (ValueError "Número de parcelas deve ser pelo menos 1"))
      \/ (1 <= n /\ 48 < n
          /\ e = Builtin (ValueError "Número máximo de parcelas é 48"))
      \/ (1 <= n <= 48 /\ v <= 0
          /\ e = Builtin (ValueError "Valor total deve ser positivo"))
      \/ (1 <= n <= 48 /\ 10 ^ 24 <= v
          /\ (e = Overflow \/ e = InvalidOperation))
      \/ (1 <= n <= 48 /\ 0 < v /\ 12 * 10000 < month_index d + n
          /\ e = Builtin (ValueError "year 10000 is out of range"))
  | Return parcelas =>
      1 <= n <= 48 /\ 0 < v /\ month_index d + n <= 12 * 10000
      /\ List.length parcelas = Z.to_nat n
  end.
Proof.
  intros Hd.
  destruct (Z.lt_ge_cases n 1) as [Hn1|Hn1].
  { unfold calcular_datas_parcelas.
    destruct (Z.ltb_spec n 1); [|lia]. left. now split. }
  destruct (Z.lt_ge_cases 48 n) as [Hn48|Hn48].
  { unfold calcular_datas_parcelas.
    destruct (Z.ltb_spec n 1); [lia|].
    destruct (Z.gtb_spec n 48); [|lia]. right; left. repeat split; lia. }
  destruct (Z.le_gt_cases v 0) as [Hv|Hv].
  { unfold calcular_datas_parcelas.
    destruct (Z.ltb_spec n 1); [lia|].
    destruct (Z.gtb_spec n 48); [lia|].
    destruct (Z.leb_spec v 0); [|lia].
    right; right; left. repeat split; lia. }
  rewrite calcular_datas_parcelas_cases by (try assumption; lia).
  pose proof (base_amount_cases v n ltac:(lia) ltac:(lia)) as Hbase.
  destruct (q <- DecimalContext.div v n ;; DecimalContext.quantize q)
    as [base|e] eqn:Hsteps.
  - destruct (DecimalContext.div v n) as [q|e]; cbn [bind] in *;
      [|discriminate].
    rewrite Hsteps. cbn [bind].
    destruct (Z.leb_spec (month_index d + n) (12 * 10000)).
    + rewrite length_map, range_length. repeat split; lia.
    + do 4 right. repeat split; lia.
  - destruct (DecimalContext.div v n) as [q|e']; cbn [bind] in *.
    + rewrite Hsteps. cbn [bind].
      do 3 right; left. split; [lia|exact Hbase].
    + injection Hsteps as ->.
      do 3 right; left. split; [lia|exact Hbase].
Qed.

Lemma C2_rejection_witness :
  is_date (mkdate 2024 1 15)
  /\ match calcular_datas_parcelas (mkdate 2024 1 15) 49 10000 with
     | Throw e =>
         (49 < 1
          /\ e = Builtin
                   (ValueError "Número de parcelas deve ser pelo menos 1"))
         \/ (1 <= 49 /\ 48 < 49
             /\ e = Builtin (ValueError "Número máximo de parcelas é 48"))
         \/ (1 <= 49 <= 48 /\ 10000 <= 0
             /\ e = Builtin (ValueError "Valor total deve ser positivo"))
         \/ (1 <= 49 <= 48 /\ 10 ^ 24 <= 10000
             /\ (e = Overflow \/ e = InvalidOperation))
         \/ (1 <= 49 <= 48 /\ 0 < 10000
             /\ 12 * 10000 < month_index (mkdate 2024 1 15) + 49
             /\ e = Builtin (ValueError "year 10000 is out of range"))
     | Return parcelas =>
         1 <= 49 <= 48 /\ 0 < 10000
         /\ month_index (mkdate 2024 1 15) + 49 <= 12 * 10000
         /\ List.length parcelas = Z.to_nat 49
     end.
Proof.
  split; [apply sample_dates|].
  apply (C2_rejection (mkdate 2024 1 15) 49 10000). apply sample_dates.
Defined.

(** The claim C3 as it is written fails for a total of 28 digits: half of
    20000000000000000000000000.01 is 10000000000000000000000000.005, which
    the context rounds to 28 digits, to 10000000000000000000000000.00,
    before [quantize] sees it; the base amount is not the half-up rounding
    10000000000000000000000000.01 of the quotient. *)
Lemma C3_base_not_half_up :
  exists p parcelas,
    calcular_datas_parcelas (mkdate 2024 1 15) 2 2000000000000000000000000001
    = Return (p :: parcelas)
    /\ valor_parcela p = 1000000000000000000000000000
    /\ is_round_half_up 2000000000000000000000000001 2
         1000000000000000000000000001
    /\ ~ is_round_half_up 2000000000000000000000000001 2 (valor_parcela p).
Proof.
  do 2 eexists. split; [vm_compute; reflexivity|].
  split; [reflexivity|].
  unfold is_round_half_up; cbn [valor_parcela]. split; lia.
Qed.

(** C3, amended. Remainder placement: for a count from 1 to 48, a
    positive total below [10 ^ 24] cents and a purchase date whose last due
    date is not after December 9999, every installment but the last
    carries the base amount, the total divided by the count and rounded
    half-up to the cent, and the last carries the base amount plus the
    remainder [total - base * count]; a purchase of 1000.00 on 2024-01-15
    in 3 installments gives 333.33, 333.33 and 333.34. *)
Theorem C3_remainder_placement :
  (forall (d : date) (n : Z) (v : Decimal),
     is_date d -> 1 <= n <= 48 -> 0 < v < 10 ^ 24 ->
     month_index d + n <= 12 * 10000 ->
     exists base parcelas,
       calcular_datas_parcelas d n v = Return parcelas
       /\ List.length parcelas = Z.to_nat n
       /\ is_round_half_up v n base
       /\ (forall i, 0 <= i < n - 1 ->
             exists p, nth_error parcelas (Z.to_nat i) = Some p
                       /\ valor_parcela p = base)
       /\ (exists p, nth_error parcelas (Z.to_nat (n - 1)) = Some p
                     /\ valor_parcela p = base + (v - base * n)))
  /\ (exists parcelas,
        calcular_datas_parcelas (mkdate 2024 1 15) 3 100000 = Return parcelas
        /\ map valor_parcela parcelas = [33333; 33333; 33334]).
Proof.
  split.
  - intros d n v Hd Hn Hv Hlast.
    exists (div_quantize_half_up v n). eexists.
    split; [apply calcular_datas_parcelas_plan; assumption|].
    split; [now rewrite length_map, range_length|].
    split; [apply div_quantize_half_up_spec; lia|].
    split.
    + intros i Hi. eexists. split; [apply plan_parcela_nth; lia|].
      apply plan_amount_before_last. lia.
    + eexists. split; [apply plan_parcela_nth; lia|].
      apply plan_amount_last.
  - eexists. split; [vm_compute; reflexivity|reflexivity].
Qed.

Lemma C3_remainder_placement_witness :
  exists base parcelas,
    calcular_datas_parcelas (mkdate 2024 2 29) 7 100 = Return parcelas
    /\ List.length parcelas = Z.to_nat 7
    /\ is_round_half_up 100 7 base
    /\ (forall i, 0 <= i < 7 - 1 ->
          exists p, nth_error parcelas (Z.to_nat i) = Some p
                    /\ valor_parcela p = base)
    /\ (exists p, nth_error parcelas (Z.to_nat (7 - 1)) = Some p
                  /\ valor_parcela p = base + (100 - base * 7)).
Proof.
  apply (proj1 C3_remainder_placement);
    [apply sample_dates|lia| |vm_compute; discriminate].
  split; [lia|reflexivity].
Defined.

(** The claim C4 as it is written fails on 9999-11-30: of a plan of 3
    installments the third would be due in January 10000, which is no
    date; the scheduler raises and there is no installment of index 2, nor
    any other. *)
Lemma C4_no_due_date_after_9999 :
  is_date (mkdate 9999 11 30)
  /\ year (add_months_spec (mkdate 9999 11 30) 2) = 10000
  /\ forall parcelas,
       calcular_datas_parcelas (mkdate 9999 11 30) 3 30000 <> Return parcelas.
Proof.
  split; [apply sample_dates|]. split; [reflexivity|].
  intros parcelas H. vm_compute in H. discriminate H.
Qed.

(** C4, amended. Due dates and numbering: for a count from 1 to 48 and
    a positive total, whenever the scheduler returns, the last due date is
    not after December 9999 and the installment of index [i] (from 0 to
    count - 1) is due [i] calendar months after the purchase date, on the
    same day of the month when the month reached has that day and on its
    last day otherwise; its number is [i + 1], its count field is the
    count and its status is pending.  The scheduler returns whenever the
    total is below [10 ^ 24] cents and the last due date is not after
    December 9999.  A purchase on January 31 in 3 installments is due on
    January 31, on February 29 or 28, and on March 31. *)
Theorem C4_due_dates_and_numbering :
  (forall (d : date) (n : Z) (v : Decimal),
     is_date d -> 1 <= n <= 48 -> 0 < v ->
     (forall parcelas,
        calcular_datas_parcelas d n v = Return parcelas ->
        List.length parcelas = Z.to_nat n
        /\ month_index d + n <= 12 * 10000
        /\ forall i, 0 <= i < n ->
             exists p,
               nth_error parcelas (Z.to_nat i) = Some p
               /\ data_vencimento p = add_months_spec d i
               /\ month_index (data_vencimento p) = month_index d + i
               /\ (day d <= monthrange (year (data_vencimento p))
                                       (month (data_vencimento p)) ->
                   day (data_vencimento p) = day d)
               /\ (monthrange (year (data_vencimento p))
                              (month (data_vencimento p)) < day d ->
                   day (data_vencimento p)
                   = monthrange (year (data_vencimento p))
                                (month (data_vencimento p)))
               /\ is_date (data_vencimento p)
               /\ numero_parcela p = i + 1
               /\ total_parcelas p = n
               /\ status_pagamento p = PENDENTE)
     /\ (v < 10 ^ 24 -> month_index d + n <= 12 * 10000 ->
         exists parcelas, calcular_datas_parcelas d n v = Return parcelas))
  /\ (exists parcelas,
        calcular_datas_parcelas (mkdate 2024 1 31) 3 100000 = Return parcelas
        /\ map data_vencimento parcelas
           = [mkdate 2024 1 31; mkdate 2024 2 29; mkdate 2024 3 31])
  /\ (exists parcelas,
        calcular_datas_parcelas (mkdate 2023 1 31) 3 100000 = Return parcelas
        /\ map data_vencimento parcelas
           = [mkdate 2023 1 31; mkdate 2023 2 28; mkdate 2023 3 31]).
Proof.
  split; [|split; eexists; (split; [vm_compute; reflexivity|reflexivity])].
  intros d n v Hd Hn Hv. split.
  - intros parcelas.
    rewrite calcular_datas_parcelas_cases by assumption.
    destruct (DecimalContext.div v n) as [q|e]; cbn [bind]; [|discriminate].
    destruct (DecimalContext.quantize q) as [base|e]; cbn [bind];
      [|discriminate].
    destruct (Z.leb_spec (month_index d + n) (12 * 10000)) as [Hlast|];
      [|discriminate].
    intros H. injection H as <-.
    split; [now rewrite length_map, range_length|].
    split; [exact Hlast|].
    intros i Hi. eexists.
    split; [rewrite nth_error_map, range_nth by lia; reflexivity|].
    unfold due_parcela; cbn [data_vencimento numero_parcela total_parcelas
                             status_pagamento].
    destruct (add_months_spec_day d i) as [Hkeep Hclamp].
    split; [reflexivity|].
    split; [apply add_months_spec_month_index|].
    split; [exact Hkeep|].
    split; [exact Hclamp|].
    split; [apply add_months_spec_is_date; [assumption|lia|lia]|].
    repeat split; reflexivity.
  - intros Hsmall Hlast. eexists.
    apply calcular_datas_parcelas_plan; try assumption. lia.
Qed.

Lemma C4_due_dates_and_numbering_witness :
  (forall parcelas,
     calcular_datas_parcelas (mkdate 2023 11 30) 16 24 = Return parcelas ->
     List.length parcelas = Z.to_nat 16
     /\ month_index (mkdate 2023 11 30) + 16 <= 12 * 10000
     /\ forall i, 0 <= i < 16 ->
          exists p,
            nth_error parcelas (Z.to_nat i) = Some p
            /\ data_vencimento p = add_months_spec (mkdate 2023 11 30) i
            /\ month_index (data_vencimento p)
               = month_index (mkdate 2023 11 30) + i
            /\ (day (mkdate 2023 11 30)
                <= monthrange (year (data_vencimento p))
                              (month (data_vencimento p)) ->
                day (data_vencimento p) = day (mkdate 2023 11 30))
            /\ (monthrange (year (data_vencimento p))
                           (month (data_vencimento p))
                < day (mkdate 2023 11 30) ->
                day (data_vencimento p)
                = monthrange (year (data_vencimento p))
                             (month (data_vencimento p)))
            /\ is_date (data_vencimento p)
            /\ numero_parcela p = i + 1
            /\ total_parcelas p = 16
            /\ status_pagamento p = PENDENTE)
  /\ (24 < 10 ^ 24 -> month_index (mkdate 2023 11 30) + 16 <= 12 * 10000 ->
      exists parcelas,
        calcular_datas_parcelas (mkdate 2023 11 30) 16 24 = Return parcelas).
Proof.
  apply (proj1 C4_due_dates_and_numbering); [apply sample_dates|lia|lia].
Defined.

(** Degenerate plan: a single installment of less than [10 ^ 24] cents is
    the whole amount, due on the purchase date itself. *)
Theorem single_installment (d : date) (v : Decimal) :
  is_date d -> 0 < v < 10 ^ 24 ->
  calcular_datas_parcelas d 1 v = Return [mkparcela 1 1 v d PENDENTE].
Proof.
  intros Hd Hv.
  pose proof (is_date_month_index d Hd) as Hidx.
  rewrite calcular_datas_parcelas_plan by (try assumption; lia).
  change (range 1) with [0]. cbn [map].
  unfold plan_parcela, plan_amount.
  change (0 =? 1 - 1) with true. cbv iota.
  replace (v - div_quantize_half_up v 1 * (1 - 1)) with v by lia.
  assert (Hsame : add_months_spec d 0 = d).
  { destruct Hd as [[Hm Hday] _].
    unfold add_months_spec. rewrite Z.add_0_r. unfold month_index.
    replace (12 * year d + (month d - 1)) with (year d * 12 + (month d - 1))
      by lia.
    destruct (divmod_12 (year d) (month d - 1) ltac:(lia)) as [-> ->].
    replace (month d - 1 + 1) with (month d) by lia.
    destruct (Z.leb_spec (day d) (monthrange (year d) (month d))); [|lia].
    now destruct d. }
  rewrite Hsame. reflexivity.
Qed.

Lemma single_installment_witness :
  calcular_datas_parcelas (mkdate 2024 5 31) 1 15000
  = Return [mkparcela 1 1 15000 (mkdate 2024 5 31) PENDENTE].
Proof.
  apply single_installment; [apply sample_dates|].
  split; [lia|reflexivity].
Defined.

End SchedulerFacts.

(** ** Sums over lists *)

Section Sums.
Context {A : Type}.

Lemma sum_map (h : A -> Z) (l : list A) :
  fold_right Z.add 0 (map h l) = sumZ h l.
Proof. induction l as [|x l IH]; simpl; [reflexivity|]. now rewrite IH. Qed.

Lemma sumZ_app (h : A -> Z) (l1 l2 : list A) :
  sumZ h (l1 ++ l2) = sumZ h l1 + sumZ h l2.
Proof. induction l1 as [|x l1 IH]; simpl; [reflexivity|]. rewrite IH. lia. Qed.

Lemma sumZ_filter (p : A -> bool) (h : A -> Z) (l : list A) :
  sumZ h (filter p l) = sumZ (fun x => if p x then h x else 0) l.
Proof.
  induction l as [|x l IH]; simpl; [reflexivity|].
  destruct (p x); simpl; rewrite IH; reflexivity.
Qed.

Lemma sumZ_ext_in (h h' : A -> Z) (l : list A) :
  (forall x, In x l -> h x = h' x) -> sumZ h l = sumZ h' l.
Proof.
  induction l as [|x l IH]; intros Hext; simpl; [reflexivity|].
  rewrite (Hext x (or_introl eq_refl)), IH; [reflexivity|].
  intros y Hy. apply Hext. now right.
Qed.

Lemma sumZ_zero (l : list A) : sumZ (fun _ => 0) l = 0.
Proof. induction l as [|x l IH]; simpl; [reflexivity|]. now rewrite IH. Qed.

Lemma sumZ_plus (f g : A -> Z) (l : list A) :
  sumZ (fun x => f x + g x) l = sumZ f l + sumZ g l.
Proof. induction l as [|x l IH]; simpl; [reflexivity|]. rewrite IH. lia. Qed.

Lemma sumZ_perm (h : A -> Z) (l l' : list A) :
  Permutation l l' -> sumZ h l = sumZ h l'.
Proof. induction 1; simpl; lia. Qed.

Lemma fold_left_sum (h : A -> Z) (l : list A) (a : Z) :
  fold_left (fun acc x => acc + h x) l a = a + sumZ h l.
Proof.
  revert a; induction l as [|x l IH]; intros a; simpl; [lia|].
  rewrite IH. lia.
Qed.
End Sums.

Lemma sumZ_map {A B : Type} (g : A -> B) (h : B -> Z) (l : list A) :
  sumZ h (map g l) = sumZ (fun x => h (g x)) l.
Proof. induction l as [|x l IH]; simpl; [reflexivity|]. now rewrite IH. Qed.

Lemma sumZ_flat_map {A B : Type} (f : A -> list B) (h : B -> Z) (l : list A) :
  sumZ h (flat_map f l) = sumZ (fun x => sumZ h (f x)) l.
Proof.
  induction l as [|x l IH]; simpl; [reflexivity|].
  now rewrite sumZ_app, IH.
Qed.

(** Summing a table by rows or by columns. *)
Lemma sumZ_swap {A B : Type} (g : A -> B -> Z) (la : list A) (lb : list B) :
  sumZ (fun a => sumZ (g a) lb) la = sumZ (fun b => sumZ (fun a => g a b) la) lb.
Proof.
  induction la as [|a la IH]; simpl.
  - now rewrite sumZ_zero.
  - now rewrite IH, sumZ_plus.
Qed.

(** A key of a duplicate-free list is met once. *)
Lemma sumZ_single (k : string) (v : Z) (ks : list string) :
  NoDup ks -> In k ks ->
  sumZ (fun k' => if String.eqb k k' then v else 0) ks = v.
Proof.
  induction 1 as [|k0 ks Hnotin Hnd IH]; intros Hin; [contradiction|].
  simpl. destruct (String.eqb_spec k k0) as [->|Hne].
  - rewrite (sumZ_ext_in _ (fun _ => 0)), sumZ_zero; [lia|].
    intros k' Hk'. destruct (String.eqb_spec k0 k') as [->|]; [contradiction|reflexivity].
  - destruct Hin as [Heq|Hin]; [congruence|]. now rewrite IH.
Qed.

(** ** The period aggregator *)

Module DashboardFacts.
Import Calendar Models Dashboard.

Lemma coalesce_sql_sum (rows : list Decimal) :
  coalesce (sql_sum rows) 0 = fold_right Z.add 0 rows.
Proof. destruct rows; reflexivity. Qed.

Lemma query_total_debito_sum (db : Session) (uid mes ano : Z) :
  query_total_debito db uid mes ano
  = sumZ valor_total (transactions_of db uid SAIDA_DEBITO mes ano).
Proof. unfold query_total_debito. now rewrite coalesce_sql_sum, sum_map. Qed.

Lemma query_total_entradas_sum (db : Session) (uid mes ano : Z) :
  query_total_entradas db uid mes ano
  = sumZ valor_total (transactions_of db uid ENTRADA mes ano).
Proof. unfold query_total_entradas. now rewrite coalesce_sql_sum, sum_map. Qed.

(** The installment total of the summary, as a double sum over the two
    tables. *)
Lemma query_total_parcelas_sum (db : Session) (uid mes ano : Z) :
  query_total_parcelas db uid mes ano
  = sumZ (fun i => sumZ (due_amount uid mes ano i) (transactions db))
         (installments db).
Proof.
  unfold query_total_parcelas, installments_join_transactions.
  rewrite coalesce_sql_sum, sum_map, sumZ_filter, sumZ_flat_map.
  apply sumZ_ext_in; intros i _.
  rewrite sumZ_map, sumZ_filter.
  apply sumZ_ext_in; intros t _.
  unfold due_amount; cbn [fst snd].
  destruct (id t =? transacao_id i); reflexivity.
Qed.

(** *** The totals of the specification *)

Lemma query_total_debito_spec (db : Session) (uid mes ano : Z) :
  query_total_debito db uid mes ano = PeriodSpec.debitTotal db uid mes ano.
Proof.
  rewrite query_total_debito_sum.
  unfold transactions_of, PeriodSpec.debitTotal. f_equal.
Qed.

(** With unique keys at most one row has a given key. *)
Lemma sumZ_unique_key (ts : list Transaction) (k c : Z)
    (q : Transaction -> bool) :
  NoDup (map id ts) ->
  sumZ (fun t => if (id t =? k) && q t then c else 0) ts
  = if existsb (fun t => (id t =? k) && q t) ts then c else 0.
Proof.
  induction ts as [|t ts IH]; intros Hnd; [reflexivity|].
  inversion Hnd as [|x l Hnotin Hnd']; subst.
  cbn [sumZ fold_right existsb map] in *.
  change (fold_right (fun x acc => (if (id x =? k) && q x then c else 0) + acc)
            0 ts)
    with (sumZ (fun t => if (id t =? k) && q t then c else 0) ts).
  rewrite IH by assumption.
  destruct ((id t =? k) && q t) eqn:E; cbn [orb]; [|lia].
  replace (existsb (fun t0 => (id t0 =? k) && q t0) ts) with false; [lia|].
  symmetry. apply not_true_is_false. intros Hex.
  apply existsb_exists in Hex. destruct Hex as [t' [Hin Hp]].
  apply andb_true_iff in E, Hp. destruct E as [E _], Hp as [Hp _].
  apply Z.eqb_eq in E, Hp. apply Hnotin.
  rewrite E, <- Hp. now apply in_map.
Qed.

Lemma existsb_and_const {A : Type} (p q : A -> bool) (c : bool) (l : list A) :
  existsb (fun x => p x && (q x && c)) l
  = existsb (fun x => p x && q x) l && c.
Proof.
  induction l as [|x l IH]; cbn [existsb]; [reflexivity|].
  rewrite IH.
  destruct (p x), (q x), c, (existsb (fun x => p x && q x) l); reflexivity.
Qed.

(** With unique transaction keys the installment total of the summary
    is the installment total of the specification. *)
Lemma query_total_parcelas_spec (db : Session) (uid mes ano : Z) :
  transaction_keys_unique db ->
  query_total_parcelas db uid mes ano
  = PeriodSpec.installmentTotal db uid mes ano.
Proof.
  intros Hnd. rewrite query_total_parcelas_sum.
  unfold PeriodSpec.installmentTotal. rewrite sumZ_filter.
  apply sumZ_ext_in. intros i _. unfold due_amount.
  rewrite (sumZ_unique_key (transactions db) (transacao_id i)
             (valor_parcela i)
             (fun t => (user_id t =? uid)
                       && in_period (data_vencimento i) mes ano) Hnd).
  unfold PeriodSpec.parent_belongs_to.
  rewrite (existsb_and_const (fun t => id t =? transacao_id i)
             (fun t => user_id t =? uid)).
  reflexivity.
Qed.

Lemma total_expense_spec (db : Session) (uid mes ano : Z) :
  transaction_keys_unique db ->
  query_total_debito db uid mes ano + query_total_parcelas db uid mes ano
  = PeriodSpec.totalExpense db uid mes ano.
Proof.
  intros Hnd. unfold PeriodSpec.totalExpense.
  now rewrite query_total_debito_spec, query_total_parcelas_spec.
Qed.

(** Grouping rows and summing the groups loses and adds nothing. *)
Lemma group_by_sum_total (rows : list (string * Decimal)) :
  sumZ snd (group_by_sum rows) = sumZ snd rows.
Proof.
  unfold group_by_sum. rewrite sumZ_map; cbn [snd].
  rewrite (sumZ_ext_in _
             (fun k => sumZ (fun r => if String.eqb (fst r) k then snd r else 0)
                         rows)).
  2:{ intros k _. now rewrite sum_map, sumZ_filter. }
  rewrite sumZ_swap.
  apply sumZ_ext_in; intros r Hr.
  apply sumZ_single; [apply NoDup_nodup|].
  apply nodup_In, in_map, Hr.
Qed.

Lemma query_debit_by_category_total (db : Session) (uid mes ano : Z) :
  sumZ snd (query_debit_by_category db uid mes ano)
  = query_total_debito db uid mes ano.
Proof.
  unfold query_debit_by_category.
  rewrite group_by_sum_total, sumZ_map, query_total_debito_sum.
  reflexivity.
Qed.

Lemma query_credit_by_category_total (db : Session) (uid mes ano : Z) :
  sumZ snd (query_credit_by_category db uid mes ano)
  = query_total_parcelas db uid mes ano.
Proof.
  unfold query_credit_by_category, transactions_join_installments.
  rewrite group_by_sum_total, sumZ_map, sumZ_filter, sumZ_flat_map.
  rewrite query_total_parcelas_sum, sumZ_swap.
  apply sumZ_ext_in; intros t _.
  rewrite sumZ_map, sumZ_filter.
  apply sumZ_ext_in; intros i _.
  unfold due_amount; cbn [fst snd].
  destruct (id t =? transacao_id i); reflexivity.
Qed.

(** *** The dictionary of category totals *)

Lemma dict_set_total (d : dict) (k : string) (v : Decimal) :
  sumZ snd (dict_set d k (dict_get d k 0 + v)) = sumZ snd d + v.
Proof.
  induction d as [|[k' v'] d IH]; simpl; [lia|].
  destruct (String.eqb k' k); simpl; [lia|]. rewrite IH. lia.
Qed.

Lemma accumulate_total (rows : list (string * Decimal)) (d : dict) :
  sumZ snd (accumulate d rows) = sumZ snd d + sumZ snd rows.
Proof.
  unfold accumulate. revert d.
  induction rows as [|[cat total] rows IH]; intros d; simpl; [lia|].
  rewrite IH, dict_set_total. lia.
Qed.

Lemma sum_values_sumZ (d : dict) : sum_values d = sumZ snd d.
Proof. unfold sum_values. now rewrite fold_left_sum. Qed.

(** *** The sort *)

Lemma insert_desc_perm (x : string * Decimal) (l : list (string * Decimal)) :
  Permutation (insert_desc x l) (x :: l).
Proof.
  induction l as [|y l IH]; simpl; [reflexivity|].
  destruct (snd x <? snd y); [|reflexivity].
  rewrite IH. apply perm_swap.
Qed.

Lemma sorted_reverse_perm (l : list (string * Decimal)) :
  Permutation (sorted_reverse l) l.
Proof.
  induction l as [|x l IH]; simpl; [reflexivity|].
  rewrite insert_desc_perm. now apply perm_skip.
Qed.

(** The amounts listed by the breakdown are the sorted items of the
    dictionary. *)
Lemma categorias_items (mes ano : Z) (debit credit : list (string * Decimal)) :
  map (fun c => (Schemas.categoria c, Schemas.valor_total c))
      (Schemas.categorias (category_summary mes ano debit credit))
  = sorted_reverse (accumulate (accumulate [] debit) credit).
Proof.
  unfold category_summary; cbn [Schemas.categorias].
  rewrite map_map. rewrite <- (map_id (sorted_reverse _)) at 2.
  apply map_ext. intros [k v]. reflexivity.
Qed.

Lemma categorias_total (mes ano : Z) (debit credit : list (string * Decimal)) :
  sumZ Schemas.valor_total
       (Schemas.categorias (category_summary mes ano debit credit))
  = sumZ snd debit + sumZ snd credit.
Proof.
  transitivity
    (sumZ snd (map (fun c => (Schemas.categoria c, Schemas.valor_total c))
                 (Schemas.categorias (category_summary mes ano debit credit)))).
  - now rewrite sumZ_map.
  - rewrite categorias_items, (sumZ_perm _ _ _ (sorted_reverse_perm _)).
    rewrite !accumulate_total. simpl. lia.
Qed.

End DashboardFacts.

Module AggregatorFacts.
Import Calendar Models Dashboard DashboardFacts Samples.

Lemma period_accepted (mes ano : Z) :
  1 <= mes <= 12 -> 2000 <= ano ->
  negb ((1 <=? mes) && (mes <=? 12)) = false /\ negb (2000 <=? ano) = false.
Proof.
  intros Hm Ha.
  destruct (Z.leb_spec 1 mes); [|lia].
  destruct (Z.leb_spec mes 12); [|lia].
  destruct (Z.leb_spec 2000 ano); [|lia].
  split; reflexivity.
Qed.

Lemma period_rejected (mes ano : Z) :
  negb ((1 <=? mes) && (mes <=? 12)) = true \/ negb (2000 <=? ano) = true ->
  ~ (1 <= mes <= 12 /\ 2000 <= ano).
Proof.
  intros H [Hm Ha]. destruct (period_accepted mes ano Hm Ha) as [E1 E2].
  rewrite E1, E2 in H. destruct H; discriminate.
Qed.

Lemma get_dashboard_summary_accepts (mes ano uid : Z) (db : Session) :
  1 <= mes <= 12 -> 2000 <= ano ->
  get_dashboard_summary mes ano uid db =
    Ok (Schemas.mkDashboardSummary mes ano
          (query_total_entradas db uid mes ano)
          (query_total_debito db uid mes ano
           + query_total_parcelas db uid mes ano)
          (query_total_guardado db uid)
          (query_total_entradas db uid mes ano
           - (query_total_debito db uid mes ano
              + query_total_parcelas db uid mes ano))).
Proof.
  intros Hm Ha. unfold get_dashboard_summary.
  destruct (period_accepted mes ano Hm Ha) as [-> ->]. reflexivity.
Qed.

Lemma get_expenses_by_category_accepts (mes ano uid : Z) (db : Session) :
  1 <= mes <= 12 -> 2000 <= ano ->
  get_expenses_by_category mes ano uid db =
    Ok (category_summary mes ano
          (query_debit_by_category db uid mes ano)
          (query_credit_by_category db uid mes ano)).
Proof.
  intros Hm Ha. unfold get_expenses_by_category.
  destruct (period_accepted mes ano Hm Ha) as [-> ->]. reflexivity.
Qed.

(** *** A stored credit purchase *)

Section CreditPurchase.
Variables (db : Session) (t : Transaction) (parcelas : list Installment).
Variables (uid mes ano : Z).
Hypothesis Hcredit : tipo t = SAIDA_CREDITO.
Hypothesis Huser : user_id t = uid.
Hypothesis Hfresh : forall t', In t' (transactions db) -> id t' <> id t.
Hypothesis Hunreferenced :
  forall i, In i (installments db) -> transacao_id i <> id t.
Hypothesis Hparent : forall i, In i parcelas -> transacao_id i = id t.

Lemma credit_purchase_transactions_of (ty : TransactionType) :
  ty <> SAIDA_CREDITO ->
  transactions_of (add_credit_purchase db t parcelas) uid ty mes ano
  = transactions_of db uid ty mes ano.
Proof.
  intros Hty.
  unfold transactions_of, add_credit_purchase; cbn [transactions].
  rewrite filter_app. cbn [filter]. rewrite Hcredit.
  destruct ty; try contradiction; cbn [tipo_eqb];
    rewrite andb_false_r; simpl; apply app_nil_r.
Qed.

Lemma credit_purchase_entradas :
  query_total_entradas (add_credit_purchase db t parcelas) uid mes ano
  = query_total_entradas db uid mes ano.
Proof.
  rewrite !query_total_entradas_sum.
  now rewrite credit_purchase_transactions_of.
Qed.

Lemma credit_purchase_debito :
  query_total_debito (add_credit_purchase db t parcelas) uid mes ano
  = query_total_debito db uid mes ano.
Proof.
  rewrite !query_total_debito_sum.
  now rewrite credit_purchase_transactions_of.
Qed.

Lemma credit_purchase_parcelas :
  query_total_parcelas (add_credit_purchase db t parcelas) uid mes ano
  = query_total_parcelas db uid mes ano
    + sumZ valor_parcela
        (filter (fun i => in_period (data_vencimento i) mes ano) parcelas).
Proof.
  rewrite !query_total_parcelas_sum.
  unfold add_credit_purchase; cbn [transactions installments].
  rewrite sumZ_app. f_equal.
  - apply sumZ_ext_in; intros i Hi.
    rewrite sumZ_app. simpl. unfold due_amount at 2.
    destruct (Z.eqb_spec (id t) (transacao_id i)) as [Heq|_].
    + exfalso. apply (Hunreferenced i Hi). congruence.
    + simpl. lia.
  - rewrite sumZ_filter. apply sumZ_ext_in; intros i Hi.
    rewrite sumZ_app.
    rewrite (sumZ_ext_in _ (fun _ => 0)), sumZ_zero.
    2:{ intros t' Ht'. unfold due_amount.
        destruct (Z.eqb_spec (id t') (transacao_id i)) as [Heq|_];
          [|reflexivity].
        exfalso. apply (Hfresh t' Ht'). rewrite Heq. now apply Hparent. }
    simpl. unfold due_amount.
    rewrite (Hparent i Hi), Z.eqb_refl, Huser, Z.eqb_refl. simpl.
    destruct (in_period (data_vencimento i) mes ano); lia.
Qed.
End CreditPurchase.

Lemma sample_db_keys_unique : transaction_keys_unique sample_db.
Proof.
  unfold transaction_keys_unique. cbn.
  repeat constructor; cbn; intuition discriminate.
Qed.

Lemma unit_db_keys_unique : transaction_keys_unique unit_db.
Proof.
  unfold transaction_keys_unique. cbn.
  repeat constructor; cbn; intuition discriminate.
Qed.

Lemma sample_purchase_fresh : fresh_key sample_db (id sample_purchase).
Proof.
  split; intros x Hx; simpl in Hx;
    repeat (destruct Hx as [<-|Hx]; [simpl; lia|]); contradiction.
Qed.

(** C5. Installments count in the period of their due date.  With
    unique transaction keys the expense total of the summary of an
    accepted period is [debitTotal + installmentTotal] of the
    specification: the debit expenses of the user bought in the month and
    year of the period, plus the installments of the user's transactions
    whose due date is in that month and year.  Storing a credit purchase
    with its installments raises the expense total of the period by the
    amounts of those of its installments whose due date is in the period,
    whatever the purchase date of the transaction.  So a purchase of
    January whose one installment is due in February adds nothing to the
    expense total of January and the amount of the installment to that of
    February. *)
Theorem C5_installments_count_when_due (db : Session) (t : Transaction)
    (parcelas : list Installment) (uid mes ano : Z) :
  1 <= mes <= 12 -> 2000 <= ano ->
  transaction_keys_unique db ->
  tipo t = SAIDA_CREDITO ->
  user_id t = uid ->
  fresh_key db (id t) ->
  (forall i, In i parcelas -> transacao_id i = id t) ->
  exists s s',
    get_dashboard_summary mes ano uid db = Ok s
    /\ Schemas.total_saidas s
       = PeriodSpec.debitTotal db uid mes ano
         + PeriodSpec.installmentTotal db uid mes ano
    /\ get_dashboard_summary mes ano uid (add_credit_purchase db t parcelas)
       = Ok s'
    /\ Schemas.total_saidas s'
       = Schemas.total_saidas s
         + sumZ valor_parcela
             (filter (fun i => (month (data_vencimento i) =? mes)
                               && (year (data_vencimento i) =? ano))
                     parcelas)
    /\ (forall d,
          get_dashboard_summary mes ano uid
            (add_credit_purchase db (with_data_compra t d) parcelas)
          = Ok s')
    /\ (forall p,
          parcelas = [p] ->
          month (data_compra t) = 1 /\ year (data_compra t) = ano ->
          month (data_vencimento p) = 2 /\ year (data_vencimento p) = ano ->
          exists january january' february february',
            get_dashboard_summary 1 ano uid db = Ok january
            /\ get_dashboard_summary 1 ano uid
                 (add_credit_purchase db t parcelas) = Ok january'
            /\ Schemas.total_saidas january' = Schemas.total_saidas january
            /\ get_dashboard_summary 2 ano uid db = Ok february
            /\ get_dashboard_summary 2 ano uid
                 (add_credit_purchase db t parcelas) = Ok february'
            /\ Schemas.total_saidas february'
               = Schemas.total_saidas february + valor_parcela p).
Proof.
  intros Hm Ha Hnd Hcredit Huser [Hfresh Hunref] Hparent.
  assert (Hadd : forall mes' t',
            1 <= mes' <= 12 -> tipo t' = SAIDA_CREDITO -> user_id t' = uid ->
            id t' = id t ->
            get_dashboard_summary mes' ano uid (add_credit_purchase db t' parcelas)
            = Ok (Schemas.mkDashboardSummary mes' ano
                    (query_total_entradas db uid mes' ano)
                    (query_total_debito db uid mes' ano
                     + query_total_parcelas db uid mes' ano
                     + sumZ valor_parcela
                         (filter (fun i => in_period (data_vencimento i) mes' ano)
                                 parcelas))
                    (query_total_guardado db uid)
                    (query_total_entradas db uid mes' ano
                     - (query_total_debito db uid mes' ano
                        + query_total_parcelas db uid mes' ano
                        + sumZ valor_parcela
                            (filter (fun i => in_period (data_vencimento i)
                                                mes' ano)
                                    parcelas))))).
  { intros mes' t' Hm' Hc' Hu' Hid'.
    rewrite get_dashboard_summary_accepts by assumption.
    rewrite (credit_purchase_entradas db t' parcelas uid) by assumption.
    rewrite (credit_purchase_debito db t' parcelas uid) by assumption.
    rewrite (credit_purchase_parcelas db t' parcelas uid); try assumption.
    - unfold query_total_guardado, add_credit_purchase; cbn [savings_goals].
      f_equal. f_equal; lia.
    - intros x Hx. rewrite Hid'. now apply Hfresh.
    - intros x Hx. rewrite Hid'. now apply Hunref.
    - intros x Hx. rewrite Hid'. now apply Hparent. }
  do 2 eexists.
  split; [apply get_dashboard_summary_accepts; assumption|].
  cbn [Schemas.total_saidas].
  split; [now rewrite query_total_debito_spec, query_total_parcelas_spec|].
  split; [apply Hadd; auto|].
  cbn [Schemas.total_saidas].
  split; [reflexivity|].
  split; [intros d; apply Hadd; auto|].
  intros p -> [Hbm Hby] [Hdm Hdy].
  do 4 eexists.
  split; [apply get_dashboard_summary_accepts; [lia|assumption]|].
  split; [apply Hadd; auto; lia|].
  cbn [Schemas.total_saidas].
  split.
  { cbn [filter]. unfold in_period. rewrite Hdm. cbn. lia. }
  split; [apply get_dashboard_summary_accepts; [lia|assumption]|].
  split; [apply Hadd; auto; lia|].
  cbn [Schemas.total_saidas filter]. unfold in_period.
  rewrite Hdm, Hdy, !Z.eqb_refl. cbn. lia.
Qed.

(** A purchase of 2024-01-20 whose single installment of 50.00 is due on
    2024-02-20, stored next to a debit expense of each month. *)
Lemma C5_installments_count_when_due_witness :
  exists s s',
    get_dashboard_summary 2 2024 7 sample_db = Ok s
    /\ Schemas.total_saidas s
       = PeriodSpec.debitTotal sample_db 7 2 2024
         + PeriodSpec.installmentTotal sample_db 7 2 2024
    /\ get_dashboard_summary 2 2024 7
         (add_credit_purchase sample_db sample_purchase [sample_installment])
       = Ok s'
    /\ Schemas.total_saidas s'
       = Schemas.total_saidas s
         + sumZ valor_parcela
             (filter (fun i => (month (data_vencimento i) =? 2)
                               && (year (data_vencimento i) =? 2024))
                     [sample_installment])
    /\ (forall d,
          get_dashboard_summary 2 2024 7
            (add_credit_purchase sample_db (with_data_compra sample_purchase d)
               [sample_installment])
          = Ok s')
    /\ (forall p,
          [sample_installment] = [p] ->
          month (data_compra sample_purchase) = 1
          /\ year (data_compra sample_purchase) = 2024 ->
          month (data_vencimento p) = 2 /\ year (data_vencimento p) = 2024 ->
          exists january january' february february',
            get_dashboard_summary 1 2024 7 sample_db = Ok january
            /\ get_dashboard_summary 1 2024 7
                 (add_credit_purchase sample_db sample_purchase
                    [sample_installment]) = Ok january'
            /\ Schemas.total_saidas january' = Schemas.total_saidas january
            /\ get_dashboard_summary 2 2024 7 sample_db = Ok february
            /\ get_dashboard_summary 2 2024 7
                 (add_credit_purchase sample_db sample_purchase
                    [sample_installment]) = Ok february'
            /\ Schemas.total_saidas february'
               = Schemas.total_saidas february + valor_parcela p).
Proof.
  apply C5_installments_count_when_due;
    try lia; try reflexivity;
    [apply sample_db_keys_unique|apply sample_purchase_fresh|].
  simpl; intros x Hx;
    repeat (destruct Hx as [<-|Hx]; [simpl; lia|]); contradiction.
Defined.

(** The figures of that purchase: January stays at 420.00, February goes
    from 380.00 to 430.00. *)
Example january_purchase_counts_in_february :
  (exists s s',
     get_dashboard_summary 1 2024 7 sample_db = Ok s
     /\ get_dashboard_summary 1 2024 7
          (add_credit_purchase sample_db sample_purchase [sample_installment])
        = Ok s'
     /\ Schemas.total_saidas s = 42000 /\ Schemas.total_saidas s' = 42000)
  /\ (exists s s',
        get_dashboard_summary 2 2024 7 sample_db = Ok s
        /\ get_dashboard_summary 2 2024 7
             (add_credit_purchase sample_db sample_purchase [sample_installment])
           = Ok s'
        /\ Schemas.total_saidas s = 38000 /\ Schemas.total_saidas s' = 43000).
Proof. split; do 2 eexists; repeat split; reflexivity. Qed.

(** C6. Breakdown completeness: for one user and one accepted period the
    amounts of the categories of the breakdown add up to the expense
    total of the summary. *)
Theorem C6_breakdown_completeness (mes ano uid : Z) (db : Session) :
  1 <= mes <= 12 -> 2000 <= ano ->
  exists s r,
    get_dashboard_summary mes ano uid db = Ok s
    /\ get_expenses_by_category mes ano uid db = Ok r
    /\ sumZ Schemas.valor_total (Schemas.categorias r)
       = Schemas.total_saidas s.
Proof.
  intros Hm Ha. do 2 eexists.
  split; [apply get_dashboard_summary_accepts; assumption|].
  split; [apply get_expenses_by_category_accepts; assumption|].
  rewrite categorias_total. cbn [Schemas.total_saidas].
  now rewrite query_debit_by_category_total, query_credit_by_category_total.
Qed.

Lemma C6_breakdown_completeness_witness :
  exists s r,
    get_dashboard_summary 2 2024 7 ties_db = Ok s
    /\ get_expenses_by_category 2 2024 7 ties_db = Ok r
    /\ sumZ Schemas.valor_total (Schemas.categorias r)
       = Schemas.total_saidas s.
Proof. apply C6_breakdown_completeness; lia. Defined.

(** C8. Balance identity: every summary the handler returns has
    [saldo_disponivel = total_entradas - total_saidas], and it returns
    one for every month from 1 to 12 of a year from 2000 on. *)
Theorem C8_balance_identity (mes ano uid : Z) (db : Session) :
  match get_dashboard_summary mes ano uid db with
  | Ok s =>
      Schemas.saldo_disponivel s
      = Schemas.total_entradas s - Schemas.total_saidas s
      /\ Schemas.total_entradas s = query_total_entradas db uid mes ano
      /\ Schemas.total_saidas s
         = query_total_debito db uid mes ano
           + query_total_parcelas db uid mes ano
  | Raise _ => ~ (1 <= mes <= 12 /\ 2000 <= ano)
  end.
Proof.
  unfold get_dashboard_summary.
  destruct (negb ((1 <=? mes) && (mes <=? 12))) eqn:E1.
  - apply period_rejected. now left.
  - destruct (negb (2000 <=? ano)) eqn:E2.
    + apply period_rejected. now right.
    + cbn. repeat split.
Qed.

(** The savings total is a snapshot: the current amounts of the user's
    active goals, the same for every period. *)
Theorem total_guardado_snapshot (mes ano mes' ano' uid : Z) (db : Session) :
  1 <= mes <= 12 -> 2000 <= ano -> 1 <= mes' <= 12 -> 2000 <= ano' ->
  exists s s',
    get_dashboard_summary mes ano uid db = Ok s
    /\ get_dashboard_summary mes' ano' uid db = Ok s'
    /\ Schemas.total_guardado s = Schemas.total_guardado s'
    /\ Schemas.total_guardado s
       = sumZ (fun g => match valor_atual g with Some v => v | None => 0 end)
           (filter (fun g => (goal_user_id g =? uid)
                             && match is_active g with
                                | Some true => true
                                | _ => false
                                end)
                   (savings_goals db)).
Proof.
  intros Hm Ha Hm' Ha'. do 2 eexists.
  split; [apply get_dashboard_summary_accepts; assumption|].
  split; [apply get_dashboard_summary_accepts; assumption|].
  split; [reflexivity|].
  cbn [Schemas.total_guardado]. unfold query_total_guardado.
  rewrite coalesce_sql_sum.
  induction (filter _ (savings_goals db)) as [|g goals IH]; [reflexivity|].
  simpl. destruct (valor_atual g) eqn:E; simpl; rewrite IH; reflexivity.
Qed.

Lemma total_guardado_snapshot_witness :
  exists s s',
    get_dashboard_summary 1 2024 7 sample_db = Ok s
    /\ get_dashboard_summary 2 2024 7 sample_db = Ok s'
    /\ Schemas.total_guardado s = Schemas.total_guardado s'
    /\ Schemas.total_guardado s
       = sumZ (fun g => match valor_atual g with Some v => v | None => 0 end)
           (filter (fun g => (goal_user_id g =? 7)
                             && match is_active g with
                                | Some true => true
                                | _ => false
                                end)
                   (savings_goals sample_db)).
Proof. apply total_guardado_snapshot; lia. Defined.

(** A period without a debit expense and without an installment due has an
    empty breakdown and a total of 0. *)
Theorem no_expenses_empty_breakdown (mes ano uid : Z) (db : Session) :
  1 <= mes <= 12 -> 2000 <= ano ->
  transactions_of db uid SAIDA_DEBITO mes ano = [] ->
  filter (fun ti => (user_id (fst ti) =? uid)
                    && in_period (data_vencimento (snd ti)) mes ano)
         (transactions_join_installments db) = [] ->
  get_expenses_by_category mes ano uid db
  = Ok (Schemas.mkDashboardCategorySummary mes ano 0 []).
Proof.
  intros Hm Ha Hdebit Hcredit.
  rewrite get_expenses_by_category_accepts by assumption.
  unfold query_debit_by_category, query_credit_by_category.
  rewrite Hdebit, Hcredit. reflexivity.
Qed.

Lemma no_expenses_empty_breakdown_witness :
  get_expenses_by_category 5 2024 7 sample_db
  = Ok (Schemas.mkDashboardCategorySummary 5 2024 0 []).
Proof. apply no_expenses_empty_breakdown; try lia; reflexivity. Defined.

End AggregatorFacts.

(** ** The order of the breakdown *)

Module OrderFacts.
Import Calendar Models Dashboard DashboardFacts AggregatorFacts Samples Order.

Lemma insert_desc_Forall (P : string * Decimal -> Prop) x l :
  P x -> Forall P l -> Forall P (insert_desc x l).
Proof.
  intros Hx Hl. induction Hl as [|y l Hy Hl IH]; simpl.
  - constructor; [assumption|constructor].
  - destruct (snd x <? snd y); repeat constructor; assumption.
Qed.

Lemma insert_desc_sorted x l :
  StronglySorted desc l -> StronglySorted desc (insert_desc x l).
Proof.
  induction 1 as [|y l Hs IH Hy]; simpl.
  - repeat constructor.
  - destruct (Z.ltb_spec (snd x) (snd y)) as [Hlt|Hge].
    + constructor; [exact IH|].
      apply insert_desc_Forall; [unfold desc; lia|exact Hy].
    + constructor; [constructor; assumption|].
      constructor; [unfold desc; lia|].
      eapply Forall_impl; [|exact Hy]. unfold desc. intros z Hz. lia.
Qed.

Lemma sorted_reverse_sorted l : StronglySorted desc (sorted_reverse l).
Proof.
  induction l as [|x l IH]; simpl; [constructor|].
  now apply insert_desc_sorted.
Qed.

(** The sort is stable: among the items of one amount the order of the
    input is kept. *)
Lemma insert_desc_with_amount v x l :
  with_amount v (insert_desc x l) = with_amount v (x :: l).
Proof.
  unfold with_amount.
  induction l as [|y l IH]; [reflexivity|]. cbn [insert_desc].
  destruct (Z.ltb_spec (snd x) (snd y)) as [Hlt|Hge]; [|reflexivity].
  cbn [filter] in *. rewrite IH.
  destruct (snd x =? v) eqn:Ex; destruct (snd y =? v) eqn:Ey;
    try reflexivity.
  apply Z.eqb_eq in Ex, Ey. lia.
Qed.

Lemma sorted_reverse_stable v l :
  with_amount v (sorted_reverse l) = with_amount v l.
Proof.
  induction l as [|x l IH]; [reflexivity|]. cbn [sorted_reverse fold_right].
  fold (sorted_reverse l). rewrite insert_desc_with_amount.
  unfold with_amount in *. cbn [filter]. now rewrite IH.
Qed.

Lemma StronglySorted_nth {A : Type} (R : A -> A -> Prop) (l : list A) :
  StronglySorted R l ->
  forall i j a b, (i < j)%nat ->
    nth_error l i = Some a -> nth_error l j = Some b -> R a b.
Proof.
  induction 1 as [|x l Hs IH Hx]; intros i j a b Hij Ha Hb.
  - destruct i; discriminate.
  - destruct j as [|j]; [lia|]. cbn [nth_error] in Hb.
    destruct i as [|i]; cbn [nth_error] in Ha.
    + inversion Ha; subst a.
      rewrite Forall_forall in Hx. apply Hx. eapply nth_error_In, Hb.
    + apply (IH i j); [lia|assumption|assumption].
Qed.

Lemma items_of_nth cs i c :
  nth_error cs i = Some c ->
  nth_error (items_of cs) i = Some (Schemas.categoria c, Schemas.valor_total c).
Proof. intros H. unfold items_of. now rewrite nth_error_map, H. Qed.

(** The keys of the dictionary are the categories in the order of their
    first row. *)
Lemma dict_set_keys (d : dict) (k : string) (v : Decimal) :
  map fst (dict_set d k v)
  = if existsb (String.eqb k) (map fst d) then map fst d
    else map fst d ++ [k].
Proof.
  induction d as [|[k' v'] d IH]; [reflexivity|].
  cbn [dict_set map fst existsb].
  rewrite (String.eqb_sym k k').
  destruct (String.eqb_spec k' k) as [->|Hne]; [reflexivity|].
  cbn [map fst orb]. rewrite IH.
  destruct (existsb (String.eqb k) (map fst d)); reflexivity.
Qed.

Lemma accumulate_keys (rows : list (string * Decimal)) (d : dict) :
  map fst (accumulate d rows) = first_seen_from (map fst d) (map fst rows).
Proof.
  unfold accumulate, first_seen_from. revert d.
  induction rows as [|[cat total] rows IH]; intros d; [reflexivity|].
  cbn [fold_left map fst]. rewrite IH, dict_set_keys. reflexivity.
Qed.

Lemma categorias_items_of (mes ano : Z) (debit credit : list (string * Decimal)) :
  items_of (Schemas.categorias (category_summary mes ano debit credit))
  = sorted_reverse (accumulate (accumulate [] debit) credit).
Proof. apply categorias_items. Qed.

(** The claim C7 as it is written fails in February 2024 of [ties_db]:
    the breakdown lists "B" before "A", both with 10.00. *)
Lemma C7_ties_not_by_name :
  exists r,
    get_expenses_by_category 2 2024 7 ties_db = Ok r
    /\ amount_descending (Schemas.categorias r)
    /\ ~ ties_by_name_ascending (Schemas.categorias r).
Proof.
  eexists. split; [reflexivity|]. split.
  - intros i j a b Hij Ha Hb.
    destruct i as [|[|i]], j as [|[|j]]; try lia;
      cbn in Ha, Hb; try discriminate;
      try (destruct i; discriminate); try (destruct j; discriminate).
    inversion Ha; inversion Hb; subst; cbn; lia.
  - intros Hties.
    specialize (Hties 0%nat 1%nat _ _ (Nat.lt_0_1) eq_refl eq_refl eq_refl).
    discriminate Hties.
Qed.

(** C7, amended. For an accepted period the breakdown is ordered by
    amount descending; the categories of one amount keep the order they
    have in the dictionary of category totals, which is the order in which
    the categories are first met in the rows of the debit query followed by
    the rows of the installment query. *)
Theorem C7_descending_and_stable (mes ano uid : Z) (db : Session) :
  1 <= mes <= 12 -> 2000 <= ano ->
  exists r,
    get_expenses_by_category mes ano uid db = Ok r
    /\ amount_descending (Schemas.categorias r)
    /\ (forall v,
          with_amount v (items_of (Schemas.categorias r))
          = with_amount v (category_totals_of db uid mes ano))
    /\ map fst (category_totals_of db uid mes ano)
       = first_seen_from []
           (map fst (query_debit_by_category db uid mes ano)
            ++ map fst (query_credit_by_category db uid mes ano)).
Proof.
  intros Hm Ha. eexists.
  split; [apply get_expenses_by_category_accepts; assumption|].
  split; [|split].
  - intros i j a b Hij Hi Hj.
    apply items_of_nth in Hi, Hj. rewrite categorias_items_of in Hi, Hj.
    exact (StronglySorted_nth desc _ (sorted_reverse_sorted _)
             i j _ _ Hij Hi Hj).
  - intros v. rewrite categorias_items_of. apply sorted_reverse_stable.
  - unfold category_totals_of. rewrite !accumulate_keys.
    unfold first_seen_from. now rewrite fold_left_app.
Qed.

Lemma C7_descending_and_stable_witness :
  exists r,
    get_expenses_by_category 2 2024 7 ties_db = Ok r
    /\ amount_descending (Schemas.categorias r)
    /\ (forall v,
          with_amount v (items_of (Schemas.categorias r))
          = with_amount v (category_totals_of ties_db 7 2 2024))
    /\ map fst (category_totals_of ties_db 7 2 2024)
       = first_seen_from []
           (map fst (query_debit_by_category ties_db 7 2 2024)
            ++ map fst (query_credit_by_category ties_db 7 2 2024)).
Proof. apply C7_descending_and_stable; lia. Defined.

(** C10. The reported total.  With unique transaction keys and an
    accepted period, the amounts of the categories of the breakdown add up
    to the expenses of the period, [totalExpense] of the specification.
    When these expenses are exactly 1.00 the [total] field is 0 although
    the list of categories is not empty, the stand-in [Decimal('1')] for an
    empty total being equal to a real total of 1; for every other amount of
    expenses the [total] field is that amount, the sum of the amounts of the
    categories. *)
Theorem C10_total_sentinel (mes ano uid : Z) (db : Session) :
  1 <= mes <= 12 -> 2000 <= ano ->
  transaction_keys_unique db ->
  exists r,
    get_expenses_by_category mes ano uid db = Ok r
    /\ sumZ Schemas.valor_total (Schemas.categorias r)
       = PeriodSpec.totalExpense db uid mes ano
    /\ (PeriodSpec.totalExpense db uid mes ano = 100 ->
        Schemas.total r = 0 /\ Schemas.categorias r <> [])
    /\ (PeriodSpec.totalExpense db uid mes ano <> 100 ->
        Schemas.total r = PeriodSpec.totalExpense db uid mes ano
        /\ Schemas.total r
           = sumZ Schemas.valor_total (Schemas.categorias r)).
Proof.
  intros Hm Ha Hnd. eexists.
  split; [apply get_expenses_by_category_accepts; assumption|].
  rewrite categorias_total.
  rewrite <- (total_expense_spec db uid mes ano Hnd).
  rewrite <- query_debit_by_category_total, <- query_credit_by_category_total.
  set (debit := query_debit_by_category db uid mes ano).
  set (credit := query_credit_by_category db uid mes ano).
  assert (Hsum : sum_values (accumulate (accumulate [] debit) credit)
                 = sumZ snd debit + sumZ snd credit).
  { rewrite sum_values_sumZ, !accumulate_total. simpl. lia. }
  assert (Htotal :
    Schemas.total (category_summary mes ano debit credit)
    = if sumZ snd debit + sumZ snd credit =? 100 then 0
      else sumZ snd debit + sumZ snd credit).
  { unfold category_summary; cbn [Schemas.total]. rewrite Hsum.
    destruct (Z.eqb_spec (sumZ snd debit + sumZ snd credit) 0) as [->|Hnz];
      [reflexivity|].
    destruct (Z.eqb_spec (sumZ snd debit + sumZ snd credit) 100);
      reflexivity. }
  rewrite Htotal. split; [reflexivity|]. split.
  - intros H100. rewrite H100. split; [reflexivity|].
    intros Hnil.
    pose proof (categorias_total mes ano debit credit) as Hc.
    rewrite Hnil in Hc. simpl in Hc. lia.
  - intros Hne.
    destruct (Z.eqb_spec (sumZ snd debit + sumZ snd credit) 100);
      [contradiction|split; reflexivity].
Qed.

(** March 2024 of [unit_db]: 0.40 and 0.60 make 1.00, reported as 0. *)
Lemma C10_total_sentinel_witness :
  exists r,
    get_expenses_by_category 3 2024 7 unit_db = Ok r
    /\ sumZ Schemas.valor_total (Schemas.categorias r)
       = PeriodSpec.totalExpense unit_db 7 3 2024
    /\ (PeriodSpec.totalExpense unit_db 7 3 2024 = 100 ->
        Schemas.total r = 0 /\ Schemas.categorias r <> [])
    /\ (PeriodSpec.totalExpense unit_db 7 3 2024 <> 100 ->
        Schemas.total r = PeriodSpec.totalExpense unit_db 7 3 2024
        /\ Schemas.total r
           = sumZ Schemas.valor_total (Schemas.categorias r)).
Proof.
  apply C10_total_sentinel; [lia|lia|].
  unfold transaction_keys_unique. cbn.
  repeat constructor; cbn; intuition discriminate.
Defined.

End OrderFacts.

(** ** The savings rate *)

Module RateFacts.
Import Float64 Schemas Samples RoundingFacts.

(** [round(x, 2)] is the float of a number of hundredths within half a
    hundredth of [x]. *)
Lemma round2_near (x : Q) :
  exists h : Z,
    round2 x = b64 (Qmake h 100)
    /\ (Qabs (inject_Z h - x * 100) <= 1 # 2)%Q.
Proof.
  unfold round2.
  set (x100 := Qred (x * 100)).
  exists (round_half_even (Qnum x100) (Zpos (Qden x100))).
  split; [reflexivity|].
  assert (Hx : (x * 100 == x100)%Q) by (symmetry; apply Qred_correct).
  rewrite Hx.
  pose proof (round_half_even_near (Qnum x100) (Zpos (Qden x100))
                ltac:(lia)) as Hnear.
  destruct x100 as [n d]; cbn [Qnum Qden] in *.
  apply Qabs_Qle_condition.
  unfold Qle, Qminus, Qplus, Qopp, inject_Z; cbn [Qnum Qden].
  rewrite ?Pos.mul_1_l. split; lia.
Qed.

(** [variacao_percentual], case by case. *)
Lemma variacao_percentual_some (s : DashboardSummary) :
  0 < total_entradas s ->
  variacao_percentual s = Some (round2 (b64 (savings_rate s))).
Proof.
  intros Hpos. unfold variacao_percentual.
  destruct (Z.gtb_spec (total_entradas s) 0); [reflexivity|lia].
Qed.

Lemma variacao_percentual_none (s : DashboardSummary) :
  variacao_percentual s = None <-> total_entradas s <= 0.
Proof.
  unfold variacao_percentual.
  destruct (Z.gtb_spec (total_entradas s) 0); split;
    intros H'; try lia; try discriminate; reflexivity.
Qed.

(** The claim C9 as it is written fails for an income of 3.00 and an
    expense of 1.00: the rate returned is the float 66.67, not 200/3. *)
Lemma C9_rate_not_exact :
  exists s r,
    Dashboard.get_dashboard_summary 4 2024 7 thirds_db = Ok s
    /\ 0 < total_entradas s
    /\ variacao_percentual s = Some r
    /\ r = b64 (6667 # 100)
    /\ ~ (r == exact_rate s)%Q.
Proof.
  do 2 eexists.
  split; [reflexivity|].
  split; [reflexivity|].
  split; [reflexivity|].
  split; [reflexivity|].
  vm_compute. discriminate.
Qed.

Lemma savings_rate_break_even (s : DashboardSummary) :
  0 < total_entradas s -> total_saidas s = total_entradas s ->
  savings_rate s = 0%Q.
Proof.
  intros Hpos Heq. unfold savings_rate. rewrite Heq, Z.sub_diag.
  destruct (total_entradas s) as [|p|p]; try lia. reflexivity.
Qed.

(** C9, amended. When the income is positive the savings rate is
    present and is [(total_entradas - total_saidas) / total_entradas * 100]
    rounded to two decimals: the float of a number of hundredths that is
    within half a hundredth of the exact rate, up to the relative error
    [2 ^ -52] of the [Decimal] quotient and of its conversion to a float
    (for an income of 3.00 and an expense of 1.00 the rate is 66.67).  The
    rate is absent exactly when the income is not positive, in particular
    when it is 0; expenses equal to a positive income give a present rate
    of 0. *)
Theorem C9_rate_rounded_or_absent (s : DashboardSummary) :
  (0 < total_entradas s ->
     exists h : Z,
       variacao_percentual s = Some (b64 (Qmake h 100))
       /\ (Qabs (Qmake h 100 - exact_rate s)
           <= (1 # 200) + Qabs (exact_rate s) * (1 # 2 ^ 52))%Q)
  /\ (variacao_percentual s = None <-> total_entradas s <= 0)
  /\ (total_entradas s = 0 -> variacao_percentual s = None)
  /\ (0 < total_entradas s -> total_saidas s = total_entradas s ->
      variacao_percentual s = Some 0%Q).
Proof.
  split; [|split; [|split]].
  - intros Hpos. rewrite variacao_percentual_some by assumption.
    destruct (round2_near (b64 (savings_rate s))) as (h & Hr & Hh).
    exists h. split; [now rewrite Hr|].
    apply (rate_chain (exact_rate s) (dec28 (exact_ratio s)) (savings_rate s)
             (b64 (savings_rate s)) (Qmake h 100)).
    + assert (Hx : (exact_rate s * (1 # 100) == exact_ratio s)%Q)
        by (unfold exact_rate; field).
      rewrite Hx. apply dec28_error.
    + unfold savings_rate, exact_ratio. apply Qred_correct.
    + apply b64_error.
    + assert (Hh100 : (Qmake h 100 * 100 == inject_Z h)%Q)
        by (unfold Qeq, Qmult, inject_Z; cbn [Qnum Qden]; lia).
      rewrite Hh100. exact Hh.
  - apply variacao_percentual_none.
  - intros H0. apply variacao_percentual_none. lia.
  - intros Hpos Heq. rewrite variacao_percentual_some by assumption.
    rewrite savings_rate_break_even by assumption. reflexivity.
Qed.

(** An income of 50.00 and expenses of 20.00: a rate of 60. *)
Lemma C9_rate_rounded_or_absent_witness :
  exists h : Z,
    variacao_percentual (mkDashboardSummary 2 2024 5000 2000 0 3000)
    = Some (b64 (Qmake h 100))
    /\ (Qabs (Qmake h 100
              - exact_rate (mkDashboardSummary 2 2024 5000 2000 0 3000))
        <= (1 # 200)
           + Qabs (exact_rate (mkDashboardSummary 2 2024 5000 2000 0 3000))
             * (1 # 2 ^ 52))%Q.
Proof.
  apply (proj1 (C9_rate_rounded_or_absent
                  (mkDashboardSummary 2 2024 5000 2000 0 3000))).
  reflexivity.
Defined.

End RateFacts.

(** ** The plan of a purchase, month by month *)

Module PlanFacts.
Import Calendar Utils DateUtils CalendarFacts SchedulerFacts.

Lemma filter_range_eqb (n k : Z) :
  0 <= n ->
  filter (fun i => i =? k) (range n)
  = if (0 <=? k) && (k <? n) then [k] else [].
Proof.
  intros Hn. pattern n. apply natlike_ind; [| |assumption].
  - cbn [range]. simpl.
    destruct (Z.leb_spec 0 k), (Z.ltb_spec k 0); try lia; reflexivity.
  - intros x Hx IH. unfold Z.succ.
    rewrite range_succ, filter_app, IH by assumption. cbn [filter].
    destruct (Z.leb_spec 0 k); cbn [andb].
    + destruct (Z.ltb_spec k x), (Z.eqb_spec x k), (Z.ltb_spec k (x + 1));
        try lia; subst; reflexivity.
    + destruct (Z.eqb_spec x k); [lia|reflexivity].
Qed.

(** The month of a due date, read on the month line. *)
Lemma in_month_iff (d : date) (mes ano : Z) :
  1 <= month d <= 12 ->
  (month d =? mes) && (year d =? ano) = true
  <-> 1 <= mes <= 12 /\ month_index d = 12 * ano + (mes - 1).
Proof.
  intros Hm. unfold month_index. rewrite andb_true_iff, !Z.eqb_eq. lia.
Qed.

(** The indices of the installments of a plan that are due in a given
    month of a given year: the distance [k] of that month from the month
    of the purchase, when the plan reaches it. *)
Lemma plan_filter (d : date) (n mes ano : Z) :
  1 <= month d <= 12 -> 0 <= n ->
  filter (fun i => Dashboard.in_period (add_months_spec d i) mes ano)
         (range n)
  = let k := 12 * ano + (mes - 1) - month_index d in
    if ((1 <=? mes) && (mes <=? 12)) && ((0 <=? k) && (k <? n))
    then [k] else [].
Proof.
  intros Hd Hn. cbv zeta.
  set (k := 12 * ano + (mes - 1) - month_index d).
  rewrite (filter_ext_in _
             (fun i => ((1 <=? mes) && (mes <=? 12)) && (i =? k))).
  - destruct ((1 <=? mes) && (mes <=? 12)); cbn [andb].
    + apply filter_range_eqb, Hn.
    + clear. induction (range n) as [|x l IH]; [reflexivity|exact IH].
  - intros i Hi.
    pose proof (add_months_spec_month d i) as Hmonth.
    pose proof (add_months_spec_month_index d i) as Hidx.
    pose proof (in_month_iff (add_months_spec d i) mes ano Hmonth) as Hiff.
    unfold Dashboard.in_period.
    destruct ((month (add_months_spec d i) =? mes)
              && (year (add_months_spec d i) =? ano)) eqn:E.
    + destruct (proj1 Hiff eq_refl) as [Hmes Hk]. symmetry.
      rewrite !andb_true_iff, !Z.leb_le, Z.eqb_eq. unfold k. lia.
    + symmetry. apply not_true_is_false. intros Hc.
      rewrite !andb_true_iff, !Z.leb_le, Z.eqb_eq in Hc.
      enough (false = true) by discriminate.
      apply Hiff. unfold k in Hc. lia.
Qed.

(** One installment a month: of the plan of a purchase of less than
    [10 ^ 24] cents whose last due date is not after December 9999, the
    installments due in a given month of a given year are the single
    installment of index [k] when that month is the [k]-th after the month
    of the purchase ([0 <= k < count]), and none otherwise. *)
Theorem one_installment_per_month (d : date) (n : Z) (v : Decimal) :
  is_date d -> 1 <= n <= 48 -> 0 < v < 10 ^ 24 ->
  month_index d + n <= 12 * 10000 ->
  exists parcelas,
    calcular_datas_parcelas d n v = Return parcelas
    /\ forall mes ano,
         let k := 12 * ano + (mes - 1) - month_index d in
         (1 <= mes <= 12 /\ 0 <= k < n ->
          exists p, nth_error parcelas (Z.to_nat k) = Some p
                    /\ get_parcelas_do_mes parcelas mes ano = [p])
         /\ (~ (1 <= mes <= 12 /\ 0 <= k < n) ->
             get_parcelas_do_mes parcelas mes ano = []).
Proof.
  intros Hd Hn Hv Hlast. eexists.
  split; [apply calcular_datas_parcelas_plan; assumption|].
  intros mes ano k.
  assert (Hfilter :
    get_parcelas_do_mes (map (plan_parcela d n v) (range n)) mes ano
    = map (plan_parcela d n v)
        (if ((1 <=? mes) && (mes <=? 12)) && ((0 <=? k) && (k <? n))
         then [k] else [])).
  { unfold get_parcelas_do_mes. rewrite filter_map_swap. f_equal.
    apply (plan_filter d n mes ano); [destruct Hd as [[? ?] _]|]; lia. }
  rewrite Hfilter. split.
  - intros [Hmes Hk]. eexists.
    split; [apply plan_parcela_nth; lia|].
    destruct (Z.leb_spec 1 mes); [|lia].
    destruct (Z.leb_spec mes 12); [|lia].
    destruct (Z.leb_spec 0 k); [|lia].
    destruct (Z.ltb_spec k n); [|lia]. reflexivity.
  - intros Hout.
    destruct (Z.leb_spec 1 mes); [|reflexivity].
    destruct (Z.leb_spec mes 12); [|reflexivity].
    destruct (Z.leb_spec 0 k); [|reflexivity].
    destruct (Z.ltb_spec k n); [|reflexivity]. exfalso. apply Hout. lia.
Qed.

Lemma one_installment_per_month_witness :
  exists parcelas,
    calcular_datas_parcelas (mkdate 2023 11 30) 4 1000 = Return parcelas
    /\ forall mes ano,
         let k := 12 * ano + (mes - 1) - month_index (mkdate 2023 11 30) in
         (1 <= mes <= 12 /\ 0 <= k < 4 ->
          exists p, nth_error parcelas (Z.to_nat k) = Some p
                    /\ get_parcelas_do_mes parcelas mes ano = [p])
         /\ (~ (1 <= mes <= 12 /\ 0 <= k < 4) ->
             get_parcelas_do_mes parcelas mes ano = []).
Proof.
  apply one_installment_per_month;
    [apply sample_dates|lia| |vm_compute; discriminate].
  split; [lia|reflexivity].
Defined.

(** The last installment: for a total below [10 ^ 24] cents and a last
    due date not after December 9999 it differs from the base amount by
    less than half a cent for each installment of the plan; it is not
    negative when twice the total is at least [count * (count - 1)] cents,
    and it can be negative below that: 0.24 in 48 installments is 47
    installments of 0.01 and a last one of -0.23. *)
Theorem last_installment_bounds :
  (forall (d : date) (n : Z) (v : Decimal),
     is_date d -> 1 <= n <= 48 -> 0 < v < 10 ^ 24 ->
     month_index d + n <= 12 * 10000 ->
     exists base parcelas last,
       calcular_datas_parcelas d n v = Return parcelas
       /\ is_round_half_up v n base
       /\ 0 <= base
       /\ nth_error parcelas (Z.to_nat (n - 1)) = Some last
       /\ - n <= 2 * (valor_parcela last - base) < n
       /\ (n * (n - 1) <= 2 * v -> 0 <= valor_parcela last))
  /\ (exists parcelas,
        calcular_datas_parcelas (mkdate 2024 1 10) 48 24 = Return parcelas
        /\ map valor_parcela parcelas = repeat 1 47 ++ [-23]).
Proof.
  split.
  - intros d n v Hd Hn Hv Hlast.
    exists (div_quantize_half_up v n). do 2 eexists.
    split; [apply calcular_datas_parcelas_plan; assumption|].
    pose proof (div_quantize_half_up_spec v n ltac:(lia) ltac:(lia)) as Hb.
    split; [exact Hb|].
    unfold is_round_half_up in Hb.
    split; [nia|].
    split; [apply plan_parcela_nth; lia|].
    cbn [plan_parcela valor_parcela]. rewrite plan_amount_last.
    set (b := div_quantize_half_up v n) in *.
    split; [nia|]. intros Hbig. nia.
  - eexists. split; [vm_compute; reflexivity|reflexivity].
Qed.

Lemma last_installment_bounds_witness :
  exists base parcelas last,
    calcular_datas_parcelas (mkdate 2024 1 10) 7 100 = Return parcelas
    /\ is_round_half_up 100 7 base
    /\ 0 <= base
    /\ nth_error parcelas (Z.to_nat (7 - 1)) = Some last
    /\ - 7 <= 2 * (valor_parcela last - base) < 7
    /\ (7 * (7 - 1) <= 2 * 100 -> 0 <= valor_parcela last).
Proof.
  apply (proj1 last_installment_bounds);
    [apply sample_dates|lia| |vm_compute; discriminate].
  split; [lia|reflexivity].
Defined.

End PlanFacts.

(** ** The date utilities *)

Module DateUtilsFacts.
Import Calendar Datetime DateUtils CalendarFacts DatetimeFacts.

(** *** The constructor of [date] *)

Lemma monthrange_12 (y : Z) : monthrange y 12 = 31.
Proof. reflexivity. Qed.

Lemma monthrange_1 (y : Z) : monthrange y 1 = 31.
Proof. reflexivity. Qed.

(** The day before the first day of a month. *)
Lemma minus_one_day_first (y m : Z) :
  minus_one_day (mkdate y m 1)
  = if m - 1 >? 0 then
      if (1 <=? y) && (y <=? 9999)
      then Return (mkdate y (m - 1) (monthrange y (m - 1)))
      else Throw (OverflowError "date value out of range")
    else
      if (1 <=? y - 1) && (y - 1 <=? 9999)
      then Return (mkdate (y - 1) 12 31)
      else Throw (OverflowError "date value out of range").
Proof.
  unfold minus_one_day; cbn [year month day].
  change (1 - 1 =? 0) with true. cbv iota.
  destruct (m - 1 >? 0); reflexivity.
Qed.

(** Last day of a month: for a month from 1 to 12 of a year from 1 to
    9999, December 9999 apart, [get_ultimo_dia_mes] returns the day of that
    month and year whose number is the length of the month, and
    [get_primeiro_dia_mes] its day 1. *)
Theorem get_ultimo_dia_mes_last_day (mes ano : Z) :
  1 <= mes <= 12 -> 1 <= ano <= 9999 -> ~ (mes = 12 /\ ano = 9999) ->
  get_ultimo_dia_mes mes ano = Return (mkdate ano mes (monthrange ano mes))
  /\ get_primeiro_dia_mes mes ano = Return (mkdate ano mes 1)
  /\ valid_date (mkdate ano mes (monthrange ano mes)).
Proof.
  intros Hm Ha Hlast.
  pose proof (monthrange_pos ano mes Hm) as Hr.
  split; [|split].
  - unfold get_ultimo_dia_mes.
    destruct (Z.eqb_spec mes 12) as [->|Hne].
    + rewrite new_date_valid by (rewrite ?monthrange_1; lia). cbn [bind].
      rewrite minus_one_day_first.
      change (1 - 1 >? 0) with false. cbv iota.
      replace (ano + 1 - 1) with ano by lia.
      destruct (Z.leb_spec 1 ano); [|lia].
      destruct (Z.leb_spec ano 9999); [|lia]. reflexivity.
    + rewrite new_date_valid by
        (try lia; pose proof (monthrange_pos ano (mes + 1)); lia).
      cbn [bind]. rewrite minus_one_day_first.
      replace (mes + 1 - 1) with mes by lia.
      destruct (Z.gtb_spec mes 0); [|lia].
      destruct (Z.leb_spec 1 ano); [|lia].
      destruct (Z.leb_spec ano 9999); [|lia]. reflexivity.
  - unfold get_primeiro_dia_mes. apply new_date_valid; lia.
  - unfold valid_date; cbn [year month day]. lia.
Qed.

Lemma get_ultimo_dia_mes_last_day_witness :
  get_ultimo_dia_mes 2 2024 = Return (mkdate 2024 2 (monthrange 2024 2))
  /\ get_primeiro_dia_mes 2 2024 = Return (mkdate 2024 2 1)
  /\ valid_date (mkdate 2024 2 (monthrange 2024 2)).
Proof. apply get_ultimo_dia_mes_last_day; lia. Defined.

(** The month is not checked by [get_ultimo_dia_mes] itself: it
    returns a date exactly for the months 1 to 12 of the years 1 to 9999
    other than December 9999, where the date is the last day of the month,
    and for month 0 of the years 2 to 9999, where it is December 31 of the
    year before; on every other input, December 9999 included, it
    raises. *)
Theorem get_ultimo_dia_mes_cases (mes ano : Z) :
  match get_ultimo_dia_mes mes ano with
  | Return d =>
      (1 <= mes <= 12 /\ 1 <= ano <= 9999 /\ ~ (mes = 12 /\ ano = 9999)
       /\ d = mkdate ano mes (monthrange ano mes))
      \/ (mes = 0 /\ 2 <= ano <= 9999 /\ d = mkdate (ano - 1) 12 31)
  | Throw _ =>
      mes < 0 \/ 12 < mes \/ ano < 1 \/ 9999 < ano
      \/ (mes = 12 /\ ano = 9999) \/ (mes = 0 /\ ano = 1)
  end.
Proof.
  unfold get_ultimo_dia_mes.
  destruct (Z.eqb_spec mes 12) as [->|Hne].
  - pose proof (new_date_cases (ano + 1) 1 1) as Hnew.
    destruct (new_date (ano + 1) 1 1) as [d|e]; cbn [bind].
    + destruct Hnew as [-> [Hy _]]. rewrite minus_one_day_first.
      change (1 - 1 >? 0) with false. cbv iota.
      replace (ano + 1 - 1) with ano by lia.
      destruct (Z.leb_spec 1 ano); cbn [andb]; [|lia].
      destruct (Z.leb_spec ano 9999); [|lia].
      left. repeat split; try lia.
    + rewrite monthrange_1 in Hnew. lia.
  - pose proof (new_date_cases ano (mes + 1) 1) as Hnew.
    destruct (new_date ano (mes + 1) 1) as [d|e]; cbn [bind].
    + destruct Hnew as [-> [Hy [Hm _]]]. rewrite minus_one_day_first.
      replace (mes + 1 - 1) with mes by lia.
      destruct (Z.gtb_spec mes 0).
      * destruct (Z.leb_spec 1 ano); cbn [andb]; [|lia].
        destruct (Z.leb_spec ano 9999); [|lia].
        left. repeat split; try lia.
      * assert (mes = 0) as -> by lia.
        destruct (Z.leb_spec 1 (ano - 1)); cbn [andb].
        -- destruct (Z.leb_spec (ano - 1) 9999); [|lia].
           right. repeat split; lia.
        -- lia.
    + destruct (Z_lt_le_dec mes 0); [lia|].
      destruct (Z_lt_le_dec 12 mes); [lia|].
      destruct (Z_lt_le_dec ano 1); [lia|].
      destruct (Z_lt_le_dec 9999 ano); [lia|].
      exfalso. apply Hnew.
      pose proof (monthrange_pos ano (mes + 1)). lia.
Qed.

(** The month before: for a month from 1 to 12, [get_mes_anterior]
    returns the month that precedes it on the calendar, so that one month
    after its first day is the first day of the given month; and the last
    day of the month it returns is the day before that first day. *)
Theorem get_mes_anterior_previous (mes ano : Z) :
  1 <= mes <= 12 ->
  let '(m, a) := get_mes_anterior mes ano in
  1 <= m <= 12
  /\ 12 * a + (m - 1) = 12 * ano + (mes - 1) - 1
  /\ date_add (mkdate a m 1) (relativedelta_months 1) = mkdate ano mes 1
  /\ get_ultimo_dia_mes m a
     = (d <- get_primeiro_dia_mes mes ano ;; minus_one_day d).
Proof.
  intros Hm. unfold get_mes_anterior.
  destruct (Z.eqb_spec mes 1) as [->|Hne].
  - split; [lia|]. split; [lia|]. split.
    + unfold date_add, relativedelta_months; cbn.
      f_equal; lia.
    + unfold get_ultimo_dia_mes, get_primeiro_dia_mes.
      change (12 =? 12) with true. cbv iota.
      now replace (ano - 1 + 1) with ano by lia.
  - split; [lia|]. split; [lia|]. split.
    + rewrite date_add_months by (cbn; lia).
      unfold add_months_spec, month_index; cbn [year month day].
      replace (12 * ano + (mes - 1 - 1) + 1) with (ano * 12 + (mes - 1)) by lia.
      destruct (divmod_12 ano (mes - 1) ltac:(lia)) as [-> ->].
      replace (mes - 1 + 1) with mes by lia.
      pose proof (monthrange_pos ano mes Hm).
      destruct (Z.leb_spec 1 (monthrange ano mes)); [reflexivity|lia].
    + unfold get_ultimo_dia_mes, get_primeiro_dia_mes.
      destruct (Z.eqb_spec (mes - 1) 12); [lia|].
      now replace (mes - 1 + 1) with mes by lia.
Qed.

Lemma get_mes_anterior_previous_witness :
  let '(m, a) := get_mes_anterior 1 2024 in
  1 <= m <= 12
  /\ 12 * a + (m - 1) = 12 * 2024 + (1 - 1) - 1
  /\ date_add (mkdate a m 1) (relativedelta_months 1) = mkdate 2024 1 1
  /\ get_ultimo_dia_mes m a
     = (d <- get_primeiro_dia_mes 1 2024 ;; minus_one_day d).
Proof. apply (get_mes_anterior_previous 1 2024); lia. Defined.

End DateUtilsFacts.

(** ** Text of amounts *)

Module TextFacts.
Import Str StrOps DecimalText Formatting.

(** *** Strings *)

Lemma chars_append (s1 s2 : string) :
  list_ascii_of_string (s1 ++ s2)
  = list_ascii_of_string s1 ++ list_ascii_of_string s2.
Proof. induction s1 as [|c s1 IH]; simpl; [reflexivity|]. now rewrite IH. Qed.

Lemma chars_replace (s old new : string) :
  list_ascii_of_string (replace s old new)
  = replace_chars (list_ascii_of_string old) (list_ascii_of_string new)
      (list_ascii_of_string s).
Proof. unfold replace. apply list_ascii_of_string_of_list_ascii. Qed.

Lemma replace_char_map (c c' : ascii) (s : str) :
  replace_chars [c] [c'] s = map (fun x => if Ascii.eqb c x then c' else x) s.
Proof.
  unfold replace_chars.
  induction s as [|x s IH]; cbn [replace_from prefixb map]; [reflexivity|].
  rewrite andb_true_r. cbn [List.length Nat.sub].
  destruct (Ascii.eqb c x); cbn [app]; now rewrite IH.
Qed.

Lemma replace_char_filter (c : ascii) (s : str) :
  replace_chars [c] [] s = filter (fun x => negb (Ascii.eqb c x)) s.
Proof.
  unfold replace_chars.
  induction s as [|x s IH]; cbn [replace_from prefixb filter]; [reflexivity|].
  rewrite andb_true_r. cbn [List.length Nat.sub].
  destruct (Ascii.eqb c x); cbn [app negb]; now rewrite IH.
Qed.

(** A pattern whose first character does not occur is not found. *)
Lemma replace_from_absent (c : ascii) (old new s : str) :
  Forall (fun x => Ascii.eqb c x = false) s ->
  replace_from (c :: old) new 0 s = s.
Proof.
  induction 1 as [|x s Hx Hs IH]; cbn [replace_from prefixb]; [reflexivity|].
  rewrite Hx. cbn [andb]. now rewrite IH.
Qed.

Lemma lstrip_chars_id (s : str) :
  Forall (fun x => isspace x = false) s -> lstrip_chars s = s.
Proof. destruct 1 as [|x s Hx Hs]; cbn [lstrip_chars]; [reflexivity|]. now rewrite Hx. Qed.

Lemma strip_chars_id (s : str) :
  Forall (fun x => isspace x = false) s -> strip_chars s = s.
Proof.
  intros Hs. unfold strip_chars.
  rewrite (lstrip_chars_id s Hs), lstrip_chars_id, rev_involutive;
    [reflexivity|].
  now apply Forall_rev.
Qed.

Lemma filter_id {A : Type} (p : A -> bool) (l : list A) :
  Forall (fun x => p x = true) l -> filter p l = l.
Proof. induction 1 as [|x l Hx Hl IH]; simpl; [reflexivity|]. now rewrite Hx, IH. Qed.

Lemma map_id_on {A : Type} (f : A -> A) (l : list A) :
  Forall (fun x => f x = x) l -> map f l = l.
Proof. induction 1 as [|x l Hx Hl IH]; simpl; [reflexivity|]. now rewrite Hx, IH. Qed.

(** *** Digits *)

Ltac by_cases c :=
  destruct c as [[] [] [] [] [] [] [] []]; try discriminate; reflexivity.

Lemma digit_char_cases (d : Z) :
  0 <= d <= 9 ->
  In (digit_char d) (list_ascii_of_string "0123456789")
  /\ digit_value (digit_char d) = d.
Proof.
  intros Hd.
  assert (d = 0 \/ d = 1 \/ d = 2 \/ d = 3 \/ d = 4 \/ d = 5 \/ d = 6
          \/ d = 7 \/ d = 8 \/ d = 9) as Hc by lia.
  repeat (destruct Hc as [->|Hc]); try subst d; split;
    try reflexivity; simpl; tauto.
Qed.

Lemma digit_char_value (d : Z) :
  0 <= d <= 9 -> digit_value (digit_char d) = d.
Proof. intros Hd. apply digit_char_cases, Hd. Qed.

Lemma digit_char_is_digit (d : Z) :
  0 <= d <= 9 -> is_digit (digit_char d) = true.
Proof.
  intros Hd. destruct (digit_char_cases d Hd) as [Hin _].
  simpl in Hin.
  repeat (destruct Hin as [<-|Hin]; [reflexivity|]). contradiction.
Qed.

Lemma digits_aux_app (fuel : nat) (n : Z) (acc : str) :
  digits_aux fuel n acc = digits_aux fuel n [] ++ acc.
Proof.
  revert n acc. induction fuel as [|fuel IH]; intros n acc; [reflexivity|].
  cbn [digits_aux]. destruct (n <? 10); [reflexivity|].
  rewrite IH, (IH _ [_]), <- app_assoc. reflexivity.
Qed.

Lemma digits_aux_step (fuel : nat) (n : Z) :
  digits_aux (S fuel) n []
  = if n <? 10 then [digit_char (n mod 10)]
    else digits_aux fuel (n / 10) [] ++ [digit_char (n mod 10)].
Proof.
  cbn [digits_aux]. destruct (n <? 10); [reflexivity|]. apply digits_aux_app.
Qed.

Lemma digits_aux_all_digits (fuel : nat) (n : Z) :
  all_digits (digits_aux fuel n []).
Proof.
  revert n. induction fuel as [|fuel IH]; intros n; [constructor|].
  rewrite digits_aux_step.
  pose proof (Z.mod_pos_bound n 10 ltac:(lia)) as Hm.
  assert (Hd : is_digit (digit_char (n mod 10)) = true)
    by (apply digit_char_is_digit; lia).
  destruct (n <? 10).
  - constructor; [exact Hd|constructor].
  - apply Forall_app. split; [apply IH|]. constructor; [exact Hd|constructor].
Qed.

Lemma digits_all_digits (n : Z) : all_digits (digits n).
Proof. apply digits_aux_all_digits. Qed.

Lemma digits_nonempty (n : Z) : exists c l, digits n = c :: l.
Proof.
  unfold digits. rewrite digits_aux_step.
  destruct (n <? 10); [now eexists; eexists|].
  destruct (digits_aux _ _ _); now eexists; eexists.
Qed.

Lemma int_of_digits_app (l1 l2 : str) :
  int_of_digits (l1 ++ l2)
  = fold_left (fun acc c => 10 * acc + digit_value c) l2 (int_of_digits l1).
Proof. unfold int_of_digits. apply fold_left_app. Qed.

Lemma digits_aux_value (fuel : nat) (n : Z) :
  0 <= n < 2 ^ Z.of_nat fuel -> int_of_digits (digits_aux fuel n []) = n.
Proof.
  revert n. induction fuel as [|fuel IH]; intros n Hn.
  - simpl in Hn. cbn. lia.
  - rewrite digits_aux_step.
    pose proof (Z.mod_pos_bound n 10 ltac:(lia)) as Hm.
    pose proof (Z.div_mod n 10 ltac:(lia)) as Hdm.
    destruct (Z.ltb_spec n 10).
    + unfold int_of_digits. cbn [fold_left].
      rewrite digit_char_value by lia.
      rewrite Z.mod_small by lia. lia.
    + rewrite int_of_digits_app. cbn [fold_left].
      rewrite digit_char_value by lia.
      rewrite IH; [lia|].
      rewrite Nat2Z.inj_succ, Z.pow_succ_r in Hn by lia.
      split; [apply Z.div_pos; lia|].
      apply Z.div_lt_upper_bound; lia.
Qed.

Lemma digits_value (n : Z) : 0 <= n -> int_of_digits (digits n) = n.
Proof.
  intros Hn. apply digits_aux_value. split; [assumption|].
  destruct (Z.eq_dec n 0) as [->|Hne]; [reflexivity|].
  rewrite Nat2Z.inj_succ, Z2Nat.id by apply Z.log2_nonneg.
  apply Z.log2_spec. lia.
Qed.

Lemma digits_aux_length (fuel : nat) (n k : Z) :
  n < 10 ^ k -> 1 <= k ->
  Z.of_nat (List.length (digits_aux fuel n [])) <= k.
Proof.
  revert n k. induction fuel as [|fuel IH]; intros n k Hn Hk; [simpl; lia|].
  rewrite digits_aux_step.
  destruct (Z.ltb_spec n 10); [simpl; lia|].
  rewrite length_app. cbn [List.length].
  assert (Hk2 : 2 <= k).
  { destruct (Z.eq_dec k 1) as [->|]; [|lia]. simpl in Hn. lia. }
  replace k with (Z.succ (k - 1)) in Hn by lia.
  rewrite Z.pow_succ_r in Hn by lia.
  specialize (IH (n / 10) (k - 1)).
  assert (n / 10 < 10 ^ (k - 1)) by (apply Z.div_lt_upper_bound; lia).
  lia.
Qed.

Lemma digits_length (n k : Z) :
  n < 10 ^ k -> 1 <= k -> Z.of_nat (List.length (digits n)) <= k.
Proof. apply digits_aux_length. Qed.

(** *** The characters of a formatted amount *)

Lemma digit_not_sep (c k : ascii) :
  is_digit c = true ->
  In k (list_ascii_of_string "R$ ,.X_-+") -> Ascii.eqb k c = false.
Proof.
  intros Hc Hk. simpl in Hk.
  repeat (destruct Hk as [<-|Hk]; [revert Hc; by_cases c|]). contradiction.
Qed.

Lemma digit_not_space (c : ascii) : is_digit c = true -> isspace c = false.
Proof. by_cases c. Qed.

Lemma digit_lower (c : ascii) : is_digit c = true -> lower c = c.
Proof. by_cases c. Qed.

Lemma split_sign_digit (c : ascii) (r : str) :
  is_digit c = true -> split_sign (c :: r) = (false, c :: r).
Proof. by_cases c. Qed.

Lemma span_digits_app (ds : str) (x : ascii) (r : str) :
  all_digits ds -> is_digit x = false ->
  span_digits (ds ++ x :: r) = (ds, x :: r).
Proof.
  intros Hds Hx. induction Hds as [|c ds Hc Hds IH]; cbn [app span_digits].
  - now rewrite Hx.
  - now rewrite Hc, IH.
Qed.

Lemma span_digits_all (ds : str) : all_digits ds -> span_digits ds = (ds, []).
Proof.
  induction 1 as [|c ds Hc Hds IH]; cbn [span_digits]; [reflexivity|].
  now rewrite Hc, IH.
Qed.

Lemma two_digits_all_digits (n : Z) : 0 <= n < 100 -> all_digits (two_digits n).
Proof.
  intros Hn. unfold two_digits.
  pose proof (Z.mod_pos_bound n 10 ltac:(lia)).
  assert (0 <= n / 10 <= 9).
  { split; [apply Z.div_pos; lia|]. apply Z.lt_succ_r.
    apply Z.div_lt_upper_bound; lia. }
  repeat constructor; apply digit_char_is_digit; lia.
Qed.

Lemma int_of_digits_cents (a : Z) :
  0 <= a ->
  int_of_digits (digits (a / 100) ++ two_digits (a mod 100)) = a.
Proof.
  intros Ha.
  pose proof (Z.mod_pos_bound a 100 ltac:(lia)) as Hm.
  pose proof (Z.div_mod a 100 ltac:(lia)) as Hdm.
  pose proof (Z.mod_pos_bound (a mod 100) 10 ltac:(lia)) as Hm'.
  pose proof (Z.div_mod (a mod 100) 10 ltac:(lia)) as Hdm'.
  assert (0 <= a mod 100 / 10 <= 9).
  { split; [apply Z.div_pos; lia|]. apply Z.lt_succ_r.
    apply Z.div_lt_upper_bound; lia. }
  rewrite int_of_digits_app, digits_value by (apply Z.div_pos; lia).
  unfold two_digits. cbn [fold_left].
  rewrite !digit_char_value by lia. lia.
Qed.

(** The digits of an amount of fewer than [MAX_EMAX] digits. *)
Lemma digits_fit (a : Z) :
  0 <= a < 10 ^ MAX_EMAX ->
  (- 2 + Z.of_nat (List.length (digits a)) - 1 >? MAX_EMAX) = false.
Proof.
  intros Ha.
  pose proof (digits_length a MAX_EMAX (proj2 Ha) ltac:(unfold MAX_EMAX; lia)).
  destruct (Z.gtb_spec (- 2 + Z.of_nat (List.length (digits a)) - 1) MAX_EMAX);
    [lia|reflexivity].
Qed.

(** *** The constructor on a plain number *)

(** A text that starts with a digit after its sign and holds digits and
    points only is read as a finite number. *)
Lemma Decimal_of_chars_number (negative : bool) (d : ascii) (r : str) :
  is_digit d = true ->
  Forall (fun x => is_digit x = true \/ x = "."%char) r ->
  Decimal_of_chars ((if negative then ["-"%char] else []) ++ d :: r)
  = parse_finite negative (d :: r).
Proof.
  intros Hd Hr.
  assert (Hall : Forall (fun x => is_digit x = true
                                  \/ x = "-"%char \/ x = "."%char)
                   ((if negative then ["-"%char] else []) ++ d :: r)).
  { apply Forall_app. split.
    - destruct negative; [|constructor].
      constructor; [right; now left|constructor].
    - constructor; [now left|].
      eapply Forall_impl; [|exact Hr]. cbn beta. tauto. }
  unfold Decimal_of_chars.
  rewrite strip_chars_id.
  2:{ eapply Forall_impl; [|exact Hall]. cbn beta.
      intros x [Hx|[->| ->]]; [now apply digit_not_space|reflexivity..]. }
  rewrite filter_id.
  2:{ eapply Forall_impl; [|exact Hall]. cbn beta.
      intros x [Hx|[->| ->]]; [|reflexivity..].
      rewrite Ascii.eqb_sym, (digit_not_sep x "_"%char Hx); [reflexivity|].
      simpl. tauto. }
  assert (Hsplit :
    split_sign ((if negative then ["-"%char] else []) ++ d :: r)
    = (negative, d :: r)).
  { destruct negative; [reflexivity|]. cbn [app].
    now rewrite split_sign_digit. }
  rewrite Hsplit. cbn [map].
  rewrite (digit_lower d Hd).
  assert (Hi : Ascii.eqb d "i" = false)
    by (clear - Hd; revert Hd; by_cases d).
  assert (Hn : Ascii.eqb "n" d = false)
    by (clear - Hd; revert Hd; by_cases d).
  assert (Hs : Ascii.eqb "s" d = false)
    by (clear - Hd; revert Hd; by_cases d).
  unfold str_eqb, chars.
  cbn [string_of_list_ascii list_ascii_of_string String.eqb].
  rewrite Hi. cbn [orb].
  unfold parse_nan, chars. cbn [list_ascii_of_string prefixb].
  rewrite Hn, Hs. cbn [andb]. reflexivity.
Qed.

Lemma all_digits_or_point (l : str) :
  all_digits l -> Forall (fun x => is_digit x = true \/ x = "."%char) l.
Proof. intros H. eapply Forall_impl; [|exact H]. cbn beta. tauto. Qed.

(** A sign, digits, a point and digits: the number they write. *)
Lemma Decimal_of_chars_plain (negative : bool) (ds fs : str) :
  all_digits ds -> all_digits fs -> ds <> [] ->
  (- Z.of_nat (List.length fs)
   + Z.of_nat (List.length (digits (int_of_digits (ds ++ fs)))) - 1
   >? MAX_EMAX) = false ->
  Z.of_nat (List.length fs) <= 1000 ->
  Decimal_of_chars
    ((if negative then ["-"%char] else []) ++ ds ++ "."%char :: fs)
  = Return (Finite negative (int_of_digits (ds ++ fs))
              (- Z.of_nat (List.length fs))).
Proof.
  intros Hds Hfs Hne Hfit Hlen.
  destruct ds as [|d ds']; [contradiction|].
  pose proof (Forall_inv Hds) as Hd. cbn beta in Hd.
  cbn [app]. rewrite Decimal_of_chars_number; [|assumption|].
  2:{ apply Forall_app. split.
      - apply all_digits_or_point. now apply Forall_inv_tail in Hds.
      - constructor; [now right|now apply all_digits_or_point]. }
  unfold parse_finite.
  change (d :: ds' ++ "."%char :: fs) with ((d :: ds') ++ "."%char :: fs).
  rewrite span_digits_app by (assumption || reflexivity).
  rewrite span_digits_all by assumption.
  cbn [app parse_exponent].
  change (d :: ds' ++ fs) with ((d :: ds') ++ fs).
  rewrite Z.sub_0_l, Hfit. cbn [orb].
  unfold MIN_ETINY.
  destruct (Z.ltb_spec (- Z.of_nat (List.length fs)) (- 1999999999999999997));
    [lia|reflexivity].
Qed.

(** A sign and digits: the integer they write. *)
Lemma Decimal_of_chars_integer (negative : bool) (ds : str) :
  all_digits ds -> ds <> [] ->
  (0 + Z.of_nat (List.length (digits (int_of_digits ds))) - 1 >? MAX_EMAX)
  = false ->
  Decimal_of_chars ((if negative then ["-"%char] else []) ++ ds)
  = Return (Finite negative (int_of_digits ds) 0).
Proof.
  intros Hds Hne Hfit.
  destruct ds as [|d ds']; [contradiction|].
  pose proof (Forall_inv Hds) as Hd. cbn beta in Hd.
  rewrite Decimal_of_chars_number; [|assumption|].
  2:{ apply all_digits_or_point. now apply Forall_inv_tail in Hds. }
  unfold parse_finite.
  rewrite span_digits_all by assumption.
  cbn [parse_exponent]. rewrite app_nil_r.
  cbn [List.length Z.of_nat]. rewrite Z.sub_0_r, Hfit. reflexivity.
Qed.

(** *** The two formats *)

Lemma swap_digit (c : ascii) : is_digit c = true -> swap_separators c = c.
Proof. by_cases c. Qed.

Lemma three_replacements (l : str) :
  Forall (fun x => Ascii.eqb x "X" = false) l ->
  replace_chars ["X"%char] ["."%char]
    (replace_chars ["."%char] [","%char]
       (replace_chars [","%char] ["X"%char] l))
  = map swap_separators l.
Proof.
  intros Hl. rewrite !replace_char_map, !map_map.
  apply map_ext_in. intros x Hx.
  rewrite Forall_forall in Hl. specialize (Hl x Hx). revert Hl.
  unfold swap_separators. clear. by_cases x.
Qed.

Lemma group3_separators (ds : str) :
  all_digits ds ->
  filter (fun x => negb (Ascii.eqb "." x)) (map swap_separators (group3 ds))
  = ds.
Proof.
  induction 1 as [|c ds Hc Hds IH]; [reflexivity|].
  cbn [group3].
  assert (Hkeep : negb (Ascii.eqb "." (swap_separators c)) = true).
  { rewrite (swap_digit c Hc), (digit_not_sep c "."%char Hc); [reflexivity|].
    simpl. tauto. }
  destruct ((0 <? Z.of_nat (List.length ds))
            && (Z.of_nat (List.length ds) mod 3 =? 0));
    cbn [map filter]; rewrite Hkeep, (swap_digit c Hc).
  - change (swap_separators ",") with "."%char.
    change (negb (Ascii.eqb "." ".")) with false. cbv iota.
    now rewrite IH.
  - now rewrite IH.
Qed.

Lemma group3_chars (ds : str) :
  all_digits ds ->
  Forall (fun x => is_digit x = true \/ x = ","%char) (group3 ds).
Proof.
  induction 1 as [|c ds Hc Hds IH]; [constructor|].
  cbn [group3].
  destruct ((0 <? Z.of_nat (List.length ds))
            && (Z.of_nat (List.length ds) mod 3 =? 0));
    repeat (constructor; [tauto|]); exact IH.
Qed.

Lemma number_char_facts (x : ascii) :
  number_char x ->
  Ascii.eqb x "X" = false /\ Ascii.eqb "R" x = false
  /\ Ascii.eqb " " x = false /\ isspace x = false
  /\ number_char (swap_separators x).
Proof.
  unfold number_char.
  intros [Hx|[->|[->| ->]]];
    [|repeat split; try reflexivity; vm_compute; auto 6..].
  rewrite (swap_digit x Hx).
  repeat split; try tauto; revert Hx; clear; by_cases x.
Qed.

Lemma format_2f_chars_number (grouped : bool) (valor : Decimal) :
  Forall number_char (format_2f_chars grouped valor).
Proof.
  unfold format_2f_chars, number_char.
  pose proof (Z.mod_pos_bound (Z.abs valor) 100 ltac:(lia)) as Hm.
  apply Forall_app. split.
  - destruct (valor <? 0); [|constructor].
    constructor; [right; left; reflexivity|constructor].
  - apply Forall_app. split.
    + destruct grouped.
      * eapply Forall_impl; [|apply group3_chars, digits_all_digits].
        cbn beta. tauto.
      * eapply Forall_impl; [|apply digits_all_digits]. cbn beta. tauto.
    + constructor; [tauto|].
      eapply Forall_impl; [|apply two_digits_all_digits; lia].
      cbn beta. tauto.
Qed.

Lemma swapped_chars (valor : Decimal) :
  Forall number_char (map swap_separators (format_2f_chars true valor)).
Proof.
  apply Forall_map.
  eapply Forall_impl; [|apply format_2f_chars_number].
  intros x Hx. apply number_char_facts, Hx.
Qed.

Lemma chars_format_currency_brl (valor : Decimal) :
  list_ascii_of_string (format_currency_brl valor)
  = list_ascii_of_string "R$ "
    ++ map swap_separators (format_2f_chars true valor).
Proof.
  unfold format_currency_brl. rewrite chars_append, !chars_replace.
  unfold format_comma_2f. rewrite list_ascii_of_string_of_list_ascii.
  f_equal. apply three_replacements.
  eapply Forall_impl; [|apply format_2f_chars_number].
  intros x Hx. apply number_char_facts, Hx.
Qed.

(** The first half of [parse_currency_brl] on a text without the letter
    R and without white space. *)
Lemma cleaning_keeps (l : str) :
  Forall (fun x => Ascii.eqb "R" x = false /\ isspace x = false
                   /\ Ascii.eqb " " x = false) l ->
  strip_chars
    (replace_chars [" "%char] []
       (replace_chars ["R"%char; "$"%char] [] l)) = l.
Proof.
  intros Hl.
  unfold replace_chars at 2. rewrite replace_from_absent.
  2:{ eapply Forall_impl; [|exact Hl]. cbn beta. tauto. }
  rewrite replace_char_filter, filter_id.
  2:{ eapply Forall_impl; [|exact Hl]. cbn beta.
      intros x [_ [_ ->]]. reflexivity. }
  apply strip_chars_id.
  eapply Forall_impl; [|exact Hl]. cbn beta. tauto.
Qed.

Lemma cleaning_prefix (l : str) :
  Forall (fun x => Ascii.eqb "R" x = false /\ isspace x = false
                   /\ Ascii.eqb " " x = false) l ->
  strip_chars
    (replace_chars [" "%char] []
       (replace_chars ["R"%char; "$"%char] []
          (list_ascii_of_string "R$ " ++ l))) = l.
Proof.
  intros Hl.
  change (replace_chars ["R"%char; "$"%char] []
            (list_ascii_of_string "R$ " ++ l))
    with (" "%char :: replace_from ["R"%char; "$"%char] [] 0 l).
  rewrite replace_from_absent.
  2:{ eapply Forall_impl; [|exact Hl]. cbn beta. tauto. }
  rewrite replace_char_filter. cbn [filter].
  change (negb (Ascii.eqb " " " ")) with false. cbv iota.
  rewrite filter_id.
  2:{ eapply Forall_impl; [|exact Hl]. cbn beta.
      intros x [_ [_ ->]]. reflexivity. }
  apply strip_chars_id.
  eapply Forall_impl; [|exact Hl]. cbn beta. tauto.
Qed.

Lemma number_char_clean (l : str) :
  Forall number_char l ->
  Forall (fun x => Ascii.eqb "R" x = false /\ isspace x = false
                   /\ Ascii.eqb " " x = false) l.
Proof.
  intros Hl. eapply Forall_impl; [|exact Hl].
  intros x Hx. pose proof (number_char_facts x Hx). tauto.
Qed.

Lemma sign_chars (valor : Decimal) (f : ascii -> ascii) (p : ascii -> bool) :
  f "-"%char = "-"%char -> p "-"%char = true ->
  filter p (map f (if valor <? 0 then ["-"%char] else []))
  = (if valor <? 0 then ["-"%char] else []).
Proof.
  intros Hf Hp. destruct (valor <? 0); [|reflexivity].
  cbn [map filter]. now rewrite Hf, Hp.
Qed.

(** Round trip of the currency text: an amount with two fraction
    digits, formatted by [format_currency_brl] and read back by
    [parse_currency_brl], is the same amount, with its sign and its two
    fraction digits. *)
Theorem parse_format_currency_brl (valor : Decimal) :
  Z.abs valor < 10 ^ MAX_EMAX ->
  parse_currency_brl (format_currency_brl valor)
  = Return (Finite (valor <? 0) (Z.abs valor) (-2)).
Proof.
  intros Hfit.
  pose proof (Z.mod_pos_bound (Z.abs valor) 100 ltac:(lia)) as Hm.
  unfold parse_currency_brl, Decimal_of_str, strip.
  rewrite !chars_replace, list_ascii_of_string_of_list_ascii, ?chars_replace.
  rewrite chars_format_currency_brl.
  change (list_ascii_of_string "R$") with ["R"%char; "$"%char].
  change (list_ascii_of_string " ") with [" "%char].
  change (list_ascii_of_string EmptyString) with (@nil ascii).
  change (list_ascii_of_string ".") with ["."%char].
  change (list_ascii_of_string ",") with [","%char].
  rewrite cleaning_prefix by apply number_char_clean, swapped_chars.
  rewrite replace_char_filter, replace_char_map.
  unfold format_2f_chars.
  set (ds := digits (Z.abs valor / 100)).
  set (fs := two_digits (Z.abs valor mod 100)).
  assert (Hds : all_digits ds) by apply digits_all_digits.
  assert (Hfs : all_digits fs) by (apply two_digits_all_digits; lia).
  rewrite !map_app, !filter_app, sign_chars by reflexivity.
  rewrite group3_separators by assumption.
  cbn [map filter].
  change (swap_separators ".") with ","%char.
  change (negb (Ascii.eqb "." ",")) with true. cbv iota.
  rewrite (map_id_on swap_separators fs)
    by (eapply Forall_impl; [|exact Hfs]; intros x Hx; now apply swap_digit).
  rewrite (filter_id _ fs).
  2:{ eapply Forall_impl; [|exact Hfs]. intros x Hx. cbn beta.
      rewrite (digit_not_sep x "."%char Hx); [reflexivity|simpl; tauto]. }
  rewrite !map_app. cbn [map].
  change (if Ascii.eqb "," "," then "."%char else ","%char) with "."%char.
  rewrite (map_id_on _ ds), (map_id_on _ fs).
  2,3: eapply Forall_impl; [|eassumption]; intros x Hx; cbn beta;
       rewrite (digit_not_sep x ","%char Hx); [reflexivity|simpl; tauto].
  rewrite (map_id_on _ (if valor <? 0 then ["-"%char] else []))
    by (destruct (valor <? 0); repeat constructor).
  destruct (digits_nonempty (Z.abs valor / 100)) as [c [l Hcl]].
  rewrite Decimal_of_chars_plain; try assumption.
  - unfold ds, fs. rewrite int_of_digits_cents by lia. reflexivity.
  - unfold ds. rewrite Hcl. discriminate.
  - unfold ds, fs. rewrite int_of_digits_cents by lia.
    apply digits_fit. lia.
  - unfold fs. simpl. lia.
Qed.

Lemma parse_format_currency_brl_witness :
  parse_currency_brl (format_currency_brl (-123456))
  = Return (Finite (-123456 <? 0) (Z.abs (-123456)) (-2)).
Proof.
  apply parse_format_currency_brl.
  apply Z.lt_le_trans with (10 ^ 6); [reflexivity|].
  apply Z.pow_le_mono_r; unfold MAX_EMAX; lia.
Defined.

(** A decimal point is read as a thousands separator: the plain text
    of an amount with two fraction digits, such as 1234.56, is read by
    [parse_currency_brl] as the integer made of all its digits, a
    hundred times the amount. *)
Theorem parse_currency_brl_plain_text (valor : Decimal) :
  Z.abs valor < 10 ^ MAX_EMAX ->
  parse_currency_brl (format_2f valor)
  = Return (Finite (valor <? 0) (Z.abs valor) 0).
Proof.
  intros Hfit.
  pose proof (Z.mod_pos_bound (Z.abs valor) 100 ltac:(lia)) as Hm.
  unfold parse_currency_brl, Decimal_of_str, strip.
  rewrite !chars_replace, list_ascii_of_string_of_list_ascii, ?chars_replace.
  unfold format_2f. rewrite list_ascii_of_string_of_list_ascii.
  change (list_ascii_of_string "R$") with ["R"%char; "$"%char].
  change (list_ascii_of_string " ") with [" "%char].
  change (list_ascii_of_string EmptyString) with (@nil ascii).
  change (list_ascii_of_string ".") with ["."%char].
  change (list_ascii_of_string ",") with [","%char].
  rewrite cleaning_keeps by apply number_char_clean, format_2f_chars_number.
  rewrite replace_char_filter, replace_char_map.
  unfold format_2f_chars.
  set (ds := digits (Z.abs valor / 100)).
  set (fs := two_digits (Z.abs valor mod 100)).
  assert (Hds : all_digits ds) by apply digits_all_digits.
  assert (Hfs : all_digits fs) by (apply two_digits_all_digits; lia).
  rewrite !filter_app. cbn [filter].
  change (negb (Ascii.eqb "." ".")) with false. cbv iota.
  rewrite (filter_id _ ds), (filter_id _ fs).
  2,3: eapply Forall_impl; [|eassumption]; intros x Hx; cbn beta;
       rewrite (digit_not_sep x "."%char Hx); [reflexivity|simpl; tauto].
  rewrite (filter_id _ (if valor <? 0 then ["-"%char] else []))
    by (destruct (valor <? 0); repeat constructor).
  rewrite !map_app.
  rewrite (map_id_on _ ds), (map_id_on _ fs).
  2,3: eapply Forall_impl; [|eassumption]; intros x Hx; cbn beta;
       rewrite (digit_not_sep x ","%char Hx); [reflexivity|simpl; tauto].
  rewrite (map_id_on _ (if valor <? 0 then ["-"%char] else []))
    by (destruct (valor <? 0); repeat constructor).
  destruct (digits_nonempty (Z.abs valor / 100)) as [c [l Hcl]].
  assert (Hval : int_of_digits (ds ++ fs) = Z.abs valor)
    by (apply int_of_digits_cents; lia).
  rewrite Decimal_of_chars_integer.
  - now rewrite Hval.
  - apply Forall_app. now split.
  - unfold ds. rewrite Hcl. discriminate.
  - rewrite Hval.
    pose proof (digits_length (Z.abs valor) MAX_EMAX Hfit
                  ltac:(unfold MAX_EMAX; lia)).
    destruct (Z.gtb_spec (0 + Z.of_nat (List.length (digits (Z.abs valor))) - 1)
                MAX_EMAX); [lia|reflexivity].
Qed.

Lemma parse_currency_brl_plain_text_witness :
  parse_currency_brl (format_2f 123456)
  = Return (Finite (123456 <? 0) (Z.abs 123456) 0).
Proof.
  apply parse_currency_brl_plain_text.
  apply Z.lt_le_trans with (10 ^ 6); [reflexivity|].
  apply Z.pow_le_mono_r; unfold MAX_EMAX; lia.
Defined.

End TextFacts.

(** ** The savings goals *)

Module SavingsFacts.
Import Calendar Models Dashboard Savings SavingsSamples DashboardFacts.

Lemma find_goal_some (goals : list GoalRow) (id user : Z) (g : GoalRow) :
  find_goal goals id user = Some g ->
  In g goals /\ goal_id g = id /\ goal_user_id (columns g) = user.
Proof.
  intros H. apply find_some in H. destruct H as [Hin Hp].
  apply andb_true_iff in Hp. rewrite !Z.eqb_eq in Hp. tauto.
Qed.

(** A row with a unique key is the only row an UPDATE by that key
    touches. *)
Lemma update_row_unique (goals : list GoalRow) (g g' : GoalRow) :
  goal_keys_unique goals -> In g goals -> goal_id g' = goal_id g ->
  exists l1 l2,
    goals = l1 ++ g :: l2
    /\ update_row goals g' = l1 ++ g' :: l2
    /\ Forall (fun x => goal_id x <> goal_id g) (l1 ++ l2).
Proof.
  unfold goal_keys_unique, update_row. intros Hnd Hin Hid.
  apply in_split in Hin. destruct Hin as [l1 [l2 ->]].
  exists l1, l2. split; [reflexivity|].
  rewrite map_app in Hnd. cbn [map] in Hnd.
  apply NoDup_remove_2 in Hnd.
  assert (Hother : Forall (fun x => goal_id x <> goal_id g) (l1 ++ l2)).
  { apply Forall_forall. intros x Hx Heq. apply Hnd.
    rewrite <- Heq, <- map_app. now apply in_map. }
  split; [|exact Hother].
  apply Forall_app in Hother. destruct Hother as [H1 H2].
  rewrite map_app. cbn [map]. rewrite Hid, Z.eqb_refl.
  f_equal; [|f_equal]; rewrite <- (map_id l1) at 2 || rewrite <- (map_id l2) at 2;
    apply map_ext_in; intros x Hx;
    (destruct (Z.eqb_spec (goal_id x) (goal_id g)) as [Heq|]; [|reflexivity]);
    rewrite Forall_forall in H1, H2;
    exfalso; (now apply (H1 x Hx) || now apply (H2 x Hx)).
Qed.



(** *** The savings total of the dashboard *)




Lemma sample_goals_unique : goal_keys_unique sample_goals.
Proof.
  unfold goal_keys_unique. cbn.
  repeat constructor; cbn; intuition discriminate.
Qed.




(** *** Completed goals *)

Lemma update_row_same_owner (goals : list GoalRow) (g g' : GoalRow) :
  goal_keys_unique goals -> In g goals -> goal_id g' = goal_id g ->
  goal_user_id (columns g') = goal_user_id (columns g) ->
  forall other, other <> goal_user_id (columns g) ->
    goals_of other (update_row goals g') = goals_of other goals.
Proof.
  intros Hnd Hin Hid Hown other Hother.
  destruct (update_row_unique goals g g' Hnd Hin Hid)
    as [l1 [l2 [Hgoals [Hupd _]]]].
  rewrite Hupd, Hgoals. unfold goals_of. rewrite !filter_app. cbn [filter].
  rewrite Hown.
  destruct (Z.eqb_spec (goal_user_id (columns g)) other); [congruence|].
  reflexivity.
Qed.



(** *** The amounts stay non-negative *)

Lemma update_row_nonneg (goals : list GoalRow) (g' : GoalRow) :
  balances_nonneg goals ->
  match valor_atual (columns g') with Some b => 0 <= b | None => True end ->
  balances_nonneg (update_row goals g').
Proof.
  unfold balances_nonneg, update_row. intros Hall Hg'.
  apply Forall_map. eapply Forall_impl; [|exact Hall].
  intros x Hx. cbn beta. destruct (goal_id x =? goal_id g'); assumption.
Qed.

Lemma find_goal_nonneg (goals : list GoalRow) (id user : Z) (g : GoalRow) :
  balances_nonneg goals -> find_goal goals id user = Some g ->
  match valor_atual (columns g) with Some b => 0 <= b | None => True end.
Proof.
  intros Hall Hfind. apply find_goal_some in Hfind. destruct Hfind as [Hin _].
  unfold balances_nonneg in Hall. rewrite Forall_forall in Hall.
  exact (Hall g Hin).
Qed.

(** No negative amount: when no goal of the table holds a negative
    amount, none does after a goal is created, after a deposit, after a
    withdrawal, after a goal is completed or after one is deleted. *)
Theorem balances_stay_nonneg (goals : list GoalRow) :
  balances_nonneg goals ->
  (forall pk data user,
     match create_savings_goal pk data user goals with
     | Return (goals', _) => balances_nonneg goals'
     | Throw _ => True
     end)
  /\ (forall id v user,
        match deposit_to_goal id v user goals with
        | Return (goals', _) => balances_nonneg goals'
        | Throw _ => True
        end)
  /\ (forall id v user,
        match withdraw_from_goal id v user goals with
        | Return (goals', _) => balances_nonneg goals'
        | Throw _ => True
        end)
  /\ (forall id user,
        match complete_goal id user goals with
        | Return (goals', _) => balances_nonneg goals'
        | Throw _ => True
        end)
  /\ (forall id user,
        match delete_savings_goal id user goals with
        | Return goals' => balances_nonneg goals'
        | Throw _ => True
        end).
Proof.
  intros Hall. repeat split.
  - intros pk data user.
    unfold create_savings_goal, Bodies.validate_SavingsGoalCreate.
    destruct (negb _); [exact I|].
    destruct (negb (0 <? _)); [exact I|].
    destruct (Z.leb_spec 0 (Bodies.valor_inicial data)); [|exact I].
    cbn [negb bind]. apply Forall_app. split; [exact Hall|].
    constructor; [|constructor]. cbn. assumption.
  - intros id v user. unfold deposit_to_goal, Bodies.validate_valor.
    destruct (Z.ltb_spec 0 v); [|exact I]. cbn [negb bind].
    destruct (find_goal goals id user) as [g|] eqn:Hfind; [|exact I].
    destruct (negb _); [exact I|].
    pose proof (find_goal_nonneg _ _ _ _ Hall Hfind) as Hg.
    unfold current_value. destruct (valor_atual (columns g)); [|exact I].
    cbn [bind]. apply update_row_nonneg; [assumption|]. cbn. lia.
  - intros id v user. unfold withdraw_from_goal, Bodies.validate_valor.
    destruct (Z.ltb_spec 0 v); [|exact I]. cbn [negb bind].
    destruct (find_goal goals id user) as [g|] eqn:Hfind; [|exact I].
    unfold current_value. destruct (valor_atual (columns g)) as [b|]; [|exact I].
    cbn [bind]. destruct (Z.gtb_spec v b); [exact I|].
    apply update_row_nonneg; [assumption|]. cbn. lia.
  - intros id user. unfold complete_goal.
    destruct (find_goal goals id user) as [g|] eqn:Hfind; [|exact I].
    pose proof (find_goal_nonneg _ _ _ _ Hall Hfind) as Hg.
    apply update_row_nonneg; [assumption|]. exact Hg.
  - intros id user. unfold delete_savings_goal.
    destruct (find_goal goals id user) as [g|] eqn:Hfind; [|exact I].
    unfold balances_nonneg, delete_row.
    apply Forall_forall. intros x Hx. apply filter_In in Hx.
    unfold balances_nonneg in Hall. rewrite Forall_forall in Hall.
    apply Hall, Hx.
Qed.

Lemma sample_goals_nonneg : balances_nonneg sample_goals.
Proof. unfold balances_nonneg, sample_goals. repeat constructor; cbn; lia. Qed.

Lemma balances_stay_nonneg_witness :
  (forall pk data user,
     match create_savings_goal pk data user sample_goals with
     | Return (goals', _) => balances_nonneg goals'
     | Throw _ => True
     end)
  /\ (forall id v user,
        match deposit_to_goal id v user sample_goals with
        | Return (goals', _) => balances_nonneg goals'
        | Throw _ => True
        end)
  /\ (forall id v user,
        match withdraw_from_goal id v user sample_goals with
        | Return (goals', _) => balances_nonneg goals'
        | Throw _ => True
        end)
  /\ (forall id user,
        match complete_goal id user sample_goals with
        | Return (goals', _) => balances_nonneg goals'
        | Throw _ => True
        end)
  /\ (forall id user,
        match delete_savings_goal id user sample_goals with
        | Return goals' => balances_nonneg goals'
        | Throw _ => True
        end).
Proof. apply balances_stay_nonneg, sample_goals_nonneg. Defined.

(** *** One user's goals and another's *)

Lemma find_goal_foreign (goals : list GoalRow) (g : GoalRow) (user : Z) :
  goal_keys_unique goals -> In g goals ->
  goal_user_id (columns g) <> user ->
  find_goal goals (goal_id g) user = None.
Proof.
  intros Hnd Hin Hown.
  destruct (find_goal goals (goal_id g) user) as [x|] eqn:Hfind;
    [|reflexivity].
  exfalso. destruct (find_goal_some _ _ _ _ Hfind) as [Hx [Hid Hux]].
  assert (x = g); [|congruence].
  unfold goal_keys_unique in Hnd.
  apply in_split in Hin. destruct Hin as [l1 [l2 ->]].
  rewrite map_app in Hnd. cbn [map] in Hnd. apply NoDup_remove_2 in Hnd.
  apply in_app_or in Hx. cbn [In] in Hx.
  destruct Hx as [Hx|[Hx|Hx]]; [|now symmetry|];
    exfalso; apply Hnd; rewrite <- Hid, <- map_app; apply in_map;
    apply in_or_app; tauto.
Qed.

(** Another user's goal is not found: with unique keys, every handler
    that takes a goal id answers a goal that belongs to another user with
    status 404, and changes nothing. *)
Theorem foreign_goal_not_found (goals : list GoalRow) (g : GoalRow)
    (user v : Z) :
  goal_keys_unique goals -> In g goals ->
  goal_user_id (columns g) <> user -> 0 < v ->
  get_savings_goal (goal_id g) user goals
  = Throw (HTTPException 404 "Meta não encontrada")
  /\ deposit_to_goal (goal_id g) v user goals
     = Throw (HTTPException 404 "Meta não encontrada")
  /\ withdraw_from_goal (goal_id g) v user goals
     = Throw (HTTPException 404 "Meta não encontrada")
  /\ complete_goal (goal_id g) user goals
     = Throw (HTTPException 404 "Meta não encontrada")
  /\ delete_savings_goal (goal_id g) user goals
     = Throw (HTTPException 404 "Meta não encontrada").
Proof.
  intros Hnd Hin Hown Hv.
  pose proof (find_goal_foreign goals g user Hnd Hin Hown) as Hnone.
  unfold get_savings_goal, deposit_to_goal, withdraw_from_goal,
    complete_goal, delete_savings_goal, Bodies.validate_valor.
  destruct (Z.ltb_spec 0 v); [|lia]. cbn [negb bind].
  rewrite Hnone. repeat split.
Qed.

Lemma foreign_goal_not_found_witness :
  get_savings_goal 3 7 sample_goals
  = Throw (HTTPException 404 "Meta não encontrada")
  /\ deposit_to_goal 3 100 7 sample_goals
     = Throw (HTTPException 404 "Meta não encontrada")
  /\ withdraw_from_goal 3 100 7 sample_goals
     = Throw (HTTPException 404 "Meta não encontrada")
  /\ complete_goal 3 7 sample_goals
     = Throw (HTTPException 404 "Meta não encontrada")
  /\ delete_savings_goal 3 7 sample_goals
     = Throw (HTTPException 404 "Meta não encontrada").
Proof.
  apply (foreign_goal_not_found sample_goals
           (mkGoalRow 3 "carro" None None
              (mkSavingsGoal 8 900000 (Some 1000) (Some true))) 7 100);
    [apply sample_goals_unique|cbn; tauto|cbn; lia|lia].
Defined.

Lemma same_key_same_row (goals : list GoalRow) (x g : GoalRow) :
  goal_keys_unique goals -> In x goals -> In g goals ->
  goal_id x = goal_id g -> x = g.
Proof.
  unfold goal_keys_unique. intros Hnd Hx Hg Hid.
  apply in_split in Hg. destruct Hg as [l1 [l2 ->]].
  rewrite map_app in Hnd. cbn [map] in Hnd. apply NoDup_remove_2 in Hnd.
  apply in_app_or in Hx. cbn [In] in Hx.
  destruct Hx as [Hx|[Hx|Hx]]; [|now symmetry|];
    exfalso; apply Hnd; rewrite <- Hid, <- map_app; apply in_map;
    apply in_or_app; tauto.
Qed.

Lemma filter_absorb {A : Type} (p q : A -> bool) (l : list A) :
  (forall x, In x l -> p x = true -> q x = true) ->
  filter p (filter q l) = filter p l.
Proof.
  induction l as [|x l IH]; intros H; [reflexivity|]. cbn [filter].
  assert (IH' : filter p (filter q l) = filter p l)
    by (apply IH; intros y Hy; apply H; now right).
  destruct (q x) eqn:Hq; cbn [filter].
  - now rewrite IH'.
  - destruct (p x) eqn:Hp; [|exact IH'].
    rewrite (H x (or_introl eq_refl) Hp) in Hq. discriminate.
Qed.

Lemma delete_row_same_owner (goals : list GoalRow) (g : GoalRow) :
  goal_keys_unique goals -> In g goals ->
  forall other, other <> goal_user_id (columns g) ->
    goals_of other (delete_row goals (goal_id g)) = goals_of other goals.
Proof.
  intros Hnd Hin other Hother. unfold goals_of, delete_row.
  apply filter_absorb. intros x Hx Hown. apply Z.eqb_eq in Hown.
  destruct (Z.eqb_spec (goal_id x) (goal_id g)) as [Heq|]; [|reflexivity].
  exfalso. pose proof (same_key_same_row goals x g Hnd Hx Hin Heq).
  congruence.
Qed.

(** The goals of the other users: with unique keys, whatever a handler
    does for one user, the rows of every other user are afterwards what
    they were, in the same order. *)
Theorem other_users_goals_untouched (goals : list GoalRow)
    (id v user other : Z) :
  goal_keys_unique goals -> other <> user ->
  (forall pk data,
     match create_savings_goal pk data user goals with
     | Return (goals', _) => goals_of other goals' = goals_of other goals
     | Throw _ => True
     end)
  /\ match deposit_to_goal id v user goals with
     | Return (goals', _) => goals_of other goals' = goals_of other goals
     | Throw _ => True
     end
  /\ match withdraw_from_goal id v user goals with
     | Return (goals', _) => goals_of other goals' = goals_of other goals
     | Throw _ => True
     end
  /\ match complete_goal id user goals with
     | Return (goals', _) => goals_of other goals' = goals_of other goals
     | Throw _ => True
     end
  /\ match delete_savings_goal id user goals with
     | Return goals' => goals_of other goals' = goals_of other goals
     | Throw _ => True
     end.
Proof.
  intros Hnd Hother.
  split.
  { intros pk data.
    unfold create_savings_goal.
    destruct (Bodies.validate_SavingsGoalCreate data); [|exact I].
    cbn [bind]. unfold goals_of. rewrite filter_app. cbn [filter columns
      goal_user_id].
    destruct (Z.eqb_spec user other); [congruence|]. apply app_nil_r. }
  unfold deposit_to_goal, withdraw_from_goal, complete_goal,
    delete_savings_goal.
  destruct (Bodies.validate_valor v); cbn [bind].
  2:{ repeat split; destruct (find_goal goals id user) as [g|] eqn:Hfind;
        try exact I.
      - destruct (find_goal_some _ _ _ _ Hfind) as [Hin [_ Huser]].
        apply (update_row_same_owner goals g); try assumption; try reflexivity.
        congruence.
      - destruct (find_goal_some _ _ _ _ Hfind) as [Hin [_ Huser]].
        apply delete_row_same_owner; try assumption. congruence. }
  destruct (find_goal goals id user) as [g|] eqn:Hfind; [|repeat split].
  destruct (find_goal_some _ _ _ _ Hfind) as [Hin [_ Huser]].
  assert (Hupd : forall g', goal_id g' = goal_id g ->
            goal_user_id (columns g') = goal_user_id (columns g) ->
            goals_of other (update_row goals g') = goals_of other goals).
  { intros g' Hid Hown.
    apply (update_row_same_owner goals g); try assumption. congruence. }
  repeat split.
  - destruct (negb _); [exact I|].
    unfold current_value. destruct (valor_atual (columns g)); [|exact I].
    cbn [bind]. now apply Hupd.
  - unfold current_value. destruct (valor_atual (columns g)); [|exact I].
    cbn [bind]. destruct (v >? _); [exact I|]. now apply Hupd.
  - now apply Hupd.
  - apply delete_row_same_owner; try assumption. congruence.
Qed.

Lemma other_users_goals_untouched_witness :
  (forall pk data,
     match create_savings_goal pk data 7 sample_goals with
     | Return (goals', _) => goals_of 8 goals' = goals_of 8 sample_goals
     | Throw _ => True
     end)
  /\ match deposit_to_goal 1 5000 7 sample_goals with
     | Return (goals', _) => goals_of 8 goals' = goals_of 8 sample_goals
     | Throw _ => True
     end
  /\ match withdraw_from_goal 1 5000 7 sample_goals with
     | Return (goals', _) => goals_of 8 goals' = goals_of 8 sample_goals
     | Throw _ => True
     end
  /\ match complete_goal 1 7 sample_goals with
     | Return (goals', _) => goals_of 8 goals' = goals_of 8 sample_goals
     | Throw _ => True
     end
  /\ match delete_savings_goal 1 7 sample_goals with
     | Return goals' => goals_of 8 goals' = goals_of 8 sample_goals
     | Throw _ => True
     end.
Proof.
  apply other_users_goals_untouched; [apply sample_goals_unique|lia].
Defined.



End SavingsFacts.

(** ** The transactions *)

Module TransactionsFacts.
Import Calendar Models Dashboard Responses Transactions TransactionSamples.
Import CalendarFacts DateutilFacts SchedulerFacts DashboardFacts
  AggregatorFacts PlanFacts.

(** *** The request body *)

Lemma validate_TransactionCreate_ok (b : Bodies.TransactionCreate) :
  Bodies.validate_TransactionCreate b = Return tt ->
  0 <= Bodies.valor_total b
  /\ 1 <= Bodies.len (Bodies.descricao b) <= 255
  /\ 1 <= Bodies.len (Bodies.categoria b) <= 50
  /\ 1 <= Bodies.num_parcelas b <= 48
  /\ (Bodies.tipo b <> SAIDA_CREDITO -> Bodies.num_parcelas b = 1).
Proof.
  unfold Bodies.validate_TransactionCreate, Bodies.validate_parcelas.
  destruct (Z.leb_spec 0 (Bodies.valor_total b)); cbn [negb]; [|discriminate].
  destruct (Z.leb_spec 1 (Bodies.len (Bodies.descricao b)));
    cbn [negb andb]; [|discriminate].
  destruct (Z.leb_spec (Bodies.len (Bodies.descricao b)) 255);
    cbn [negb]; [|discriminate].
  destruct (Z.leb_spec 1 (Bodies.len (Bodies.categoria b)));
    cbn [negb andb]; [|discriminate].
  destruct (Z.leb_spec (Bodies.len (Bodies.categoria b)) 50);
    cbn [negb]; [|discriminate].
  destruct (Z.leb_spec 1 (Bodies.num_parcelas b));
    cbn [negb andb]; [|discriminate].
  destruct (Z.leb_spec (Bodies.num_parcelas b) 48);
    cbn [negb]; [|discriminate].
  destruct (Bodies.tipo b); cbn [tipo_eqb negb andb];
    destruct (Z.gtb_spec (Bodies.num_parcelas b) 1); try discriminate;
    intros _; repeat split; try lia; congruence.
Qed.

Lemma installment_rows_total (pk_of : Z -> Z) (pk : Z)
    (parcelas : list Utils.parcela) :
  sumZ valor_parcela (installment_rows pk_of pk parcelas)
  = soma_parcelas parcelas.
Proof.
  unfold installment_rows, soma_parcelas.
  rewrite sumZ_map, sum_map. reflexivity.
Qed.

Lemma installment_rows_parent (pk_of : Z -> Z) (pk : Z)
    (parcelas : list Utils.parcela) :
  forall i, In i (installment_rows pk_of pk parcelas) -> transacao_id i = pk.
Proof.
  intros i Hi. unfold installment_rows in Hi.
  apply in_map_iff in Hi. destruct Hi as [p [<- _]]. reflexivity.
Qed.

Lemma installment_rows_length (pk_of : Z -> Z) (pk : Z)
    (parcelas : list Utils.parcela) :
  List.length (installment_rows pk_of pk parcelas) = List.length parcelas.
Proof. unfold installment_rows. apply length_map. Qed.

Lemma installment_rows_In (pk_of : Z -> Z) (pk : Z)
    (parcelas : list Utils.parcela) (i : Installment) :
  In i (installment_rows pk_of pk parcelas)
  <-> exists p, In p parcelas
                /\ i = mkInstallment (pk_of (Utils.numero_parcela p)) pk
                         (Utils.numero_parcela p) (Utils.total_parcelas p)
                         (Utils.valor_parcela p) (Utils.data_vencimento p)
                         PENDENTE.
Proof.
  unfold installment_rows. rewrite in_map_iff.
  split; intros [p [H1 H2]]; exists p; split; auto.
Qed.

(** *** The response *)

Lemma answers_respond {A : Type} (valid : bool) (a : A) (passes : Prop) :
  (valid = true <-> passes) -> answers (respond valid a) a passes.
Proof.
  intros Hiff. unfold answers, respond. destruct valid; split; intros H.
  - reflexivity.
  - exfalso. apply H, Hiff. reflexivity.
  - apply Hiff in H. discriminate.
  - reflexivity.
Qed.

Lemma answers_iff {A : Type} (response : outcome A) (a : A) (P Q : Prop) :
  (P <-> Q) -> answers response a P -> answers response a Q.
Proof. unfold answers. intros HPQ [H1 H2]. split; intros H; tauto. Qed.

Lemma validate_InstallmentRead_iff (i : Installment) :
  validate_InstallmentRead i = true <-> installment_readable i.
Proof.
  unfold validate_InstallmentRead, installment_readable.
  rewrite !andb_true_iff, !Z.leb_le. tauto.
Qed.

Lemma validate_InstallmentRead_all (l : list Installment) :
  forallb validate_InstallmentRead l = true <-> Forall installment_readable l.
Proof.
  rewrite forallb_forall, Forall_forall.
  split; intros H i Hi; apply validate_InstallmentRead_iff, H, Hi.
Qed.

Lemma validate_TransactionRead_iff (db : Session) (t : Transaction) :
  validate_TransactionRead t (installments_of db t) = true
  <-> transaction_readable db t.
Proof.
  unfold validate_TransactionRead, transaction_readable.
  rewrite !andb_true_iff, !Z.leb_le, forallb_forall. split.
  - intros [[[Hv Hd] Hc] Hall].
    split; [tauto|]. split; [tauto|]. split; [tauto|].
    intros i Hi Hid. apply validate_InstallmentRead_iff, Hall.
    unfold installments_of. apply filter_In. split; [exact Hi|].
    now apply Z.eqb_eq.
  - intros [Hv [Hd [Hc Hall]]].
    split; [tauto|].
    intros i Hi. unfold installments_of in Hi. apply filter_In in Hi.
    destruct Hi as [Hi Hid]. apply Z.eqb_eq in Hid.
    apply validate_InstallmentRead_iff. now apply Hall.
Qed.

Lemma read_transaction_answers (db : Session) (t : Transaction) :
  answers (read_transaction db t) t (transaction_readable db t).
Proof. apply answers_respond, validate_TransactionRead_iff. Qed.

(** *** Creating a transaction *)

(** The transaction that [create_transaction] stores. *)
Lemma create_transaction_commits (pk : Z) (pk_of : Z -> Z)
    (data : Bodies.TransactionCreate) (user : Z) (db : Session) :
  Bodies.validate_TransactionCreate data = Return tt ->
  create_transaction pk pk_of data user db
  = (rows <- (if tipo_eqb (Bodies.tipo data) SAIDA_CREDITO
              then parcelas <- Utils.calcular_datas_parcelas
                                 (Bodies.data_compra data)
                                 (Bodies.num_parcelas data)
                                 (Bodies.valor_total data) ;;
                   Return (installment_rows pk_of pk parcelas)
              else Return []) ;;
     let t := mkTransaction pk user (Bodies.valor_total data)
                (Bodies.descricao data) (Bodies.categoria data)
                (Bodies.tipo data) (Bodies.data_compra data)
                (Bodies.num_parcelas data) (Bodies.notas data) in
     let db' := mkSession (transactions db ++ [t]) (installments db ++ rows)
                  (savings_goals db) in
     Return (db', read_transaction db' t)).
Proof.
  intros Hval. unfold create_transaction. rewrite Hval. cbn [bind].
  destruct (validate_TransactionCreate_ok data Hval) as [_ [_ [_ [Hn _]]]].
  destruct (Z.gtb_spec (Bodies.num_parcelas data) 0); [|lia].
  now rewrite andb_true_r.
Qed.

(** What [create_transaction] does: it raises before anything is written
    exactly when the body fails its checks, when it is a credit purchase
    of total 0, which the checks let through and the scheduler refuses
    with a [ValueError], when the [decimal] context raises, which takes a
    total of at least [10 ^ 24] cents, or when a due date of the plan
    would fall after the year 9999.  Otherwise it commits: the transaction
    is added with the key of the database, a credit purchase gets the
    installments of the scheduler, pending, which add up to the total when
    it is below [10 ^ 24] cents, and any other transaction gets none.  The
    response is the new transaction when it and its installments pass
    [TransactionRead], and a [ResponseValidationError] otherwise, after the
    commit. *)
Theorem create_transaction_cases (pk : Z) (pk_of : Z -> Z)
    (data : Bodies.TransactionCreate) (user : Z) (db : Session) :
  is_date (Bodies.data_compra data) ->
  match create_transaction pk pk_of data user db with
  | Return (db', response) =>
      let t := mkTransaction pk user (Bodies.valor_total data)
                 (Bodies.descricao data) (Bodies.categoria data)
                 (Bodies.tipo data) (Bodies.data_compra data)
                 (Bodies.num_parcelas data) (Bodies.notas data) in
      Bodies.validate_TransactionCreate data = Return tt
      /\ transactions db' = transactions db ++ [t]
      /\ savings_goals db' = savings_goals db
      /\ (Bodies.tipo data = SAIDA_CREDITO ->
          0 < Bodies.valor_total data
          /\ month_index (Bodies.data_compra data) + Bodies.num_parcelas data
             <= 12 * 10000
          /\ exists parcelas,
               Utils.calcular_datas_parcelas (Bodies.data_compra data)
                 (Bodies.num_parcelas data) (Bodies.valor_total data)
               = Return parcelas
               /\ installments db'
                  = installments db ++ installment_rows pk_of pk parcelas
               /\ List.length (installment_rows pk_of pk parcelas)
                  = Z.to_nat (Bodies.num_parcelas data)
               /\ (Bodies.valor_total data < 10 ^ 24 ->
                   sumZ valor_parcela (installment_rows pk_of pk parcelas)
                   = Bodies.valor_total data)
               /\ Forall (fun i => status_pagamento i = PENDENTE
                                   /\ transacao_id i = pk
                                   /\ is_date (data_vencimento i))
                    (installment_rows pk_of pk parcelas))
      /\ (Bodies.tipo data <> SAIDA_CREDITO ->
          installments db' = installments db)
      /\ answers response t (transaction_readable db' t)
  | Throw e =>
      Bodies.validate_TransactionCreate data = Throw e
      \/ (Bodies.validate_TransactionCreate data = Return tt
          /\ Bodies.tipo data = SAIDA_CREDITO
          /\ Bodies.valor_total data = 0
          /\ e = Builtin (ValueError "Valor total deve ser positivo"))
      \/ (Bodies.validate_TransactionCreate data = Return tt
          /\ Bodies.tipo data = SAIDA_CREDITO
          /\ 10 ^ 24 <= Bodies.valor_total data
          /\ (e = Overflow \/ e = InvalidOperation))
      \/ (Bodies.validate_TransactionCreate data = Return tt
          /\ Bodies.tipo data = SAIDA_CREDITO
          /\ 0 < Bodies.valor_total data
          /\ 12 * 10000
             < month_index (Bodies.data_compra data) + Bodies.num_parcelas data
          /\ e = Builtin (ValueError "year 10000 is out of range"))
  end.
Proof.
  intros Hd.
  destruct (Bodies.validate_TransactionCreate data) as [[]|e] eqn:Hval.
  2:{ unfold create_transaction. rewrite Hval. cbn [bind]. now left. }
  rewrite create_transaction_commits by exact Hval.
  destruct (validate_TransactionCreate_ok data Hval)
    as [Hv [_ [_ [Hn Hone]]]].
  destruct (Bodies.tipo data) eqn:Htipo; cbn [tipo_eqb bind].
  1,2: cbv zeta; cbn [transactions installments savings_goals];
    rewrite app_nil_r;
    (split; [reflexivity|]); (split; [reflexivity|]);
    (split; [reflexivity|]); (split; [discriminate|]);
    (split; [reflexivity|]); apply read_transaction_answers.
  destruct (Z.eq_dec (Bodies.valor_total data) 0) as [H0|Hpos].
  - unfold Utils.calcular_datas_parcelas.
    destruct (Z.ltb_spec (Bodies.num_parcelas data) 1); [lia|].
    destruct (Z.gtb_spec (Bodies.num_parcelas data) 48); [lia|].
    rewrite H0. change (0 <=? 0) with true. cbv iota. cbn [bind].
    right. left. repeat split.
  - pose proof (calcular_datas_parcelas_outcome (Bodies.data_compra data)
                  (Bodies.num_parcelas data) (Bodies.valor_total data)
                  Hd Hn ltac:(lia)) as Hout.
    destruct (Utils.calcular_datas_parcelas _ _ _) as [parcelas|e];
      cbn [bind].
    + destruct Hout as [Hlast [Hlen [Hall Hplan]]].
      cbv zeta; cbn [transactions installments savings_goals].
      split; [reflexivity|]. split; [reflexivity|]. split; [reflexivity|].
      split.
      { intros _. split; [lia|]. split; [exact Hlast|].
        exists parcelas. split; [reflexivity|]. split; [reflexivity|].
        split; [now rewrite installment_rows_length|].
        split.
        - intros Hsmall. rewrite installment_rows_total, (Hplan Hsmall).
          apply soma_parcelas_plan. lia.
        - apply Forall_forall. intros i Hi.
          apply installment_rows_In in Hi. destruct Hi as [p [Hp ->]].
          cbn [status_pagamento transacao_id data_vencimento].
          rewrite Forall_forall in Hall. destruct (Hall p Hp) as [Hdate _].
          repeat split; try reflexivity; apply Hdate. }
      split; [intros Hne; now contradiction Hne|].
      apply read_transaction_answers.
    + destruct Hout as [[Hbig He]|[Hlate ->]].
      * right; right; left. repeat split; assumption.
      * right; right; right. repeat split; try assumption; lia.
Qed.

Lemma sample_credit_date : is_date (Bodies.data_compra sample_credit).
Proof. apply sample_dates. Qed.

Lemma create_transaction_cases_witness :
  is_date (Bodies.data_compra sample_credit)
  /\ match create_transaction 9 (fun n => 20 + n) sample_credit 7
             Samples.sample_db with
     | Return (db', response) =>
         let t := mkTransaction 9 7 (Bodies.valor_total sample_credit)
                    (Bodies.descricao sample_credit)
                    (Bodies.categoria sample_credit)
                    (Bodies.tipo sample_credit)
                    (Bodies.data_compra sample_credit)
                    (Bodies.num_parcelas sample_credit)
                    (Bodies.notas sample_credit) in
         Bodies.validate_TransactionCreate sample_credit = Return tt
         /\ transactions db' = transactions Samples.sample_db ++ [t]
         /\ savings_goals db' = savings_goals Samples.sample_db
         /\ (Bodies.tipo sample_credit = SAIDA_CREDITO ->
             0 < Bodies.valor_total sample_credit
             /\ month_index (Bodies.data_compra sample_credit)
                + Bodies.num_parcelas sample_credit <= 12 * 10000
             /\ exists parcelas,
                  Utils.calcular_datas_parcelas
                    (Bodies.data_compra sample_credit)
                    (Bodies.num_parcelas sample_credit)
                    (Bodies.valor_total sample_credit)
                  = Return parcelas
                  /\ installments db'
                     = installments Samples.sample_db
                       ++ installment_rows (fun n => 20 + n) 9 parcelas
                  /\ List.length (installment_rows (fun n => 20 + n) 9 parcelas)
                     = Z.to_nat (Bodies.num_parcelas sample_credit)
                  /\ (Bodies.valor_total sample_credit < 10 ^ 24 ->
                      sumZ valor_parcela
                        (installment_rows (fun n => 20 + n) 9 parcelas)
                      = Bodies.valor_total sample_credit)
                  /\ Forall (fun i => status_pagamento i = PENDENTE
                                      /\ transacao_id i = 9
                                      /\ is_date (data_vencimento i))
                       (installment_rows (fun n => 20 + n) 9 parcelas))
         /\ (Bodies.tipo sample_credit <> SAIDA_CREDITO ->
             installments db' = installments Samples.sample_db)
         /\ answers response t (transaction_readable db' t)
     | Throw e =>
         Bodies.validate_TransactionCreate sample_credit = Throw e
         \/ (Bodies.validate_TransactionCreate sample_credit = Return tt
             /\ Bodies.tipo sample_credit = SAIDA_CREDITO
             /\ Bodies.valor_total sample_credit = 0
             /\ e = Builtin (ValueError "Valor total deve ser positivo"))
         \/ (Bodies.validate_TransactionCreate sample_credit = Return tt
             /\ Bodies.tipo sample_credit = SAIDA_CREDITO
             /\ 10 ^ 24 <= Bodies.valor_total sample_credit
             /\ (e = Overflow \/ e = InvalidOperation))
         \/ (Bodies.validate_TransactionCreate sample_credit = Return tt
             /\ Bodies.tipo sample_credit = SAIDA_CREDITO
             /\ 0 < Bodies.valor_total sample_credit
             /\ 12 * 10000
                < month_index (Bodies.data_compra sample_credit)
                  + Bodies.num_parcelas sample_credit
             /\ e = Builtin (ValueError "year 10000 is out of range"))
     end.
Proof.
  split; [apply sample_credit_date|].
  apply (create_transaction_cases 9 (fun n => 20 + n) sample_credit 7
           Samples.sample_db).
  apply sample_credit_date.
Defined.

(** *** A new purchase in the dashboard *)

Lemma sumZ_cons {A : Type} (h : A -> Z) (x : A) (l : list A) :
  sumZ h (x :: l) = h x + sumZ h l.
Proof. reflexivity. Qed.

(** A transaction stored under a new key passes [TransactionRead] when
    its own fields and the installments stored with it do. *)
Lemma new_transaction_readable (db : Session) (t : Transaction)
    (rows : list Installment) (txs : list Transaction)
    (goals : list SavingsGoal) :
  fresh_key db (id t) ->
  transaction_readable (mkSession txs (installments db ++ rows) goals) t
  <-> 0 <= valor_total t
      /\ 1 <= Bodies.len (descricao t) <= 255
      /\ 1 <= Bodies.len (categoria t) <= 50
      /\ forall i, In i rows -> transacao_id i = id t ->
           installment_readable i.
Proof.
  intros [_ Hunref]. unfold transaction_readable; cbn [installments].
  split; intros (H1 & H2 & H3 & H4);
    (split; [exact H1|]); (split; [exact H2|]); (split; [exact H3|]).
  - intros i Hi Hid. apply H4; [|exact Hid]. apply in_or_app. now right.
  - intros i Hi Hid. apply in_app_or in Hi. destruct Hi as [Hi|Hi].
    + exfalso. exact (Hunref i Hi Hid).
    + now apply H4.
Qed.

(** The stored installments of the plan of the specification pass
    [InstallmentRead] exactly when the last one is not negative. *)
Lemma plan_rows_readable (pk_of : Z -> Z) (pk : Z) (d : date) (n v : Z) :
  1 <= n -> 0 < v ->
  (forall i, In i (installment_rows pk_of pk
                     (map (plan_parcela d n v) (range n))) ->
             transacao_id i = pk -> installment_readable i)
  <-> 0 <= plan_amount v n (n - 1).
Proof.
  intros Hn Hv. split.
  - intros Hall.
    assert (Hin : In (plan_parcela d n v (n - 1))
                     (map (plan_parcela d n v) (range n))).
    { apply in_map. unfold range. apply in_map_iff.
      exists (Z.to_nat (n - 1)). split; [lia|]. apply in_seq. lia. }
    assert (Hrow : In (mkInstallment (pk_of (n - 1 + 1)) pk (n - 1 + 1) n
                         (plan_amount v n (n - 1))
                         (add_months_spec d (n - 1)) PENDENTE)
                      (installment_rows pk_of pk
                         (map (plan_parcela d n v) (range n)))).
    { apply installment_rows_In. eexists. split; [exact Hin|reflexivity]. }
    destruct (Hall _ Hrow eq_refl) as [_ [_ Hlast]]. exact Hlast.
  - intros Hlast i Hi _.
    apply installment_rows_In in Hi. destruct Hi as [p [Hp ->]].
    apply in_map_iff in Hp. destruct Hp as [j [<- Hj]].
    apply in_map_iff in Hj. destruct Hj as [k [<- Hk]]. apply in_seq in Hk.
    unfold installment_readable, plan_parcela;
      cbn [numero_parcela total_parcelas valor_parcela
           Utils.numero_parcela Utils.total_parcelas Utils.valor_parcela].
    split; [lia|]. split; [lia|].
    destruct (Z.eq_dec (Z.of_nat k) (n - 1)) as [->|Hne]; [exact Hlast|].
    rewrite plan_amount_before_last by exact Hne.
    pose proof (div_quantize_half_up_spec v n Hv ltac:(lia)) as Hb.
    unfold is_round_half_up in Hb. nia.
Qed.

(** The amounts of the stored installments of a plan that are due in a
    period. *)
Lemma plan_due_in (pk_of : Z -> Z) (pk : Z) (d : date) (n v mes ano : Z) :
  1 <= month d <= 12 -> 1 <= n ->
  sumZ valor_parcela
    (filter (fun i => in_period (data_vencimento i) mes ano)
       (installment_rows pk_of pk (map (plan_parcela d n v) (range n))))
  = let k := 12 * ano + (mes - 1) - month_index d in
    if ((1 <=? mes) && (mes <=? 12)) && ((0 <=? k) && (k <? n))
    then plan_amount v n k else 0.
Proof.
  intros Hd Hn. unfold installment_rows.
  rewrite map_map, filter_map_swap.
  rewrite (filter_ext _
             (fun i => in_period (add_months_spec d i) mes ano))
    by (intros i; reflexivity).
  rewrite (plan_filter d n mes ano) by lia. cbv zeta.
  set (k := 12 * ano + (mes - 1) - month_index d).
  destruct (((1 <=? mes) && (mes <=? 12)) && ((0 <=? k) && (k <? n)));
    [|reflexivity].
  cbn [map]. rewrite sumZ_cons. cbn [sumZ fold_right valor_parcela].
  unfold plan_parcela; cbn [Utils.valor_parcela]. lia.
Qed.

(** A credit purchase in the dashboard: an accepted credit purchase of
    less than [10 ^ 24] cents whose last due date is not after December
    9999, created under a new key, is committed; the response is the new
    transaction when the last installment of the plan is not negative,
    and a [ResponseValidationError] when it is; the summary of a period
    has the income it had, and its expenses are higher by the one
    installment of the purchase that is due in the period, when the
    period is one of the [count] months that start with the month of the
    purchase, and are what they were otherwise. *)
Theorem credit_purchase_in_dashboard (pk : Z) (pk_of : Z -> Z)
    (data : Bodies.TransactionCreate) (user : Z) (db : Session)
    (mes ano : Z) :
  Bodies.validate_TransactionCreate data = Return tt ->
  Bodies.tipo data = SAIDA_CREDITO ->
  0 < Bodies.valor_total data < 10 ^ 24 ->
  is_date (Bodies.data_compra data) ->
  month_index (Bodies.data_compra data) + Bodies.num_parcelas data
  <= 12 * 10000 ->
  fresh_key db pk ->
  1 <= mes <= 12 -> 2000 <= ano ->
  exists db' response s s',
    create_transaction pk pk_of data user db = Return (db', response)
    /\ answers response
         (mkTransaction pk user (Bodies.valor_total data)
            (Bodies.descricao data) (Bodies.categoria data)
            (Bodies.tipo data) (Bodies.data_compra data)
            (Bodies.num_parcelas data) (Bodies.notas data))
         (0 <= plan_amount (Bodies.valor_total data)
                 (Bodies.num_parcelas data) (Bodies.num_parcelas data - 1))
    /\ get_dashboard_summary mes ano user db = Ok s
    /\ get_dashboard_summary mes ano user db' = Ok s'
    /\ Schemas.total_entradas s' = Schemas.total_entradas s
    /\ Schemas.total_guardado s' = Schemas.total_guardado s
    /\ let k := 12 * ano + (mes - 1) - month_index (Bodies.data_compra data) in
       Schemas.total_saidas s'
       = Schemas.total_saidas s
         + (if (0 <=? k) && (k <? Bodies.num_parcelas data)
            then plan_amount (Bodies.valor_total data)
                   (Bodies.num_parcelas data) k
            else 0).
Proof.
  intros Hval Hcredit Hv Hd Hlast Hkey Hmes Hano.
  pose proof Hkey as [Hfresh Hunref].
  destruct (validate_TransactionCreate_ok data Hval)
    as [_ [Hdesc [Hcat [Hn _]]]].
  rewrite create_transaction_commits by exact Hval.
  rewrite Hcredit. cbn [tipo_eqb].
  rewrite calcular_datas_parcelas_plan by assumption. cbn [bind]. cbv zeta.
  set (t := mkTransaction pk user _ _ _ _ _ _ _).
  set (rows := installment_rows pk_of pk _).
  do 4 eexists. split; [reflexivity|].
  split.
  { apply (answers_iff _ _
             (transaction_readable
                (mkSession (transactions db ++ [t]) (installments db ++ rows)
                   (savings_goals db)) t));
      [|apply read_transaction_answers].
    rewrite (new_transaction_readable db t rows) by exact Hkey.
    pose proof (plan_rows_readable pk_of pk (Bodies.data_compra data)
                  (Bodies.num_parcelas data) (Bodies.valor_total data)
                  ltac:(lia) ltac:(lia)) as Hrows.
    unfold rows, t; cbn [id valor_total descricao categoria].
    split.
    - intros (_ & _ & _ & H). apply Hrows, H.
    - intros H. split; [lia|]. split; [lia|]. split; [lia|].
      apply Hrows, H. }
  split; [apply get_dashboard_summary_accepts; assumption|].
  split; [apply get_dashboard_summary_accepts; assumption|].
  cbn [Schemas.total_entradas Schemas.total_guardado Schemas.total_saidas].
  change (mkSession (transactions db ++ [t]) (installments db ++ rows)
            (savings_goals db))
    with (add_credit_purchase db t rows).
  assert (Hparent : forall i, In i rows -> transacao_id i = id t)
    by apply installment_rows_parent.
  split; [apply (credit_purchase_entradas db t rows); reflexivity|].
  split; [reflexivity|].
  rewrite (credit_purchase_debito db t rows) by reflexivity.
  rewrite (credit_purchase_parcelas db t rows user); auto.
  unfold rows. rewrite plan_due_in by (destruct Hd as [[? ?] _]; lia).
  cbv zeta.
  destruct (Z.leb_spec 1 mes); [|lia].
  destruct (Z.leb_spec mes 12); [|lia]. cbn [andb]. lia.
Qed.

Lemma sample_fresh_key : fresh_key Samples.sample_db 9.
Proof.
  split; intros x Hx; simpl in Hx;
    repeat (destruct Hx as [<-|Hx]; [simpl; lia|]); contradiction.
Qed.

Lemma credit_purchase_in_dashboard_witness :
  exists db' response s s',
    create_transaction 9 (fun n => 20 + n) sample_credit 7 Samples.sample_db
    = Return (db', response)
    /\ answers response
         (mkTransaction 9 7 (Bodies.valor_total sample_credit)
            (Bodies.descricao sample_credit) (Bodies.categoria sample_credit)
            (Bodies.tipo sample_credit) (Bodies.data_compra sample_credit)
            (Bodies.num_parcelas sample_credit) (Bodies.notas sample_credit))
         (0 <= plan_amount (Bodies.valor_total sample_credit)
                 (Bodies.num_parcelas sample_credit)
                 (Bodies.num_parcelas sample_credit - 1))
    /\ get_dashboard_summary 3 2024 7 Samples.sample_db = Ok s
    /\ get_dashboard_summary 3 2024 7 db' = Ok s'
    /\ Schemas.total_entradas s' = Schemas.total_entradas s
    /\ Schemas.total_guardado s' = Schemas.total_guardado s
    /\ let k := 12 * 2024 + (3 - 1)
                - month_index (Bodies.data_compra sample_credit) in
       Schemas.total_saidas s'
       = Schemas.total_saidas s
         + (if (0 <=? k) && (k <? Bodies.num_parcelas sample_credit)
            then plan_amount (Bodies.valor_total sample_credit)
                   (Bodies.num_parcelas sample_credit) k
            else 0).
Proof.
  apply credit_purchase_in_dashboard;
    try reflexivity; try lia;
    [|apply sample_credit_date|vm_compute; discriminate
     |apply sample_fresh_key].
  split; [reflexivity|reflexivity].
Defined.

(** A transaction without installments, stored under a key that no
    installment names. *)
Lemma new_transaction_parcelas (db : Session) (t : Transaction)
    (uid mes ano : Z) :
  (forall i, In i (installments db) -> transacao_id i <> id t) ->
  query_total_parcelas
    (mkSession (transactions db ++ [t]) (installments db) (savings_goals db))
    uid mes ano
  = query_total_parcelas db uid mes ano.
Proof.
  intros Hunref. rewrite !query_total_parcelas_sum. cbn [transactions installments].
  apply sumZ_ext_in. intros i Hi. rewrite sumZ_app, sumZ_cons. cbn [sumZ fold_right].
  unfold due_amount at 2.
  destruct (Z.eqb_spec (id t) (transacao_id i)) as [Heq|_].
  - exfalso. apply (Hunref i Hi). congruence.
  - cbn [andb]. lia.
Qed.

Lemma new_transaction_of (db : Session) (t : Transaction)
    (ins : list Installment) (uid : Z) (ty : TransactionType) (mes ano : Z) :
  sumZ valor_total
    (transactions_of (mkSession (transactions db ++ [t]) ins (savings_goals db))
       uid ty mes ano)
  = sumZ valor_total (transactions_of db uid ty mes ano)
    + (if (user_id t =? uid) && tipo_eqb (tipo t) ty
          && in_period (data_compra t) mes ano
       then valor_total t else 0).
Proof.
  unfold transactions_of; cbn [transactions].
  rewrite filter_app, sumZ_app. cbn [filter].
  destruct ((user_id t =? uid) && tipo_eqb (tipo t) ty
            && in_period (data_compra t) mes ano); cbn; lia.
Qed.

(** An income or a debit expense in the dashboard: an accepted
    transaction that is not a credit purchase, created under a new key,
    is committed and returned; no installment is stored; the summary of
    the period of its date has its amount added to the income, or to the
    expenses, and the summary of every other period is what it was. *)
Theorem simple_transaction_in_dashboard (pk : Z) (pk_of : Z -> Z)
    (data : Bodies.TransactionCreate) (user : Z) (db : Session)
    (mes ano : Z) :
  Bodies.validate_TransactionCreate data = Return tt ->
  Bodies.tipo data <> SAIDA_CREDITO ->
  fresh_key db pk ->
  1 <= mes <= 12 -> 2000 <= ano ->
  exists db' t s s',
    create_transaction pk pk_of data user db = Return (db', Return t)
    /\ installments db' = installments db
    /\ get_dashboard_summary mes ano user db = Ok s
    /\ get_dashboard_summary mes ano user db' = Ok s'
    /\ let here := in_period (Bodies.data_compra data) mes ano in
       Schemas.total_entradas s'
       = Schemas.total_entradas s
         + (if here && tipo_eqb (Bodies.tipo data) ENTRADA
            then Bodies.valor_total data else 0)
       /\ Schemas.total_saidas s'
          = Schemas.total_saidas s
            + (if here && tipo_eqb (Bodies.tipo data) SAIDA_DEBITO
               then Bodies.valor_total data else 0).
Proof.
  intros Hval Htipo Hkey Hmes Hano.
  pose proof Hkey as [_ Hunref].
  destruct (validate_TransactionCreate_ok data Hval)
    as [Hv [Hdesc [Hcat _]]].
  rewrite create_transaction_commits by exact Hval.
  assert (Hnot : tipo_eqb (Bodies.tipo data) SAIDA_CREDITO = false)
    by (destruct (Bodies.tipo data); try reflexivity; congruence).
  rewrite Hnot. cbn [bind]. cbv zeta.
  set (t := mkTransaction pk user _ _ _ _ _ _ _).
  assert (Hread : read_transaction
                    (mkSession (transactions db ++ [t]) (installments db ++ [])
                       (savings_goals db)) t = Return t).
  { apply (proj1 (read_transaction_answers _ t)).
    apply (new_transaction_readable db t []); [exact Hkey|].
    unfold t; cbn [valor_total descricao categoria].
    split; [lia|]. split; [lia|]. split; [lia|]. intros i []. }
  rewrite Hread, app_nil_r.
  do 4 eexists. split; [reflexivity|]. split; [reflexivity|].
  split; [apply get_dashboard_summary_accepts; assumption|].
  split; [apply get_dashboard_summary_accepts; assumption|].
  cbn [Schemas.total_entradas Schemas.total_saidas]. cbv zeta.
  rewrite new_transaction_parcelas by exact Hunref.
  rewrite !query_total_entradas_sum, !query_total_debito_sum.
  rewrite !new_transaction_of. unfold t.
  cbn [user_id tipo data_compra valor_total].
  rewrite Z.eqb_refl. cbn [andb].
  rewrite !(andb_comm (tipo_eqb _ _)).
  split; lia.
Qed.

Lemma simple_transaction_in_dashboard_witness :
  exists db' t s s',
    create_transaction 9 (fun n => 20 + n) sample_debit 7 Samples.sample_db
    = Return (db', Return t)
    /\ installments db' = installments Samples.sample_db
    /\ get_dashboard_summary 2 2024 7 Samples.sample_db = Ok s
    /\ get_dashboard_summary 2 2024 7 db' = Ok s'
    /\ let here := in_period (Bodies.data_compra sample_debit) 2 2024 in
       Schemas.total_entradas s'
       = Schemas.total_entradas s
         + (if here && tipo_eqb (Bodies.tipo sample_debit) ENTRADA
            then Bodies.valor_total sample_debit else 0)
       /\ Schemas.total_saidas s'
          = Schemas.total_saidas s
            + (if here && tipo_eqb (Bodies.tipo sample_debit) SAIDA_DEBITO
               then Bodies.valor_total sample_debit else 0).
Proof.
  apply simple_transaction_in_dashboard;
    try reflexivity; try lia; [discriminate|apply sample_fresh_key].
Defined.

(** *** Deleting what was created *)

Lemma find_app_none {A : Type} (p : A -> bool) (l l' : list A) :
  Forall (fun x => p x = false) l -> find p (l ++ l') = find p l'.
Proof.
  induction 1 as [|x l Hx Hl IH]; cbn [app find]; [reflexivity|].
  now rewrite Hx.
Qed.

Lemma filter_none {A : Type} (p : A -> bool) (l : list A) :
  Forall (fun x => p x = false) l -> filter p l = [].
Proof.
  induction 1 as [|x l Hx Hl IH]; cbn [filter]; [reflexivity|].
  now rewrite Hx.
Qed.

Lemma filter_all {A : Type} (p : A -> bool) (l : list A) :
  Forall (fun x => p x = true) l -> filter p l = l.
Proof.
  induction 1 as [|x l Hx Hl IH]; cbn [filter]; [reflexivity|].
  now rewrite Hx, IH.
Qed.

Lemma session_eta (db : Session) :
  mkSession (transactions db) (installments db) (savings_goals db) = db.
Proof. destruct db; reflexivity. Qed.

(** Deleting the transaction of key [pk] from a database to which it and
    its installments were just added. *)
Lemma delete_added (db : Session) (t : Transaction)
    (rows : list Installment) (user : Z) :
  fresh_key db (id t) -> user_id t = user ->
  (forall i, In i rows -> transacao_id i = id t) ->
  delete_transaction (id t) user
    (mkSession (transactions db ++ [t]) (installments db ++ rows)
       (savings_goals db))
  = Return db.
Proof.
  intros [Hfresh Hunref] Huser Hparent.
  unfold delete_transaction, find_transaction; cbn [transactions installments
    savings_goals].
  rewrite find_app_none.
  2:{ apply Forall_forall. intros x Hx.
      destruct (Z.eqb_spec (id x) (id t)) as [Heq|]; [|reflexivity].
      exfalso. now apply (Hfresh x Hx). }
  cbn [find]. rewrite Huser, !Z.eqb_refl. cbn [andb].
  rewrite !filter_app. cbn [filter]. rewrite Z.eqb_refl. cbn [negb].
  rewrite (filter_all _ (transactions db)), (filter_all _ (installments db)),
    (filter_none _ rows), !app_nil_r.
  - now rewrite session_eta.
  - apply Forall_forall. intros i Hi. rewrite (Hparent i Hi), Z.eqb_refl.
    reflexivity.
  - apply Forall_forall. intros i Hi.
    destruct (Z.eqb_spec (transacao_id i) (id t)) as [Heq|]; [|reflexivity].
    exfalso. now apply (Hunref i Hi).
  - apply Forall_forall. intros x Hx.
    destruct (Z.eqb_spec (id x) (id t)) as [Heq|]; [|reflexivity].
    exfalso. now apply (Hfresh x Hx).
Qed.

(** Creating and deleting: when [create_transaction] has committed a
    transaction under a new key, whatever becomes of its response,
    [delete_transaction] of that key by the same user removes the
    transaction and all its installments, and the database is again what it
    was before; a transaction that is returned has that key. *)
Theorem create_then_delete (pk : Z) (pk_of : Z -> Z)
    (data : Bodies.TransactionCreate) (user : Z) (db db' : Session)
    (response : outcome Transaction) :
  fresh_key db pk ->
  create_transaction pk pk_of data user db = Return (db', response) ->
  delete_transaction pk user db' = Return db
  /\ forall t, response = Return t -> id t = pk.
Proof.
  intros Hfresh.
  destruct (Bodies.validate_TransactionCreate data) as [[]|e] eqn:Hval.
  2:{ unfold create_transaction. rewrite Hval. cbn [bind]. discriminate. }
  rewrite create_transaction_commits by exact Hval.
  set (t0 := mkTransaction pk user _ _ _ _ _ _ _).
  assert (Hid : forall db0 t, read_transaction db0 t0 = Return t -> id t = pk).
  { intros db0 t. unfold read_transaction, respond.
    destruct (validate_TransactionRead _ _); [|discriminate].
    intros H. now injection H as <-. }
  destruct (tipo_eqb (Bodies.tipo data) SAIDA_CREDITO).
  - destruct (Utils.calcular_datas_parcelas _ _ _) as [parcelas|e];
      cbn [bind]; [|discriminate].
    cbv zeta. intros H. injection H as <- <-. split; [|apply Hid].
    apply (delete_added db t0 (installment_rows pk_of pk parcelas) user);
      [exact Hfresh|reflexivity|apply installment_rows_parent].
  - cbn [bind]. cbv zeta. intros H. injection H as <- <-. split; [|apply Hid].
    apply (delete_added db t0 [] user); [exact Hfresh|reflexivity|].
    intros i [].
Qed.

Lemma create_then_delete_witness :
  exists db' response,
    create_transaction 9 (fun n => 20 + n) sample_credit 7 Samples.sample_db
    = Return (db', response)
    /\ delete_transaction 9 7 db' = Return Samples.sample_db
    /\ forall t, response = Return t -> id t = 9.
Proof.
  do 2 eexists. split; [vm_compute; reflexivity|].
  apply (create_then_delete 9 (fun n => 20 + n) sample_credit 7
           Samples.sample_db);
    [apply sample_fresh_key|vm_compute; reflexivity].
Defined.

(** *** The status of an installment *)

Section MappedInstallments.
Variables (f : Installment -> Installment) (ts : list Transaction).
Variable (l : list Installment).
Hypothesis Hsame :
  forall i, In i l ->
    transacao_id (f i) = transacao_id i
    /\ valor_parcela (f i) = valor_parcela i
    /\ data_vencimento (f i) = data_vencimento i.

Lemma due_amount_mapped (uid mes ano : Z) :
  sumZ (fun i => sumZ (due_amount uid mes ano i) ts) (map f l)
  = sumZ (fun i => sumZ (due_amount uid mes ano i) ts) l.
Proof.
  rewrite sumZ_map. apply sumZ_ext_in. intros i Hi.
  destruct (Hsame i Hi) as [H1 [H2 H3]].
  apply sumZ_ext_in. intros t _. unfold due_amount.
  now rewrite H1, H2, H3.
Qed.

Lemma credit_rows_mapped (t : Transaction) (uid mes ano : Z) :
  map (fun ti : Transaction * Installment =>
         (categoria (fst ti), valor_parcela (snd ti)))
      (filter (fun ti => (user_id (fst ti) =? uid)
                         && in_period (data_vencimento (snd ti)) mes ano)
              (map (pair t)
                 (filter (fun i => id t =? transacao_id i) (map f l))))
  = map (fun ti : Transaction * Installment =>
           (categoria (fst ti), valor_parcela (snd ti)))
        (filter (fun ti => (user_id (fst ti) =? uid)
                           && in_period (data_vencimento (snd ti)) mes ano)
                (map (pair t) (filter (fun i => id t =? transacao_id i) l))).
Proof.
  revert Hsame. induction l as [|i l' IH]; intros Hsame'; [reflexivity|].
  destruct (Hsame' i (or_introl eq_refl)) as [H1 [H2 H3]].
  assert (IH' := IH (fun x Hx => Hsame' x (or_intror Hx))).
  cbn [map filter]. rewrite H1.
  destruct (id t =? transacao_id i); [|exact IH'].
  cbn [map filter fst snd]. rewrite H3.
  destruct ((user_id t =? uid) && in_period (data_vencimento i) mes ano);
    [|exact IH'].
  cbn [map fst snd]. now rewrite H2, IH'.
Qed.
End MappedInstallments.

(** The dashboard reads the parent, the amount and the due date of an
    installment, and nothing else of it. *)
Lemma dashboard_ignores_status (db : Session)
    (f : Installment -> Installment) (mes ano uid : Z) :
  (forall i, In i (installments db) ->
     transacao_id (f i) = transacao_id i
     /\ valor_parcela (f i) = valor_parcela i
     /\ data_vencimento (f i) = data_vencimento i) ->
  let db' := mkSession (transactions db) (map f (installments db))
               (savings_goals db) in
  get_dashboard_summary mes ano uid db' = get_dashboard_summary mes ano uid db
  /\ get_expenses_by_category mes ano uid db'
     = get_expenses_by_category mes ano uid db.
Proof.
  intros Hsame db'.
  assert (Hparcelas : query_total_parcelas db' uid mes ano
                      = query_total_parcelas db uid mes ano).
  { rewrite !query_total_parcelas_sum. apply due_amount_mapped, Hsame. }
  assert (Hcredit : query_credit_by_category db' uid mes ano
                    = query_credit_by_category db uid mes ano).
  { unfold query_credit_by_category, transactions_join_installments.
    f_equal. unfold db'. cbn [transactions installments].
    clear Hparcelas db'.
    generalize (transactions db) as ts.
    induction ts as [|t ts IH]; [reflexivity|].
    cbn [flat_map]. rewrite !filter_app, !map_app. f_equal; [|exact IH].
    apply credit_rows_mapped, Hsame. }
  split.
  - unfold get_dashboard_summary. rewrite Hparcelas. reflexivity.
  - unfold get_expenses_by_category. rewrite Hcredit. reflexivity.
Qed.

Lemma same_installment_key (db : Session) (x y : Installment) :
  installment_keys_unique db ->
  In x (installments db) -> In y (installments db) ->
  installment_id x = installment_id y -> x = y.
Proof.
  unfold installment_keys_unique. intros Hnd Hx Hy Hid.
  apply in_split in Hy. destruct Hy as [l1 [l2 Heq]]. rewrite Heq in *.
  rewrite map_app in Hnd. cbn [map] in Hnd. apply NoDup_remove_2 in Hnd.
  apply in_app_or in Hx. cbn [In] in Hx.
  destruct Hx as [Hx|[Hx|Hx]]; [|now symmetry|];
    exfalso; apply Hnd; rewrite <- Hid, <- map_app; apply in_map;
    apply in_or_app; tauto.
Qed.

Lemma join_member (db : Session) (i : Installment) (t : Transaction) :
  In (i, t) (installments_join_transactions db) ->
  In i (installments db) /\ In t (transactions db)
  /\ id t = transacao_id i.
Proof.
  unfold installments_join_transactions. intros H.
  apply in_flat_map in H. destruct H as [i' [Hi' H]].
  apply in_map_iff in H. destruct H as [t' [Heq Ht']].
  injection Heq as -> ->. apply filter_In in Ht'.
  destruct Ht' as [Ht' Hid]. apply Z.eqb_eq in Hid. tauto.
Qed.

(** Paying an installment does not move the dashboard: with unique
    installment keys, [update_installment_status] either answers 404,
    before anything is written, or commits the status of the installment
    of that key, and then the summary and the category breakdown of every
    period and every user are what they were: an installment counts as an
    expense of its month whatever its status.  The response is the
    installment when it passes [InstallmentRead], and a
    [ResponseValidationError] otherwise, as for an installment of a
    negative amount. *)
Theorem status_update_keeps_dashboard (db : Session)
    (installment_id : Z) (status_data : PaymentStatus) (user : Z) :
  installment_keys_unique db ->
  match update_installment_status installment_id status_data user db with
  | Return (db', response) =>
      exists i',
        Models.installment_id i' = installment_id
        /\ status_pagamento i' = status_data
        /\ In i' (installments db')
        /\ transactions db' = transactions db
        /\ (forall mes ano uid,
              get_dashboard_summary mes ano uid db'
              = get_dashboard_summary mes ano uid db
              /\ get_expenses_by_category mes ano uid db'
                 = get_expenses_by_category mes ano uid db)
        /\ answers response i' (installment_readable i')
  | Throw e => e = HTTPException 404 "Parcela não encontrada"
  end.
Proof.
  intros Hnd. unfold update_installment_status.
  destruct (find _ (installments_join_transactions db)) as [[i t]|] eqn:Hfind;
    [|reflexivity].
  apply find_some in Hfind. destruct Hfind as [Hin Hp]. cbn [fst snd] in Hp.
  apply andb_true_iff in Hp. destruct Hp as [Hid _]. apply Z.eqb_eq in Hid.
  destruct (join_member db i t Hin) as [Hi _].
  set (i' := with_status i status_data).
  assert (Hkey : Models.installment_id i' = Models.installment_id i)
    by reflexivity.
  exists i'.
  split; [exact Hid|]. split; [reflexivity|].
  split.
  { cbn [installments]. apply in_map_iff. exists i. split; [|exact Hi].
    cbn beta. now rewrite Hkey, Z.eqb_refl. }
  split; [reflexivity|].
  split; [|apply answers_respond, validate_InstallmentRead_iff].
  intros mes ano uid.
  apply (dashboard_ignores_status db
           (fun x => if Models.installment_id x =? Models.installment_id i'
                     then i' else x) mes ano uid).
  intros x Hx. cbn beta. rewrite Hkey.
  destruct (Z.eqb_spec (Models.installment_id x) (Models.installment_id i))
    as [Heq|]; [|repeat split].
  rewrite (same_installment_key db x i Hnd Hx Hi Heq). repeat split.
Qed.

Lemma status_update_keeps_dashboard_witness :
  match update_installment_status 12 PAGO 7 Samples.sample_db with
  | Return (db', response) =>
      exists i',
        Models.installment_id i' = 12
        /\ status_pagamento i' = PAGO
        /\ In i' (installments db')
        /\ transactions db' = transactions Samples.sample_db
        /\ (forall mes ano uid,
              get_dashboard_summary mes ano uid db'
              = get_dashboard_summary mes ano uid Samples.sample_db
              /\ get_expenses_by_category mes ano uid db'
                 = get_expenses_by_category mes ano uid Samples.sample_db)
        /\ answers response i' (installment_readable i')
  | Throw e => e = HTTPException 404 "Parcela não encontrada"
  end.
Proof.
  apply status_update_keeps_dashboard.
  unfold installment_keys_unique. cbn.
  repeat constructor; cbn; intuition discriminate.
Defined.

(** *** Editing a transaction *)

Lemma same_transaction_key (db : Session) (x y : Transaction) :
  transaction_keys_unique db ->
  In x (transactions db) -> In y (transactions db) ->
  id x = id y -> x = y.
Proof.
  unfold transaction_keys_unique. intros Hnd Hx Hy Hid.
  apply in_split in Hy. destruct Hy as [l1 [l2 Heq]]. rewrite Heq in *.
  rewrite map_app in Hnd. cbn [map] in Hnd. apply NoDup_remove_2 in Hnd.
  apply in_app_or in Hx. cbn [In] in Hx.
  destruct Hx as [Hx|[Hx|Hx]]; [|now symmetry|];
    exfalso; apply Hnd; rewrite <- Hid, <- map_app; apply in_map;
    apply in_or_app; tauto.
Qed.

(** The summary reads the key, the owner, the amount, the type and the
    date of a transaction, and nothing else of it. *)
Lemma summary_ignores_text (db : Session) (g : Transaction -> Transaction)
    (mes ano uid : Z) :
  (forall t, In t (transactions db) ->
     id (g t) = id t /\ user_id (g t) = user_id t
     /\ valor_total (g t) = valor_total t /\ tipo (g t) = tipo t
     /\ data_compra (g t) = data_compra t) ->
  get_dashboard_summary mes ano uid
    (mkSession (map g (transactions db)) (installments db) (savings_goals db))
  = get_dashboard_summary mes ano uid db.
Proof.
  intros Hsame.
  set (db' := mkSession (map g (transactions db)) (installments db)
                (savings_goals db)).
  assert (Hof : forall ty,
            sumZ valor_total (transactions_of db' uid ty mes ano)
            = sumZ valor_total (transactions_of db uid ty mes ano)).
  { intros ty. unfold transactions_of, db'; cbn [transactions].
    rewrite !sumZ_filter, sumZ_map. apply sumZ_ext_in. intros t Ht.
    destruct (Hsame t Ht) as [_ [H2 [H3 [H4 H5]]]].
    now rewrite H2, H3, H4, H5. }
  assert (Hparcelas : query_total_parcelas db' uid mes ano
                      = query_total_parcelas db uid mes ano).
  { rewrite !query_total_parcelas_sum. unfold db'; cbn [transactions installments].
    apply sumZ_ext_in. intros i _. rewrite sumZ_map.
    apply sumZ_ext_in. intros t Ht.
    destruct (Hsame t Ht) as [H1 [H2 _]].
    unfold due_amount. now rewrite H1, H2. }
  unfold get_dashboard_summary.
  rewrite !query_total_entradas_sum, !query_total_debito_sum, !Hof, Hparcelas.
  reflexivity.
Qed.

(** Editing keeps the amounts: with unique transaction keys,
    [update_transaction] either refuses the body or answers 404, before
    anything is written, or commits the description, the category and the
    notes that the body gives and nothing else: amount, type, date and
    installments stay, and the summary of every period and every user is
    what it was.  The response is the transaction when it passes
    [TransactionRead], and a [ResponseValidationError] otherwise: a body
    with an empty description or an empty category is accepted, committed
    and then refused. *)
Theorem update_transaction_keeps_amounts (db : Session) (transaction_id : Z)
    (data : Bodies.TransactionUpdate) (user : Z) :
  transaction_keys_unique db ->
  match update_transaction transaction_id data user db with
  | Return (db', response) =>
      exists t t',
        find_transaction db transaction_id user = Some t
        /\ t' = mkTransaction transaction_id user (valor_total t)
                  (match Bodies.upd_descricao data with
                   | Some s => s
                   | None => descricao t
                   end)
                  (match Bodies.upd_categoria data with
                   | Some s => s
                   | None => categoria t
                   end)
                  (tipo t) (data_compra t) (num_parcelas t)
                  (match Bodies.upd_notas data with
                   | Some s => Some s
                   | None => notas t
                   end)
        /\ In t' (transactions db')
        /\ installments db' = installments db
        /\ (forall mes ano uid,
              get_dashboard_summary mes ano uid db'
              = get_dashboard_summary mes ano uid db)
        /\ answers response t' (transaction_readable db t')
        /\ (Bodies.upd_descricao data = Some EmptyString
            \/ Bodies.upd_categoria data = Some EmptyString ->
            response = Throw ResponseValidationError)
  | Throw e =>
      Bodies.validate_TransactionUpdate data = Throw e
      \/ (find_transaction db transaction_id user = None
          /\ e = HTTPException 404 "Transação não encontrada")
  end.
Proof.
  intros Hnd. unfold update_transaction.
  destruct (Bodies.validate_TransactionUpdate data) as [[]|e];
    cbn [bind]; [|now left].
  destruct (find_transaction db transaction_id user) as [t|] eqn:Hfind;
    [|right; split; reflexivity].
  pose proof Hfind as Hfound. unfold find_transaction in Hfound.
  apply find_some in Hfound. destruct Hfound as [Hin Hp].
  apply andb_true_iff in Hp. destruct Hp as [Hid Huser].
  apply Z.eqb_eq in Hid. apply Z.eqb_eq in Huser.
  cbv zeta.
  set (t1 := match Bodies.upd_descricao data with
             | Some s => with_descricao t s
             | None => t
             end).
  set (t2 := match Bodies.upd_categoria data with
             | Some s => with_categoria t1 s
             | None => t1
             end).
  set (t3 := match Bodies.upd_notas data with
             | Some s => with_notas t2 s
             | None => t2
             end).
  assert (Ht3 : t3 = mkTransaction transaction_id user (valor_total t)
                  (match Bodies.upd_descricao data with
                   | Some s => s
                   | None => descricao t
                   end)
                  (match Bodies.upd_categoria data with
                   | Some s => s
                   | None => categoria t
                   end)
                  (tipo t) (data_compra t) (num_parcelas t)
                  (match Bodies.upd_notas data with
                   | Some s => Some s
                   | None => notas t
                   end)).
  { unfold t3, t2, t1. rewrite <- Hid, <- Huser.
    destruct (Bodies.upd_descricao data), (Bodies.upd_categoria data),
      (Bodies.upd_notas data); destruct t; reflexivity. }
  assert (Hkey : id t3 = id t) by (rewrite Ht3; cbn; congruence).
  assert (Hanswers : answers (read_transaction (update_transaction_row db t3) t3)
                       t3 (transaction_readable db t3)).
  { apply (answers_iff _ _
             (transaction_readable (update_transaction_row db t3) t3));
      [reflexivity|apply read_transaction_answers]. }
  exists t, t3. split; [reflexivity|]. split; [exact Ht3|].
  split.
  { unfold update_transaction_row; cbn [transactions].
    apply in_map_iff. exists t. split; [|exact Hin].
    now rewrite Hkey, Z.eqb_refl. }
  split; [reflexivity|].
  split.
  { intros mes ano uid. unfold update_transaction_row.
    apply (summary_ignores_text db (fun x => if id x =? id t3 then t3 else x)).
    intros x Hx. cbn beta. rewrite Hkey.
    destruct (Z.eqb_spec (id x) (id t)) as [Heq|]; [|repeat split].
    rewrite (same_transaction_key db x t Hnd Hx Hin Heq), Ht3. cbn.
    repeat split; congruence. }
  split; [exact Hanswers|].
  intros Hempty. apply (proj2 Hanswers).
  intros (_ & Hdesc & Hcat & _). rewrite Ht3 in Hdesc, Hcat.
  cbn [descricao categoria] in Hdesc, Hcat.
  destruct Hempty as [E|E]; rewrite E in *; cbn in *; lia.
Qed.

Lemma update_transaction_keeps_amounts_witness :
  match update_transaction 2
          (Bodies.mkTransactionUpdate None (Some "Mercado"%string) None)
          7 Samples.sample_db with
  | Return (db', response) =>
      exists t t',
        find_transaction Samples.sample_db 2 7 = Some t
        /\ t' = mkTransaction 2 7 (valor_total t)
                  (descricao t) "Mercado"%string
                  (tipo t) (data_compra t) (num_parcelas t) (notas t)
        /\ In t' (transactions db')
        /\ installments db' = installments Samples.sample_db
        /\ (forall mes ano uid,
              get_dashboard_summary mes ano uid db'
              = get_dashboard_summary mes ano uid Samples.sample_db)
        /\ answers response t' (transaction_readable Samples.sample_db t')
        /\ (Bodies.upd_descricao
              (Bodies.mkTransactionUpdate None (Some "Mercado"%string) None)
            = Some EmptyString
            \/ Bodies.upd_categoria
                 (Bodies.mkTransactionUpdate None (Some "Mercado"%string) None)
               = Some EmptyString ->
            response = Throw ResponseValidationError)
  | Throw e =>
      Bodies.validate_TransactionUpdate
        (Bodies.mkTransactionUpdate None (Some "Mercado"%string) None)
      = Throw e
      \/ (find_transaction Samples.sample_db 2 7 = None
          /\ e = HTTPException 404 "Transação não encontrada")
  end.
Proof.
  apply (update_transaction_keeps_amounts Samples.sample_db 2
           (Bodies.mkTransactionUpdate None (Some "Mercado"%string) None) 7).
  unfold transaction_keys_unique. cbn.
  repeat constructor; cbn; intuition discriminate.
Defined.

(** *** The installments of a month *)

Lemma date_leb_iff (a b : date) :
  date_leb a b = true
  <-> year a < year b
      \/ (year a = year b
          /\ (month a < month b \/ (month a = month b /\ day a <= day b))).
Proof.
  unfold date_leb.
  rewrite !orb_true_iff, !andb_true_iff, !orb_true_iff, !andb_true_iff,
    !Z.ltb_lt, !Z.eqb_eq, Z.leb_le. tauto.
Qed.

Lemma date_leb_total (a b : date) :
  date_leb a b = false -> date_leb b a = true.
Proof.
  intros H. apply date_leb_iff.
  assert (Hn : ~ (date_leb a b = true)) by (rewrite H; discriminate).
  rewrite date_leb_iff in Hn. lia.
Qed.

Lemma date_leb_trans (a b c : date) :
  date_leb a b = true -> date_leb b c = true -> date_leb a c = true.
Proof. rewrite !date_leb_iff. lia. Qed.

Lemma insert_by_date_perm (x : Installment) (l : list Installment) :
  Permutation (insert_by_date x l) (x :: l).
Proof.
  induction l as [|y l IH]; cbn [insert_by_date]; [reflexivity|].
  destruct (date_leb _ _); [reflexivity|].
  rewrite IH. apply perm_swap.
Qed.

Lemma order_by_data_vencimento_perm (l : list Installment) :
  Permutation (order_by_data_vencimento l) l.
Proof.
  induction l as [|x l IH]; cbn; [reflexivity|].
  rewrite insert_by_date_perm. now apply perm_skip.
Qed.

Lemma insert_by_date_sorted (x : Installment) (l : list Installment) :
  StronglySorted due_before l -> StronglySorted due_before (insert_by_date x l).
Proof.
  induction 1 as [|y l Hl IH Hy]; cbn [insert_by_date].
  - constructor; constructor.
  - destruct (date_leb (data_vencimento x) (data_vencimento y)) eqn:E.
    + constructor; [constructor; assumption|].
      constructor; [exact E|].
      eapply Forall_impl; [|exact Hy]. intros z Hz.
      unfold due_before in *. eapply date_leb_trans; eassumption.
    + constructor; [exact IH|].
      eapply Permutation_Forall; [symmetry; apply insert_by_date_perm|].
      constructor; [|exact Hy].
      unfold due_before. now apply date_leb_total.
Qed.

Lemma order_by_data_vencimento_sorted (l : list Installment) :
  StronglySorted due_before (order_by_data_vencimento l).
Proof.
  induction l as [|x l IH]; cbn; [constructor|].
  now apply insert_by_date_sorted.
Qed.

(** The installments of a month are those of the summary: for an
    accepted period, the list [l] that [get_installments_by_month] builds
    holds the installments of the transactions of the user that are due in
    the period, by due date, and their amounts add up to the installment
    part of the expenses of the summary of the period.  The response is
    this list when every installment of it passes [InstallmentRead], and a
    [ResponseValidationError] otherwise. *)
Theorem installments_by_month_total (db : Session) (mes ano user : Z) :
  1 <= mes <= 12 -> 2000 <= ano ->
  exists l s,
    answers (get_installments_by_month mes ano user db) l
      (Forall installment_readable l)
    /\ get_dashboard_summary mes ano user db = Ok s
    /\ sumZ valor_parcela l
       = Schemas.total_saidas s - query_total_debito db user mes ano
    /\ StronglySorted due_before l
    /\ (forall i,
          In i l
          <-> In i (installments db)
              /\ month (data_vencimento i) = mes
              /\ year (data_vencimento i) = ano
              /\ exists t, In t (transactions db)
                           /\ id t = transacao_id i
                           /\ user_id t = user).
Proof.
  intros Hmes Hano.
  exists (order_by_data_vencimento
            (map fst
               (filter (fun it => (user_id (snd it) =? user)
                                  && in_period (data_vencimento (fst it))
                                       mes ano)
                       (installments_join_transactions db)))).
  eexists.
  split.
  { unfold get_installments_by_month.
    destruct (period_accepted mes ano Hmes Hano) as [-> ->]. cbv zeta.
    apply answers_respond, validate_InstallmentRead_all. }
  split; [apply get_dashboard_summary_accepts; assumption|].
  cbn [Schemas.total_saidas].
  split; [|split].
  - rewrite (sumZ_perm _ _ _ (order_by_data_vencimento_perm _)).
    unfold query_total_parcelas.
    rewrite coalesce_sql_sum, sum_map, sumZ_map. lia.
  - apply order_by_data_vencimento_sorted.
  - intros i. split.
    + intros Hi.
      apply (Permutation_in _ (order_by_data_vencimento_perm _)) in Hi.
      apply in_map_iff in Hi. destruct Hi as [[i' t] [<- Hit]].
      apply filter_In in Hit. destruct Hit as [Hjoin Hp]. cbn [fst snd] in *.
      apply andb_true_iff in Hp. destruct Hp as [Hu Hper].
      apply Z.eqb_eq in Hu. unfold in_period in Hper.
      apply andb_true_iff in Hper. destruct Hper as [Hm Hy].
      apply Z.eqb_eq in Hm, Hy.
      destruct (join_member db i' t Hjoin) as [Hi' [Ht Hid]].
      split; [exact Hi'|]. split; [exact Hm|]. split; [exact Hy|].
      now exists t.
    + intros [Hi [Hm [Hy [t [Ht [Hid Hu]]]]]].
      apply (Permutation_in _
               (Permutation_sym (order_by_data_vencimento_perm _))).
      apply in_map_iff. exists (i, t). split; [reflexivity|].
      apply filter_In. cbn [fst snd]. split.
      * unfold installments_join_transactions. apply in_flat_map.
        exists i. split; [exact Hi|]. apply in_map, filter_In.
        split; [exact Ht|]. now apply Z.eqb_eq.
      * unfold in_period. rewrite Hu, Hm, Hy, !Z.eqb_refl. reflexivity.
Qed.

Lemma installments_by_month_total_witness :
  exists l s,
    answers (get_installments_by_month 2 2024 7 Samples.sample_db) l
      (Forall installment_readable l)
    /\ get_dashboard_summary 2 2024 7 Samples.sample_db = Ok s
    /\ sumZ valor_parcela l
       = Schemas.total_saidas s
         - query_total_debito Samples.sample_db 7 2 2024
    /\ StronglySorted due_before l
    /\ (forall i,
          In i l
          <-> In i (installments Samples.sample_db)
              /\ month (data_vencimento i) = 2
              /\ year (data_vencimento i) = 2024
              /\ exists t, In t (transactions Samples.sample_db)
                           /\ id t = transacao_id i
                           /\ user_id t = 7).
Proof. apply installments_by_month_total; lia. Defined.

(** *** The status shown for a transaction *)

(** One status in both lists: [list_transactions] and the recent
    transactions of the dashboard show the same status for a transaction:
    RECEBIDO for an income, CONFIRMADO for a debit expense, and for a
    credit purchase PENDENTE exactly when one of its installments is
    pending and CONFIRMADO otherwise, be its installments paid or
    overdue. *)
Theorem transaction_status (db : Session) (t : Transaction) :
  list_status db t = Some (recent_status db t)
  /\ match tipo t with
     | ENTRADA => recent_status db t = "RECEBIDO"%string
     | SAIDA_DEBITO => recent_status db t = "CONFIRMADO"%string
     | SAIDA_CREDITO =>
         (recent_status db t = "PENDENTE"%string
          <-> exists i, In i (installments db)
                        /\ transacao_id i = id t
                        /\ status_pagamento i = PENDENTE)
         /\ (recent_status db t = "PENDENTE"%string
             \/ recent_status db t = "CONFIRMADO"%string)
     end.
Proof.
  unfold list_status, recent_status.
  destruct (tipo t); cbn [tipo_eqb]; (split; [reflexivity|]);
    try reflexivity.
  destruct (existsb _ (installments_of db t)) eqn:E.
  - split; [|now left]. split; [|reflexivity]. intros _.
    apply existsb_exists in E. destruct E as [i [Hi Hs]].
    unfold installments_of in Hi. apply filter_In in Hi.
    destruct Hi as [Hi Hid]. apply Z.eqb_eq in Hid.
    exists i. repeat split; try assumption.
    destruct (status_pagamento i); try discriminate; reflexivity.
  - split; [|now right]. split; [discriminate|].
    intros [i [Hi [Hid Hs]]]. exfalso.
    assert (Hex : existsb (fun i => status_eqb (status_pagamento i) PENDENTE)
                    (installments_of db t) = true).
    { apply existsb_exists. exists i. split.
      - unfold installments_of. apply filter_In. split; [exact Hi|].
        now apply Z.eqb_eq.
      - now rewrite Hs. }
    rewrite Hex in E. discriminate.
Qed.

End TransactionsFacts.

